(** * Caro_Cosmos: gesture tracker, particle engine, formation generators

    A shallow embedding of the JavaScript sources

      - handTracking.js  (module [HandTracking])
      - particles.js     (module [Particles])
      - textPoints.js    (module [TextPoints])
      - main.js          (module [Main])

    JavaScript numbers are IEEE-754 binary64 values.  The hand tracker only
    compares and scales landmark coordinates, so it is embedded directly on
    Rocq's primitive binary64 floats.  The particle engine is embedded once,
    over an interface of the arithmetic it uses ([JsNum]); the interface is
    instantiated with binary64 arithmetic and binary32 storage (what the
    browser runs) and with exact real arithmetic (what the design reasons
    about). *)

From Stdlib Require Import ZArith QArith Qround Reals Lra Lia List.
From Stdlib Require Import Floats.PrimFloat Floats.FloatOps Floats.SpecFloat.
From Stdlib Require Import Floats.FloatAxioms.
From stdpp Require Import base option list strings gmap.

Set Warnings "-inexact-float,-abstract-large-number".
Set Default Proof Using "Type".

(** ** Abrupt completion

    The only exception the embedded code can raise by itself is the
    [TypeError] of reading a property of [undefined]. *)

Inductive Res (A : Type) : Type :=
| Ok (a : A)
| Throw.
Arguments Ok {A} a.
Arguments Throw {A}.

Definition res_bind {A B} (r : Res A) (k : A -> Res B) : Res B :=
  match r with
  | Ok a => k a
  | Throw => Throw
  end.

Declare Scope res_scope.
Delimit Scope res_scope with res.
Notation "x <- r ;; k" := (res_bind r (fun x => k))
  (at level 100, r at next level, right associativity) : res_scope.

(** [o.p] for an [o] that was read out of an array: a [TypeError] when the
    read gave [undefined]. *)
Definition defined {A} (o : option A) : Res A :=
  match o with
  | Some a => Ok a
  | None => Throw
  end.

(* ================================================================== *)
(** * handTracking.js *)
(* ================================================================== *)

Module HandTracking.

(** [GESTURES]: the six gesture names; [null] is [None] of
    [option Gesture]. *)
Inductive Gesture : Set :=
| INDEX_UP | PEACE | ROCK | ILY | OPEN | FIST.

#[export] Instance Gesture_eq_dec : EqDecision Gesture.
Proof. solve_decision. Defined.

(** One MediaPipe landmark [{x, y, z}]. *)
Record Landmark : Set := mkLandmark { x : float; y : float; z : float }.

Inductive Finger : Set := thumb | index | middle | ring | pinky.

(** [const map = { index: [8, 6], middle: [12, 10], ring: [16, 14],
    pinky: [20, 18] }] *)
Definition finger_map (finger : Finger) : option (nat * nat) :=
  match finger with
  | thumb => None
  | index => Some (8, 6)
  | middle => Some (12, 10)
  | ring => Some (16, 14)
  | pinky => Some (20, 18)
  end.

Local Open Scope res_scope.

(** [_isFingerExtended(landmarks, finger)].  [a > b] is [b < a]. *)
Definition _isFingerExtended (landmarks : list Landmark) (finger : Finger)
  : Res bool :=
  match finger with
  | thumb =>
      tip <- defined (landmarks !! 4) ;;
      ip <- defined (landmarks !! 3) ;;
      mcp <- defined (landmarks !! 2) ;;
      Ok (PrimFloat.ltb (PrimFloat.abs (x ip - x mcp) * 1.2)%float
                        (PrimFloat.abs (x tip - x mcp))%float)
  | _ =>
      idxs <- defined (finger_map finger) ;;
      let '(tipIdx, pipIdx) := idxs in
      tip <- defined (landmarks !! tipIdx) ;;
      pip <- defined (landmarks !! pipIdx) ;;
      Ok (PrimFloat.ltb (y tip) (y pip))
  end.

(** [[thumb, index, middle, ring, pinky].filter(Boolean).length] *)
Definition extendedCount (flags : list bool) : nat :=
  length (filter (fun b => b = true) flags).

(** The cascade of [if (...) return ...] of [_classifyGesture], on the five
    flags. *)
Definition classifyFlags (thumb index middle ring pinky : bool)
  : option Gesture :=
  let extendedCount := extendedCount [thumb; index; middle; ring; pinky] in
  if thumb && index && negb middle && negb ring && pinky then Some ILY
  else if negb thumb && index && negb middle && negb ring && pinky then Some ROCK
  else if index && middle && negb ring && negb pinky then Some PEACE
  else if index && negb middle && negb ring && negb pinky && negb thumb
       then Some INDEX_UP
  else if (4 <=? extendedCount)%nat then Some OPEN
  else if (extendedCount <=? 1)%nat then Some FIST
  else None.

(** [_classifyGesture(landmarks)] *)
Definition _classifyGesture (landmarks : list Landmark)
  : Res (option Gesture) :=
  thumb <- _isFingerExtended landmarks thumb ;;
  index <- _isFingerExtended landmarks index ;;
  middle <- _isFingerExtended landmarks middle ;;
  ring <- _isFingerExtended landmarks ring ;;
  pinky <- _isFingerExtended landmarks pinky ;;
  Ok (classifyFlags thumb index middle ring pinky).

(** The tracker object.  The DOM handles ([_video], [_hands],
    [_previewCtx], [_rafId]) only serve the camera preview and are left
    out. *)
Record HandTracker : Set := mkHandTracker {
  fingerPos : option (float * float);
  gesture : option Gesture;
  active : bool;
  _gestureBuffer : option Gesture;
  _gestureCount : nat;
  _DEBOUNCE : nat
}.

(** [constructor()] *)
Definition new_HandTracker : HandTracker :=
  {| fingerPos := None; gesture := None; active := false;
     _gestureBuffer := None; _gestureCount := 0; _DEBOUNCE := 3 |}.

Definition set_fingerPos (p : option (float * float)) (t : HandTracker)
  : HandTracker :=
  {| fingerPos := p; gesture := gesture t; active := active t;
     _gestureBuffer := _gestureBuffer t; _gestureCount := _gestureCount t;
     _DEBOUNCE := _DEBOUNCE t |}.

(** The block "Gesture classification with debounce" of [_onResults],
    after [raw] has been computed:

<<
      if (raw === this._gestureBuffer) { this._gestureCount++; }
      else { this._gestureBuffer = raw; this._gestureCount = 1; }
      if (this._gestureCount >= this._DEBOUNCE) { this.gesture = raw; }
>> *)
Definition debounce (raw : option Gesture) (t : HandTracker) : HandTracker :=
  let '(buffer, count) :=
    if decide (raw = _gestureBuffer t)
    then (_gestureBuffer t, S (_gestureCount t))
    else (raw, 1) in
  {| fingerPos := fingerPos t;
     gesture := if (_DEBOUNCE t <=? count)%nat then raw else gesture t;
     active := active t;
     _gestureBuffer := buffer; _gestureCount := count;
     _DEBOUNCE := _DEBOUNCE t |}.

(** What MediaPipe hands over: [results.multiHandLandmarks] is absent
    ([None]) or an array with one landmark list per hand. *)
Record Results : Set := mkResults {
  multiHandLandmarks : option (list (list Landmark))
}.

(** [_onResults(results)], as the completion together with the tracker the
    call leaves behind (drawing on the preview canvas left out). *)
Definition _onResults (results : Results) (t : HandTracker)
  : Res unit * HandTracker :=
  match multiHandLandmarks results with
  | Some (lm :: _) =>
      match lm !! 8 with
      | None => (Throw, t)
      | Some tip =>
          let t1 :=
            set_fingerPos (Some (- (x tip * 2 - 1), - (y tip * 2 - 1))%float) t in
          match _classifyGesture lm with
          | Throw => (Throw, t1)
          | Ok raw => (Ok tt, debounce raw t1)
          end
      end
  | _ => (Ok tt, set_fingerPos None t)
  end.

(** [stop()], on the tracker fields. *)
Definition stop (t : HandTracker) : HandTracker :=
  {| fingerPos := None; gesture := None; active := false;
     _gestureBuffer := _gestureBuffer t; _gestureCount := _gestureCount t;
     _DEBOUNCE := _DEBOUNCE t |}.

(** *** Running the tracker *)

(** The debouncer fed a sequence of raw labels, one per call. *)
Definition feed (raws : list (option Gesture)) (t : HandTracker)
  : HandTracker :=
  fold_left (fun t raw => debounce raw t) raws t.

(** The committed label after each call. *)
Fixpoint stable_trace (raws : list (option Gesture)) (t : HandTracker)
  : list (option Gesture) :=
  match raws with
  | [] => []
  | raw :: raws =>
      let t' := debounce raw t in gesture t' :: stable_trace raws t'
  end.


(** The run of equal labels that the buffer and the counter stand for:
    the last [_gestureCount] raw labels fed all were [_gestureBuffer]. *)
Definition tracks (raws : list (option Gesture)) (t : HandTracker) : Prop :=
  exists earlier,
    raws = earlier ++ replicate (_gestureCount t) (_gestureBuffer t).

(** A tracker that has committed PEACE: three raw PEACE labels in a row. *)
Definition peace_tracker : HandTracker :=
  feed [Some PEACE; Some PEACE; Some PEACE] new_HandTracker.

(** *** The classifier as the design describes it

    "an ordered list of (predicate, label) evaluated first-match-wins". *)

Record Flags : Set := mkFlags {
  f_thumb : bool; f_index : bool; f_middle : bool; f_ring : bool;
  f_pinky : bool
}.

Definition flag_count (f : Flags) : nat :=
  extendedCount [f_thumb f; f_index f; f_middle f; f_ring f; f_pinky f].

Definition priority_table : list ((Flags -> bool) * Gesture) :=
  [ (fun f => f_thumb f && f_index f && negb (f_middle f) && negb (f_ring f)
              && f_pinky f, ILY);
    (fun f => negb (f_thumb f) && f_index f && negb (f_middle f)
              && negb (f_ring f) && f_pinky f, ROCK);
    (fun f => f_index f && f_middle f && negb (f_ring f) && negb (f_pinky f),
     PEACE);
    (fun f => f_index f && negb (f_middle f) && negb (f_ring f)
              && negb (f_pinky f) && negb (f_thumb f), INDEX_UP);
    (fun f => (4 <=? flag_count f)%nat, OPEN);
    (fun f => (flag_count f <=? 1)%nat, FIST) ].

Fixpoint first_match (table : list ((Flags -> bool) * Gesture)) (f : Flags)
  : option Gesture :=
  match table with
  | [] => None
  | (p, g) :: table => if p f then Some g else first_match table f
  end.

(** *** Concrete hands *)

(** A hand given by the 21 [(x, y)] pairs, depth 0. *)
Definition hand_of (pts : list (float * float)) : list Landmark :=
  map (fun p => mkLandmark (fst p) (snd p) 0%float) pts.

(** Thumb, index and pinky stretched, middle and ring curled. *)
Definition ily_hand : list Landmark :=
  hand_of
    [ (0.5, 0.9); (0.45, 0.8); (0.4, 0.7); (0.35, 0.65); (0.25, 0.6);
      (0.45, 0.6); (0.45, 0.5); (0.45, 0.4); (0.45, 0.3);
      (0.5, 0.6); (0.5, 0.55); (0.5, 0.6); (0.5, 0.65);
      (0.55, 0.6); (0.55, 0.55); (0.55, 0.6); (0.55, 0.65);
      (0.6, 0.65); (0.6, 0.55); (0.6, 0.5); (0.6, 0.45) ]%float.

(** Index, middle and ring stretched, thumb and pinky curled: three fingers,
    none of the six patterns. *)
Definition three_finger_hand : list Landmark :=
  hand_of
    [ (0.5, 0.9); (0.45, 0.8); (0.4, 0.7); (0.42, 0.68); (0.41, 0.7);
      (0.45, 0.6); (0.45, 0.5); (0.45, 0.4); (0.45, 0.3);
      (0.5, 0.6); (0.5, 0.5); (0.5, 0.4); (0.5, 0.3);
      (0.55, 0.6); (0.55, 0.5); (0.55, 0.4); (0.55, 0.3);
      (0.6, 0.65); (0.6, 0.55); (0.6, 0.6); (0.6, 0.65) ]%float.

Definition no_hand : Results := {| multiHandLandmarks := Some [] |}.
Definition one_hand (lm : list Landmark) : Results :=
  {| multiHandLandmarks := Some [lm] |}.

End HandTracking.


(* ================================================================== *)
(** * JavaScript numbers *)
(* ================================================================== *)

(** The arithmetic the particle engine and the generators perform on
    coordinates.  [fround] is the value a [Float32Array] keeps of a number
    stored into it; [nan] is what a store receives for [undefined]. *)
Class JsNum (num : Type) : Type := {
  lit : Q -> num;                (* a numeric literal *)
  of_nat : nat -> num;           (* a loop counter used as a number *)
  nadd : num -> num -> num;
  nsub : num -> num -> num;
  nmul : num -> num -> num;
  ndiv : num -> num -> num;
  nsqrt : num -> num;            (* Math.sqrt *)
  nlt : num -> num -> bool;      (* a < b ; a > b is nlt b a *)
  nle : num -> num -> bool;      (* a <= b *)
  nan : num;
  fround : num -> num
}.

Declare Scope js_scope.
Delimit Scope js_scope with js.
Infix "+" := nadd : js_scope.
Infix "-" := nsub : js_scope.
Infix "*" := nmul : js_scope.
Infix "/" := ndiv : js_scope.
Infix "<?" := nlt : js_scope.
Infix "<=?" := nle : js_scope.

(** The rest of [Math] the generators call. *)
Class JsMath (num : Type) : Type := {
  Math_PI : num;
  Math_sin : num -> num;
  Math_cos : num -> num;
  Math_acos : num -> num;
  Math_cbrt : num -> num;
  Math_pow : num -> num -> num;
  Math_floor : num -> num
}.

(** ** binary64 arithmetic with binary32 storage: the browser's numbers *)

Module Float32.

Definition of_Z (z : Z) : float :=
  SF2Prim (binary_normalize 53 1024 z 0 false).

(** Rounding a binary64 value to the nearest binary32 value, ties to even
    ([Math.fround]); infinities, zeros and NaN are kept. *)
Definition fround32 (x : float) : float :=
  match Prim2SF x with
  | S754_finite s m e => SF2Prim (binary_round 24 128 s m e)
  | _ => x
  end.

(** A decimal literal [n/d] denotes the binary64 value nearest to it, which
    is what the correctly rounded quotient of [n] by [d] gives whenever [n]
    and [d] are below 2^53. *)
Definition literal (q : Q) : float :=
  PrimFloat.div (of_Z (Qnum q)) (of_Z (Zpos (Qden q))).

#[export] Instance float_JsNum : JsNum float := {|
  lit := literal;
  of_nat := fun n => of_Z (Z.of_nat n);
  nadd := PrimFloat.add;
  nsub := PrimFloat.sub;
  nmul := PrimFloat.mul;
  ndiv := PrimFloat.div;
  nsqrt := PrimFloat.sqrt;
  nlt := PrimFloat.ltb;
  nle := PrimFloat.leb;
  nan := PrimFloat.nan;
  fround := fround32
|}.

End Float32.

(** ** Exact arithmetic: real numbers and one NaN *)

Module Exact.

(** [Some r] is the real number [r]; [None] is NaN.  There are no
    infinities and no rounding: a division by zero and the square root of a
    negative number are NaN. *)
Abbreviation xreal := (option R).

Definition lift2 (f : R -> R -> R) (a b : xreal) : xreal :=
  match a, b with
  | Some x, Some y => Some (f x y)
  | _, _ => None
  end.

Definition xdiv (a b : xreal) : xreal :=
  match a, b with
  | Some x, Some y => if Req_dec_T y 0 then None else Some (x / y)%R
  | _, _ => None
  end.

Definition xsqrt (a : xreal) : xreal :=
  match a with
  | Some x => if Rlt_dec x 0 then None else Some (R_sqrt.sqrt x)
  | None => None
  end.

Definition xlt (a b : xreal) : bool :=
  match a, b with
  | Some x, Some y => if Rlt_dec x y then true else false
  | _, _ => false
  end.

Definition xle (a b : xreal) : bool :=
  match a, b with
  | Some x, Some y => if Rle_dec x y then true else false
  | _, _ => false
  end.

#[export] Instance xreal_JsNum : JsNum xreal := {|
  lit := fun q => Some (Q2R q);
  of_nat := fun n => Some (INR n);
  nadd := lift2 Rplus;
  nsub := lift2 Rminus;
  nmul := lift2 Rmult;
  ndiv := xdiv;
  nsqrt := xsqrt;
  nlt := xlt;
  nle := xle;
  nan := None;
  fround := fun a => a
|}.

End Exact.

(* ================================================================== *)
(** * Array indices *)
(* ================================================================== *)

(** The numbers the code uses as array indices come from array lengths and
    loop counters by [/ 3], [%], [* 3] and [+ 1]; they are modelled as exact
    rationals, with [None] for NaN.  binary64 performs these operations
    without rounding on the integers an array length can be; the quotient
    of a length that is not a multiple of three is the one place where the
    model is exact and binary64 rounds. *)

Module Index.

Definition number : Type := option Q.

Definition truncate (q : Q) : Z :=
  if Qle_bool 0 q then Qfloor q else Qceiling q.

(** [a % b] *)
Definition rem (a b : Q) : number :=
  if Qeq_bool b 0 then None
  else Some (a - b * inject_Z (truncate (a / b)))%Q.

(** [k * c] and [k + c] *)
Definition times (k : number) (c : Q) : number :=
  match k with Some q => Some (q * c)%Q | None => None end.
Definition plus (k : number) (c : Q) : number :=
  match k with Some q => Some (q + c)%Q | None => None end.

(** The element a property key [k] names: a canonical non-negative
    integer names that element, anything else names none. *)
Definition to_index (k : number) : option nat :=
  match k with
  | Some q =>
      let r := Qred q in
      if (Zpos (Qden r) =? 1)%Z && (0 <=? Qnum r)%Z
      then Some (Z.to_nat (Qnum r)) else None
  | None => None
  end.

(** [a[k]]: [None] is [undefined]. *)
Definition get {A} (a : list A) (k : number) : option A :=
  match to_index k with
  | Some i => a !! i
  | None => None
  end.

End Index.

(** [ToNumber] of an array read, as an arithmetic operand or a typed-array
    store takes it: [undefined] is NaN. *)
Definition to_number {num} `{JsNum num} (v : option num) : num :=
  match v with
  | Some a => a
  | None => nan
  end.

(* ================================================================== *)
(** * particles.js *)
(* ================================================================== *)

Module Particles.

Definition PARTICLE_COUNT : nat := 5000.

(** [THREE.Vector3], the attractor. *)
Record Vector3 (num : Type) : Type := mkVector3 {
  v_x : num; v_y : num; v_z : num
}.
Arguments mkVector3 {num}.
Arguments v_x {num}.
Arguments v_y {num}.
Arguments v_z {num}.

(** The particle system: the fields of [ParticleSystem] the update works
    on.  [positions] is the [Float32Array] behind
    [geometry.getAttribute('position')], [uTime] is
    [material.uniforms.uTime.value], [needsUpdate] the flag of the position
    attribute. *)
Record ParticleSystem (num : Type) : Type := mkParticleSystem {
  count : nat;
  _targetPositions : option (list num);
  lerpSpeed : num;
  attractor : option (Vector3 num);
  attractRadius : num;
  attractStrength : num;
  positions : list num;
  uTime : num;
  needsUpdate : bool
}.
Arguments mkParticleSystem {num}.
Arguments count {num}.
Arguments _targetPositions {num}.
Arguments lerpSpeed {num}.
Arguments attractor {num}.
Arguments attractRadius {num}.
Arguments attractStrength {num}.
Arguments positions {num}.
Arguments uTime {num}.
Arguments needsUpdate {num}.

Section Engine.
Context {num : Type} {N : JsNum num}.
Local Open Scope js_scope.

(** [constructor()], given the [count * 3] coordinates [_buildGeometry]
    draws at random. *)
Definition new_ParticleSystem (initial : list num) : ParticleSystem num :=
  {| count := PARTICLE_COUNT;
     _targetPositions := None;
     lerpSpeed := lit 0.08;
     attractor := None;
     attractRadius := lit 4.0;
     attractStrength := lit 0.06;
     positions := initial;
     uTime := lit 0;
     needsUpdate := false |}.

(** [new Float32Array(n)] *)
Definition Float32Array (n : nat) : list num := replicate n (lit 0).

(** [a[i] = v] on a [Float32Array]: the value is rounded to binary32, a
    store past the end is ignored. *)
Definition store (a : list num) (i : nat) (v : num) : list num :=
  <[i := fround v]> a.

(** [a[i]] read as a number. *)
Definition load (a : list num) (i : nat) : num := to_number (a !! i).

(** The body of the loop of [setTarget], for one [i]. *)
Definition setTarget_step (targetArray : list num) (srcLen : Q)
    (out : list num) (i : nat) : list num :=
  let si := Index.times (Index.rem (inject_Z (Z.of_nat i)) srcLen) 3 in
  let out := store out (i * 3)
               (to_number (Index.get targetArray si)) in
  let out := store out (i * 3 + 1)
               (to_number (Index.get targetArray (Index.plus si 1))) in
  store out (i * 3 + 2)
    (to_number (Index.get targetArray (Index.plus si 2))).

(** The value that [setTarget] stores for coordinate [c] of particle [i]. *)
Definition wrapped (targetArray : list num) (srcLen : Q) (i c : nat) : num :=
  let si := Index.times (Index.rem (inject_Z (Z.of_nat i)) srcLen) 3 in
  match c with
  | 0 => to_number (Index.get targetArray si)
  | 1 => to_number (Index.get targetArray (Index.plus si 1))
  | _ => to_number (Index.get targetArray (Index.plus si 2))
  end.

(** The buffer [out] that [setTarget] builds.  The index arithmetic is that
    of [Index]: as in the code for a source of whole points and for the
    empty source. *)
Definition wrap (n : nat) (targetArray : list num) : list num :=
  let out := Float32Array (n * 3) in
  let srcLen := (inject_Z (Z.of_nat (length targetArray)) / 3)%Q in
  fold_left (setTarget_step targetArray srcLen) (seq 0 n) out.

(** [setTarget(targetArray)] *)
Definition setTarget (targetArray : list num) (s : ParticleSystem num)
  : ParticleSystem num :=
  {| count := count s;
     _targetPositions := Some (wrap (count s) targetArray);
     lerpSpeed := lerpSpeed s;
     attractor := attractor s;
     attractRadius := attractRadius s;
     attractStrength := attractStrength s;
     positions := positions s;
     uTime := uTime s;
     needsUpdate := needsUpdate s |}.

(** Step 1 of the loop body of [update]: the three
    [pos[k] += (target[k] - pos[k]) * lerpSpeed]. *)
Definition lerp (s : ParticleSystem num) (pos : list num) (i : nat)
  : list num :=
  let ix := (i * 3)%nat in
  let iy := (ix + 1)%nat in
  let iz := (ix + 2)%nat in
  match _targetPositions s with
  | Some target =>
      let pos := store pos ix
        (load pos ix + (load target ix - load pos ix) * lerpSpeed s) in
      let pos := store pos iy
        (load pos iy + (load target iy - load pos iy) * lerpSpeed s) in
      store pos iz
        (load pos iz + (load target iz - load pos iz) * lerpSpeed s)
  | None => pos
  end.

(** One coordinate, one frame: [p += (t - p) * lerpSpeed] under the store
    into the position buffer. *)
Definition lerp1 (speed p t : num) : num :=
  fround (p + (t - p) * speed).

(** The distance [dist] that step 2 computes for particle [i]. *)
Definition dist_to (a : Vector3 num) (pos : list num) (i : nat) : num :=
  let dx := v_x a - load pos (i * 3) in
  let dy := v_y a - load pos (i * 3 + 1) in
  let dz := v_z a - load pos (i * 3 + 2) in
  nsqrt (dx * dx + dy * dy + dz * dz).

(** Step 2 of the loop body of [update]: the attractor force. *)
Definition attract (s : ParticleSystem num) (pos : list num) (i : nat)
  : list num :=
  let ix := (i * 3)%nat in
  let iy := (ix + 1)%nat in
  let iz := (ix + 2)%nat in
  match attractor s with
  | Some a =>
      let dx := v_x a - load pos ix in
      let dy := v_y a - load pos iy in
      let dz := v_z a - load pos iz in
      let dist := nsqrt (dx * dx + dy * dy + dz * dz) in
      if (dist <? attractRadius s) && (lit 0.01 <? dist) then
        let force := attractStrength s * (lit 1 - dist / attractRadius s) in
        let pos := store pos ix (load pos ix + dx / dist * force) in
        let pos := store pos iy (load pos iy + dy / dist * force) in
        store pos iz (load pos iz + dz / dist * force)
      else pos
  | None => pos
  end.

(** The loop body of [update] for particle [i]. *)
Definition update_particle (s : ParticleSystem num) (pos : list num)
    (i : nat) : list num :=
  attract s (lerp s pos i) i.

(** [update(elapsed)] *)
Definition update (elapsed : num) (s : ParticleSystem num)
  : ParticleSystem num :=
  {| count := count s;
     _targetPositions := _targetPositions s;
     lerpSpeed := lerpSpeed s;
     attractor := attractor s;
     attractRadius := attractRadius s;
     attractStrength := attractStrength s;
     positions := fold_left (update_particle s) (seq 0 (count s)) (positions s);
     uTime := elapsed;
     needsUpdate := true |}.

(** [n] frames, at the given times. *)
Definition run (frames : list num) (s : ParticleSystem num)
  : ParticleSystem num :=
  fold_left (fun s elapsed => update elapsed s) frames s.

End Engine.

End Particles.

(* ================================================================== *)
(** * textPoints.js *)
(* ================================================================== *)

Module TextPoints.

Import Particles.

(** A [THREE.BufferGeometry] as [sampleSurface] reads it: the flat array of
    the [position] attribute (three numbers per vertex) and the optional
    index array. *)
Record Geometry (num : Type) : Type := mkGeometry {
  g_position : list num;
  g_index : option (list nat)
}.
Arguments mkGeometry {num}.
Arguments g_position {num}.
Arguments g_index {num}.

Section Generators.
Context {num : Type} {N : JsNum num} {M : JsMath num}.

(** [random k] is the number the [k]-th call of [Math.random()] returns. *)
Variable random : nat -> num.

(** [new THREE.Triangle(a, b, c).getArea()], of the geometry library. *)
Variable getArea : Vector3 num -> Vector3 num -> Vector3 num -> num.

(** [new TextGeometry(text, {font: _font, size: 3, depth: 0.4, ...})] after
    [geo.center()], of the geometry library. *)
Variable TextGeometry : string -> Geometry num.

Local Open Scope js_scope.

(** Computations that call [Math.random()]: the state is the number of
    calls made so far. *)
Definition Gen (A : Type) : Type := nat -> A * nat.

Definition ret {A} (a : A) : Gen A := fun k => (a, k).

Definition bind {A B} (g : Gen A) (f : A -> Gen B) : Gen B :=
  fun k => let '(a, k') := g k in f a k'.

Definition Math_random : Gen num := fun k => (random k, S k).

Notation "x <~ g ;; f" := (bind g (fun x => f))
  (at level 100, g at next level, right associativity).

(** [for (let i = 0; i < n; i++) body] on the array being filled. *)
Fixpoint for_loop (body : nat -> list num -> Gen (list num))
    (i n : nat) (arr : list num) : Gen (list num) :=
  match n with
  | O => ret arr
  | S n => arr <~ body i arr ;; for_loop body (S i) n arr
  end.

(** The uniform-volume point in a ball that three generators share. *)
Definition ball_point (radius : num) (i : nat) (arr : list num)
  : Gen (list num) :=
  u <~ Math_random ;;
  let theta := u * Math_PI * lit 2 in
  u <~ Math_random ;;
  let phi := Math_acos (lit 2 * u - lit 1) in
  u <~ Math_random ;;
  let r := radius * Math_cbrt u in
  let arr := store arr (i * 3) (r * Math_sin phi * Math_cos theta) in
  let arr := store arr (i * 3 + 1) (r * Math_sin phi * Math_sin theta) in
  ret (store arr (i * 3 + 2) (r * Math_cos phi)).

(** [getSpherePositions(count, radius)] *)
Definition getSpherePositions (count : nat) (radius : num)
  : Gen (list num) :=
  for_loop (ball_point radius) 0 count (Float32Array (count * 3)).

(** [getHeartPositions(count, scale)] *)
Definition getHeartPositions (count : nat) (scale : num) : Gen (list num) :=
  for_loop
    (fun i arr =>
       u <~ Math_random ;;
       let t := u * Math_PI * lit 2 in
       let x := lit 16 * Math_pow (Math_sin t) (lit 3) in
       let y := lit 13 * Math_cos t - lit 5 * Math_cos (lit 2 * t)
                - lit 2 * Math_cos (lit 3 * t) - Math_cos (lit 4 * t) in
       u <~ Math_random ;;
       let z := (u - lit 0.5) * lit 2 in
       let arr := store arr (i * 3) (x * scale * lit 0.25) in
       let arr := store arr (i * 3 + 1) (y * scale * lit 0.25) in
       ret (store arr (i * 3 + 2) (z * lit 0.3)))
    0 count (Float32Array (count * 3)).

(** [getCompactPositions(count, radius)] *)
Definition getCompactPositions (count : nat) (radius : num)
  : Gen (list num) :=
  for_loop (ball_point radius) 0 count (Float32Array (count * 3)).

(** [getPlanetPositions(count)] *)
Definition getPlanetPositions (count : nat) : Gen (list num) :=
  let coreCount := Math_floor (of_nat count * lit 0.4) in
  for_loop
    (fun i arr =>
       if of_nat i <? coreCount then ball_point (lit 2.0) i arr
       else
         u <~ Math_random ;;
         let angle := u * Math_PI * lit 2 in
         u <~ Math_random ;;
         let ringR := lit 4.0 + (u - lit 0.5) * lit 1.8 in
         u <~ Math_random ;;
         let y := (u - lit 0.5) * lit 0.3 in
         let arr := store arr (i * 3) (Math_cos angle * ringR) in
         let arr := store arr (i * 3 + 1) y in
         ret (store arr (i * 3 + 2) (Math_sin angle * ringR)))
    0 count (Float32Array (count * 3)).

(** *** [sampleSurface] *)

(** [idx ? idx.getX(k) : k]: a vertex number, or [undefined]. *)
Definition vertex_number (geometry : Geometry num) (k : nat) : option nat :=
  match g_index geometry with
  | Some idx => idx !! k
  | None => Some k
  end.

(** [v.fromBufferAttribute(pos, i)]: the three coordinates of vertex [i];
    the geometry code only does arithmetic on them, so a missing one counts
    as NaN. *)
Definition fromBufferAttribute (pos : list num) (i : option nat)
  : Vector3 num :=
  match i with
  | Some i =>
      mkVector3 (load pos (i * 3)) (load pos (i * 3 + 1)) (load pos (i * 3 + 2))
  | None => mkVector3 nan nan nan
  end.

(** The corners of triangle [ti]. *)
Definition corners (geometry : Geometry num) (ti : nat)
  : Vector3 num * Vector3 num * Vector3 num :=
  let pos := g_position geometry in
  (fromBufferAttribute pos (vertex_number geometry (ti * 3)),
   fromBufferAttribute pos (vertex_number geometry (ti * 3 + 1)),
   fromBufferAttribute pos (vertex_number geometry (ti * 3 + 2))).

(** [idx ? idx.count / 3 : pos.count / 3], where [pos.count] is the length
    of the position array over its item size 3. *)
Definition triCount (geometry : Geometry num) : Q :=
  match g_index geometry with
  | Some idx => inject_Z (Z.of_nat (length idx)) / 3
  | None => inject_Z (Z.of_nat (length (g_position geometry))) / 3 / 3
  end%Q.

(** The number of [i = 0, 1, ...] with [i < bound], and the length of
    [new Float32Array(bound)]. *)
Definition iterations (bound : Q) : nat := Z.to_nat (Qceiling bound).
Definition array_length (bound : Q) : nat := Z.to_nat (Index.truncate bound).

(** The first loop: the triangle areas and their sum. *)
Fixpoint area_loop (geometry : Geometry num) (i n : nat)
    (areas : list num) (totalArea : num) : list num * num :=
  match n with
  | O => (areas, totalArea)
  | S n =>
      let '(a, b, c) := corners geometry i in
      let area := getArea a b c in
      area_loop geometry (S i) n (store areas i area) (totalArea + area)
  end.

(** The second loop: [cdf[i] = cdf[i - 1] + areas[i] / totalArea]. *)
Fixpoint cdf_loop (areas : list num) (totalArea : num) (i n : nat)
    (cdf : list num) : list num :=
  match n with
  | O => cdf
  | S n =>
      cdf_loop areas totalArea (S i) n
        (store cdf i (load cdf (i - 1) + load areas i / totalArea))
  end.

(** [for (ti = 0; ti < triCount - 1; ti++) if (r <= cdf[ti]) break;] with
    [n] values of [ti] left to try: the [ti] the loop ends on. *)
Fixpoint pick (cdf : list num) (r : num) (ti n : nat) : nat :=
  match n with
  | O => ti
  | S n => if r <=? load cdf ti then ti else pick cdf r (S ti) n
  end.

(** One sample [s]. *)
Definition sample (geometry : Geometry num) (cdf : list num) (s : nat)
    (arr : list num) : Gen (list num) :=
  r <~ Math_random ;;
  let ti := pick cdf r 0 (iterations (triCount geometry - 1)%Q) in
  let '(a, b, c) := corners geometry ti in
  u <~ Math_random ;;
  v <~ Math_random ;;
  let '(u, v) := if lit 1 <? u + v then (lit 1 - u, lit 1 - v) else (u, v) in
  let w := lit 1 - u - v in
  let arr := store arr (s * 3) (v_x a * w + v_x b * u + v_x c * v) in
  let arr := store arr (s * 3 + 1) (v_y a * w + v_y b * u + v_y c * v) in
  ret (store arr (s * 3 + 2) (v_z a * w + v_z b * u + v_z c * v)).

(** [sampleSurface(geometry, count)] *)
Definition sampleSurface (geometry : Geometry num) (count : nat)
  : Gen (list num) :=
  let arr := Float32Array (count * 3) in
  let triCount := triCount geometry in
  let areas := Float32Array (array_length triCount) in
  let '(areas, totalArea) :=
    area_loop geometry 0 (iterations triCount) areas (lit 0) in
  let cdf := Float32Array (array_length triCount) in
  let cdf := store cdf 0 (load areas 0 / totalArea) in
  let cdf := cdf_loop areas totalArea 1 (iterations triCount - 1) cdf in
  for_loop (sample geometry cdf) 0 count arr.

(** [getTextPositions(text, count)].  [new TextGeometry(text, ...)] with
    [center()] is the parameter [TextGeometry]; the calls of
    [Math.random()] that the rendering library makes inside it are not
    counted. *)
Definition getTextPositions (text : string) (count : nat) : Gen (list num) :=
  sampleSurface (TextGeometry text) count.

End Generators.

End TextPoints.

(* ================================================================== *)
(** * main.js *)
(* ================================================================== *)

Module Main.

Import HandTracking Particles TextPoints.

(** Formation ids, [F]. *)
Definition F_PLANET : string := "PLANET".
Definition F_CAROLINA : string := "CAROLINA".
Definition F_TEQUIERO : string := "TEQUIERO".
Definition F_HEART : string := "HEART".
Definition F_COSMOS : string := "COSMOS".
Definition F_COMPACT : string := "COMPACT".

(** [Object.values(F)] *)
Definition F_values : list string :=
  [F_PLANET; F_CAROLINA; F_TEQUIERO; F_HEART; F_COSMOS; F_COMPACT].

(** [GESTURE_TO_FORMATION] *)
Definition GESTURE_TO_FORMATION (g : Gesture) : string :=
  match g with
  | INDEX_UP => F_PLANET
  | PEACE => F_CAROLINA
  | ROCK => F_TEQUIERO
  | ILY => F_HEART
  | OPEN => F_COSMOS
  | FIST => F_COMPACT
  end.

(** [FORMATION_INFO[id].title], for the ids that have an entry. *)
Definition FORMATION_INFO : gmap string string :=
  list_to_map
    [ (F_PLANET, "✨ Un planeta para ti ✨");
      (F_CAROLINA, "💖 Carolina 💖");
      (F_TEQUIERO, "💜 Te Quiero 💜");
      (F_HEART, "❤️ Te Quiero ❤️");
      (F_COSMOS, "✨ Las estrellas son tuyas ✨");
      (F_COMPACT, "💫 Todo para ti 💫") ].

(** The names of the properties that every plain object inherits from
    [Object.prototype].  [formationData] and [FORMATION_INFO] are plain
    objects ([{}] and an object literal): a lookup under one of these
    names, when the object has no own property of that name, finds the
    inherited one, which is a function, or for [__proto__] the prototype
    object itself. *)
Definition Object_prototype : list string :=
  [ "constructor"; "__defineGetter__"; "__defineSetter__"; "hasOwnProperty";
    "__lookupGetter__"; "__lookupSetter__"; "isPrototypeOf";
    "propertyIsEnumerable"; "toString"; "valueOf"; "__proto__";
    "toLocaleString" ].

(** What a lookup [formationData[id]] finds: a cloud that
    [precomputeFormations] stored (an own property), or a property
    inherited from [Object.prototype].  Both are objects, so both pass the
    test [!formationData[id]]. *)
Inductive Property (num : Type) : Type :=
| Cloud (cloud : list num)
| Inherited.
Arguments Cloud {num}.
Arguments Inherited {num}.

(** The module state of main.js: [currentFormation], [formationData], the
    particle system, the tracker, [_lastGesture] and the text of the title
    element.  [formationData] is the map of the object's own properties,
    keyed by formation id; what a lookup finds besides them is in
    [get_property]. *)
Record Orchestrator (num : Type) : Type := mkOrchestrator {
  currentFormation : string;
  formationData : gmap string (list num);
  particles : ParticleSystem num;
  tracker : HandTracker;
  _lastGesture : option Gesture;
  titleText : string
}.
Arguments mkOrchestrator {num}.
Arguments currentFormation {num}.
Arguments formationData {num}.
Arguments particles {num}.
Arguments tracker {num}.
Arguments _lastGesture {num}.
Arguments titleText {num}.

Section Orchestration.
Context {num : Type} {N : JsNum num} {M : JsMath num}.
Variable random : nat -> num.
Variable getArea : Vector3 num -> Vector3 num -> Vector3 num -> num.
Variable TextGeometry : string -> Geometry num.

(** The state when the module has been loaded, before
    [precomputeFormations]. *)
Definition boot (initial : list num) (title : string) : Orchestrator num :=
  {| currentFormation := F_COSMOS;
     formationData := ∅;
     particles := new_ParticleSystem initial;
     tracker := new_HandTracker;
     _lastGesture := None;
     titleText := title |}.

(** [precomputeFormations()], once the font has loaded; [k] calls of
    [Math.random()] have been made before. *)
Definition precomputeFormations (k : nat) (o : Orchestrator num)
  : Orchestrator num * nat :=
  let n := count (particles o) in
  let '(cosmos, k) := getSpherePositions random n (lit 12) k in
  let '(planet, k) := getPlanetPositions random n k in
  let '(carolina, k) :=
    getTextPositions random getArea TextGeometry "Carolina" n k in
  let '(tequiero, k) :=
    getTextPositions random getArea TextGeometry "Te Quiero" n k in
  let '(heart, k) := getHeartPositions random n (lit 0.7) k in
  let '(compact, k) := getCompactPositions random n (lit 1.2) k in
  let data :=
    <[F_COMPACT := compact]> (<[F_HEART := heart]> (<[F_TEQUIERO := tequiero]>
      (<[F_CAROLINA := carolina]> (<[F_PLANET := planet]>
        (<[F_COSMOS := cosmos]> (formationData o)))))) in
  ({| currentFormation := currentFormation o;
      formationData := data;
      particles := setTarget cosmos (particles o);
      tracker := tracker o;
      _lastGesture := _lastGesture o;
      titleText := titleText o |}, k).

(** [formationData[id]]: the own property when there is one, else the
    property inherited from [Object.prototype] when [id] names one, else
    [undefined] ([None]). *)
Definition get_property (data : gmap string (list num)) (id : string)
  : option (Property num) :=
  match data !! id with
  | Some cloud => Some (Cloud cloud)
  | None => if decide (id ∈ Object_prototype) then Some Inherited else None
  end.

(** The body of the loop of [setTarget] when [targetArray] is a property
    inherited from [Object.prototype].  [targetArray.length] is the number
    of parameters of the function, or [undefined] for the prototype object,
    so [srcLen] and [si] are numbers or NaN; the value has no property
    named by a number or by NaN, so each of the reads [targetArray[si]],
    [targetArray[si + 1]] and [targetArray[si + 2]] gives [undefined]. *)
Definition inherited_step (out : list num) (i : nat) : list num :=
  let out := store out (i * 3)%nat (to_number None) in
  let out := store out (i * 3 + 1)%nat (to_number None) in
  store out (i * 3 + 2)%nat (to_number None).

(** [particles.setTarget(v)] for such a value [v]. *)
Definition setTarget_inherited (s : ParticleSystem num)
  : ParticleSystem num :=
  {| count := count s;
     _targetPositions :=
       Some (fold_left inherited_step (seq 0 (count s))
               (Float32Array (count s * 3)));
     lerpSpeed := lerpSpeed s;
     attractor := attractor s;
     attractRadius := attractRadius s;
     attractStrength := attractStrength s;
     positions := positions s;
     uTime := uTime s;
     needsUpdate := needsUpdate s |}.

(** [particles.setTarget(formationData[id])] for what the lookup found. *)
Definition setTarget_property (v : Property num) (s : ParticleSystem num)
  : ParticleSystem num :=
  match v with
  | Cloud cloud => setTarget cloud s
  | Inherited => setTarget_inherited s
  end.

(** The text of the title element after
    [const info = FORMATION_INFO[id]; if (info) titleEl.textContent = info.title].
    For a name inherited from [Object.prototype], [info] is the inherited
    property and [info.title] is [undefined]; [textContent] takes
    [undefined] like [null] and empties the element. *)
Definition title_after (id : string) (title : string) : string :=
  match FORMATION_INFO !! id with
  | Some title' => title'
  | None =>
      if decide (id ∈ Object_prototype) then String.EmptyString else title
  end.

(** [setFormation(id)] *)
Definition setFormation (id : string) (o : Orchestrator num)
  : Orchestrator num :=
  if decide (id = currentFormation o) then o
  else
    match get_property (formationData o) id with
    | None => o
    | Some v =>
        {| currentFormation := id;
           formationData := formationData o;
           particles := setTarget_property v (particles o);
           tracker := tracker o;
           _lastGesture := _lastGesture o;
           titleText := title_after id (titleText o) |}
    end.

(** [keys.indexOf(currentFormation)]: the position, or -1. *)
Fixpoint indexOf (keys : list string) (id : string) (i : Z) : Z :=
  match keys with
  | [] => (-1)%Z
  | k :: keys => if decide (k = id) then i else indexOf keys id (i + 1)%Z
  end.

(** [cycleFormation()] *)
Definition cycleFormation (o : Orchestrator num) : Orchestrator num :=
  let keys := F_values in
  let idx := indexOf keys (currentFormation o) 0 in
  match keys !! Z.to_nat (Z.rem (idx + 1) (Z.of_nat (length keys))) with
  | Some id => setFormation id o
  | None => o
  end.

Definition set_lastGesture (g : option Gesture) (o : Orchestrator num)
  : Orchestrator num :=
  {| currentFormation := currentFormation o;
     formationData := formationData o;
     particles := particles o;
     tracker := tracker o;
     _lastGesture := g;
     titleText := titleText o |}.

(** [processGesture()] *)
Definition processGesture (o : Orchestrator num) : Orchestrator num :=
  if negb (active (tracker o)) then o
  else
    let g := gesture (tracker o) in
    let o :=
      match g with
      | Some g' =>
          if decide (g = _lastGesture o) then o
          else setFormation (GESTURE_TO_FORMATION g') o
      | None => o
      end in
    set_lastGesture g o.

End Orchestration.

End Main.

(* ================================================================== *)
(** * Concrete systems, in the browser's arithmetic *)
(* ================================================================== *)

Module Demo.

Import Particles Float32 Exact Main.

(** A system as the constructor builds it, but with [n] particles at the
    given coordinates. *)
Definition system (n : nat) (coordinates : list float)
  : ParticleSystem float :=
  {| count := n;
     _targetPositions := None;
     lerpSpeed := lit 0.08;
     attractor := None;
     attractRadius := lit 4.0;
     attractStrength := lit 0.06;
     positions := coordinates;
     uTime := lit 0;
     needsUpdate := false |}.

Definition with_attractor (a : Vector3 float) (s : ParticleSystem float)
  : ParticleSystem float :=
  {| count := count s;
     _targetPositions := _targetPositions s;
     lerpSpeed := lerpSpeed s;
     attractor := Some a;
     attractRadius := attractRadius s;
     attractStrength := attractStrength s;
     positions := positions s;
     uTime := uTime s;
     needsUpdate := needsUpdate s |}.

Definition two_particles : ParticleSystem float :=
  system 2 [1; 2; 3; 4; 5; 6]%float.

Definition five_particles : ParticleSystem float :=
  system 5 (replicate 15 0%float).

(** The binary32 number just below 1, [1 - 2^-24]. *)
Definition below_one : float := 0x1.fffffep-1%float.

(** One particle at [(1 - 2^-24, 1 - 2^-24, 1 - 2^-24)] whose target is
    [(1, 1, 1)]. *)
Definition stalled : ParticleSystem float :=
  setTarget [1; 1; 1]%float (system 1 [below_one; below_one; below_one]).

(** The systems that sit where [stalled] sits. *)
Definition stalls (s : ParticleSystem float) : Prop :=
  count s = 1
  /\ _targetPositions s = Some [1; 1; 1]%float
  /\ lerpSpeed s = lit 0.08
  /\ attractor s = None
  /\ positions s = [below_one; below_one; below_one].

(** One particle at the origin. *)
Definition at_origin : ParticleSystem float := system 1 [0; 0; 0]%float.

(** An orchestrator over two particles that has clouds for COSMOS and HEART
    only, with COSMOS active. *)
Definition orchestrator : Orchestrator float :=
  {| currentFormation := F_COSMOS;
     formationData :=
       <[F_HEART := [1; 1; 1; 2; 2; 2]%float]>
         (<[F_COSMOS := [7; 8; 9; 7; 8; 9]%float]> ∅);
     particles := setTarget [7; 8; 9; 7; 8; 9]%float two_particles;
     tracker := HandTracking.new_HandTracker;
     _lastGesture := None;
     titleText := String.EmptyString |}.

(** In exact arithmetic: one particle at the origin whose target is
    [(1, 1, 1)]. *)
Definition exact_origin : ParticleSystem (option R) :=
  {| count := 1;
     _targetPositions := Some [Some 1%R; Some 1%R; Some 1%R];
     lerpSpeed := lit 0.08;
     attractor := None;
     attractRadius := lit 4.0;
     attractStrength := lit 0.06;
     positions := [Some 0%R; Some 0%R; Some 0%R];
     uTime := lit 0;
     needsUpdate := false |}.

End Demo.

Import Float32 Exact.

(* ================================================================== *)
(** * The calls the page makes on the particle system *)
(* ================================================================== *)

Module EngineCalls.

Import Particles.

(** [particles.attractor = a], as [animate] assigns it each frame. *)
Definition set_attractor {num} (a : option (Vector3 num))
    (s : ParticleSystem num) : ParticleSystem num :=
  {| count := count s;
     _targetPositions := _targetPositions s;
     lerpSpeed := lerpSpeed s;
     attractor := a;
     attractRadius := attractRadius s;
     attractStrength := attractStrength s;
     positions := positions s;
     uTime := uTime s;
     needsUpdate := needsUpdate s |}.

(** What main.js does to the particle system: it sets a target, assigns
    the attractor, and updates. *)
Inductive call (num : Type) : Type :=
| CallSetTarget (targetArray : list num)
| CallSetAttractor (a : option (Vector3 num))
| CallUpdate (elapsed : num).
Arguments CallSetTarget {num}.
Arguments CallSetAttractor {num}.
Arguments CallUpdate {num}.

Definition apply_call {num} `{JsNum num} (s : ParticleSystem num)
    (c : call num) : ParticleSystem num :=
  match c with
  | CallSetTarget targetArray => setTarget targetArray s
  | CallSetAttractor a => set_attractor a s
  | CallUpdate elapsed => update elapsed s
  end.

Definition apply_calls {num} `{JsNum num} (calls : list (call num))
    (s : ParticleSystem num) : ParticleSystem num :=
  fold_left apply_call calls s.

(** The target, when there is one, has [count * 3] entries. *)
Definition target_sized {num} (s : ParticleSystem num) : Prop :=
  match _targetPositions s with
  | Some target => length target = count s * 3
  | None => True
  end.

(** Two buffers that hold the same particle [i]. *)
Definition same_particle {num} (pos pos' : list num) (i : nat) : Prop :=
  pos !! (i * 3) = pos' !! (i * 3)
  /\ pos !! (i * 3 + 1) = pos' !! (i * 3 + 1)
  /\ pos !! (i * 3 + 2) = pos' !! (i * 3 + 2).

End EngineCalls.

(* ================================================================== *)
(** * Coordinates at rest, in the browser's arithmetic *)
(* ================================================================== *)

Module Rest.

(** A binary32 value that is finite and is not the negative zero. *)
Definition settled (p : float) : Prop :=
  Float32.fround32 p = p
  /\ match Prim2SF p with
     | S754_finite _ _ _ => True
     | S754_zero false => True
     | _ => False
     end.

(** Every live coordinate sits on its target coordinate. *)
Definition at_target (s : Particles.ParticleSystem float)
    (target : list float) : Prop :=
  forall k p,
    k < Particles.count s * 3 ->
    Particles.positions s !! k = Some p ->
    target !! k = Some p /\ settled p.

End Rest.

(* ================================================================== *)
(** * The points the generators store *)
(* ================================================================== *)

Module Points.

Import Particles TextPoints.

Section Points.
Context {num : Type} {N : JsNum num} {M : JsMath num}.
Variable random : nat -> num.
Local Open Scope js_scope.

(** The three stores [arr[i * 3] = x; arr[i * 3 + 1] = y; arr[i * 3 + 2] = z]
    that every generator ends its loop body with. *)
Definition store_point (arr : list num) (i : nat) (p : num * num * num)
  : list num :=
  let '(x, y, z) := p in
  store (store (store arr (i * 3) x) (i * 3 + 1) y) (i * 3 + 2) z.

Definition coord (c : nat) (p : num * num * num) : num :=
  let '(x, y, z) := p in
  match c with
  | 0 => x
  | 1 => y
  | _ => z
  end.

(** The point [ball_point] computes when [Math.random()] was called [k]
    times before. *)
Definition ball (radius : num) (k : nat) : num * num * num :=
  let theta := random k * Math_PI * lit 2 in
  let phi := Math_acos (lit 2 * random (S k) - lit 1) in
  let r := radius * Math_cbrt (random (S (S k))) in
  (r * Math_sin phi * Math_cos theta,
   r * Math_sin phi * Math_sin theta,
   r * Math_cos phi).

(** The point of the loop body of [getHeartPositions]. *)
Definition heart (scale : num) (k : nat) : num * num * num :=
  let t := random k * Math_PI * lit 2 in
  let x := lit 16 * Math_pow (Math_sin t) (lit 3) in
  let y := lit 13 * Math_cos t - lit 5 * Math_cos (lit 2 * t)
           - lit 2 * Math_cos (lit 3 * t) - Math_cos (lit 4 * t) in
  let z := (random (S k) - lit 0.5) * lit 2 in
  (x * scale * lit 0.25, y * scale * lit 0.25, z * lit 0.3).

(** The ring branch of the loop body of [getPlanetPositions]. *)
Definition ring (k : nat) : num * num * num :=
  let angle := random k * Math_PI * lit 2 in
  let ringR := lit 4.0 + (random (S k) - lit 0.5) * lit 1.8 in
  let y := (random (S (S k)) - lit 0.5) * lit 0.3 in
  (Math_cos angle * ringR, y, Math_sin angle * ringR).

(** The point of the loop body of [getPlanetPositions], for particle [i]. *)
Definition planet (count i k : nat) : num * num * num :=
  if of_nat i <? Math_floor (of_nat count * lit 0.4)
  then ball (lit 2.0) k else ring k.

(** The weights [(u, v, w)] that [sampleSurface] gives the corners
    [b], [c] and [a]. *)
Definition barycentric (u v : num) : num * num * num :=
  let '(u, v) :=
    if lit 1 <? u + v then (lit 1 - u, lit 1 - v) else (u, v) in
  (u, v, lit 1 - u - v).

(** The triangle a sample falls in. *)
Definition picked (geometry : Geometry num) (cdf : list num) (k : nat)
  : nat :=
  pick cdf (random k) 0 (iterations (triCount geometry - 1)%Q).

(** The point of the loop body of [sampleSurface]. *)
Definition surface (geometry : Geometry num) (cdf : list num) (k : nat)
  : num * num * num :=
  let '(a, b, c) := corners geometry (picked geometry cdf k) in
  let '(u, v, w) := barycentric (random (S k)) (random (S (S k))) in
  (v_x a * w + v_x b * u + v_x c * v,
   v_y a * w + v_y b * u + v_y c * v,
   v_z a * w + v_z b * u + v_z c * v).

(** The cumulative table [cdf] that [sampleSurface] builds before it
    samples. *)
Definition cdf_of
    (getArea : Vector3 num -> Vector3 num -> Vector3 num -> num)
    (geometry : Geometry num) : list num :=
  let triCount := triCount geometry in
  let areas := Float32Array (array_length triCount) in
  let '(areas, totalArea) :=
    area_loop getArea geometry 0 (iterations triCount) areas (lit 0) in
  let cdf := Float32Array (array_length triCount) in
  let cdf := store cdf 0 (load areas 0 / totalArea) in
  cdf_loop areas totalArea 1 (iterations triCount - 1) cdf.

End Points.

End Points.

(* ================================================================== *)
(** * [Math] in exact arithmetic *)
(* ================================================================== *)

Module ExactMath.

Definition lift1 (f : R -> R) (a : option R) : option R :=
  match a with
  | Some x => Some (f x)
  | None => None
  end.

(** [Math.acos]: NaN outside [-1, 1]. *)
Definition xacos (a : option R) : option R :=
  match a with
  | Some x =>
      if Rle_dec (-1) x then if Rle_dec x 1 then Some (acos x) else None
      else None
  | None => None
  end.

(** The real cube root. *)
Definition cbrt (x : R) : R :=
  if Rlt_dec 0 x then Rpower x (/ 3)
  else if Rlt_dec x 0 then (- Rpower (- x) (/ 3))%R
  else 0%R.

(** [Math.pow]: the integer power for an integer exponent, the real power
    of a positive base; where JavaScript gives an infinity or NaN (a zero
    base with a negative exponent, a negative base with a fractional
    exponent) the result is NaN. *)
Definition xpow (a b : option R) : option R :=
  match a, b with
  | Some x, Some y =>
      let z := Int_part y in
      if Req_dec_T y (IZR z) then
        if Req_dec_T x 0 then
          if (z <? 0)%Z then None else Some (powerRZ x z)
        else Some (powerRZ x z)
      else if Rlt_dec 0 x then Some (Rpower x y)
      else if Req_dec_T x 0 then
        if Rlt_dec 0 y then Some 0%R else None
      else None
  | _, _ => None
  end.

#[export] Instance xreal_JsMath : JsMath (option R) := {|
  Math_PI := Some PI;
  Math_sin := lift1 sin;
  Math_cos := lift1 cos;
  Math_acos := xacos;
  Math_cbrt := lift1 cbrt;
  Math_pow := xpow;
  Math_floor := lift1 (fun x => IZR (Int_part x))
|}.

(** What [Math.random()] promises: a number in [0, 1). *)
Definition unit_random (random : nat -> option R) : Prop :=
  forall k, exists u : R, random k = Some u /\ (0 <= u < 1)%R.

(** The point [(x, y, z)] is a convex combination of the corners of
    triangle [ti] of a position array without index. *)
Definition in_triangle (pos : list (option R)) (ti : nat) (x y z : R)
  : Prop :=
  exists ax ay az bx by' bz cx cy cz u v w : R,
    (pos !! (ti * 9) = Some (Some ax)
     /\ pos !! (ti * 9 + 1) = Some (Some ay)
     /\ pos !! (ti * 9 + 2) = Some (Some az))
    /\ (pos !! (ti * 9 + 3) = Some (Some bx)
        /\ pos !! (ti * 9 + 4) = Some (Some by')
        /\ pos !! (ti * 9 + 5) = Some (Some bz))
    /\ (pos !! (ti * 9 + 6) = Some (Some cx)
        /\ pos !! (ti * 9 + 7) = Some (Some cy)
        /\ pos !! (ti * 9 + 8) = Some (Some cz))
    /\ (0 <= u /\ 0 <= v /\ 0 <= w /\ u + v + w = 1)%R
    /\ (x = ax * w + bx * u + cx * v
        /\ y = ay * w + by' * u + cy * v
        /\ z = az * w + bz * u + cz * v)%R.

End ExactMath.

(* ================================================================== *)
(** * Concrete inputs, in exact arithmetic *)
(* ================================================================== *)

Module ExactDemo.

(** A generator of random numbers that always returns 0. *)
Definition zero_random : nat -> option R := fun _ => Some 0%R.

(** One triangle with corners [(0, 0, 0)], [(1, 0, 0)], [(0, 1, 0)]. *)
Definition triangle : TextPoints.Geometry (option R) :=
  TextPoints.mkGeometry (Some <$> [0; 0; 0; 1; 0; 0; 0; 1; 0]%R) None.

(** An area function that gives every triangle the area 1. *)
Definition unit_area
    (a b c : Particles.Vector3 (option R)) : option R := Some 1%R.

End ExactDemo.

(* ================================================================== *)
(** * main.js: the callbacks and the animation frame *)
(* ================================================================== *)

Module Page.

Import HandTracking Particles Main.

(** The tracker fields after [start()]: nothing when it is active already;
    [active = true] once the camera and the model are there; nothing when
    the camera request is rejected (the exception leaves before
    [this.active = true]). *)
Definition start (camera : bool) (t : HandTracker) : HandTracker :=
  if active t then t
  else if camera then
    {| fingerPos := fingerPos t; gesture := gesture t; active := true;
       _gestureBuffer := _gestureBuffer t; _gestureCount := _gestureCount t;
       _DEBOUNCE := _DEBOUNCE t |}
  else t.

Definition set_tracker {num} (t : HandTracker) (o : Orchestrator num)
  : Orchestrator num :=
  {| currentFormation := currentFormation o;
     formationData := formationData o;
     particles := particles o;
     tracker := t;
     _lastGesture := _lastGesture o;
     titleText := titleText o |}.

(** A detection result arrives: the callback registered with
    [this._hands.onResults] runs [_onResults] on the page's tracker. *)
Definition onResults {num} (results : Results) (o : Orchestrator num)
  : Orchestrator num :=
  set_tracker (snd (_onResults results (tracker o))) o.

Definition deliver {num} (frames : list Results) (o : Orchestrator num)
  : Orchestrator num :=
  fold_left (fun o results => onResults results o) frames o.

(** [cycleFormation] clicked [n] times. *)
Definition clicks {num} `{JsNum num} (n : nat) (o : Orchestrator num)
  : Orchestrator num :=
  Nat.iter n cycleFormation o.

(** The page while it animates, in the browser's arithmetic: the
    orchestrator, the pointer [mouse] in normalised device coordinates and
    the rotation of the particle mesh. *)
Record State : Type := mkState {
  orchestrator : Orchestrator float;
  mouse : float * float;
  rotation_x : float;
  rotation_y : float
}.

Definition set_orchestrator (o : Orchestrator float) (p : State) : State :=
  {| orchestrator := o; mouse := mouse p;
     rotation_x := rotation_x p; rotation_y := rotation_y p |}.

(** The [pointermove] listener, for a pointer at [(clientX, clientY)] in a
    window of [innerWidth] by [innerHeight]. *)
Definition pointermove (clientX clientY innerWidth innerHeight : float)
    (p : State) : State :=
  {| orchestrator := orchestrator p;
     mouse := (clientX / innerWidth * 2 - 1,
               - (clientY / innerHeight) * 2 + 1)%float;
     rotation_x := rotation_x p; rotation_y := rotation_y p |}.

(** The [pointerleave] listener. *)
Definition pointerleave (p : State) : State :=
  {| orchestrator := orchestrator p;
     mouse := (9999, 9999)%float;
     rotation_x := rotation_x p; rotation_y := rotation_y p |}.

Section Animate.

(** [getAttractorFromNDC], which unprojects through the camera of the
    rendering library, and [Math.sin]. *)
Variable getAttractorFromNDC : float * float -> Vector3 float.
Variable sin : float -> float.

(** The attractor [animate] chooses: the hand before the pointer. *)
Definition choose_attractor (p : State) : option (Vector3 float) :=
  let t := tracker (orchestrator p) in
  match active t, fingerPos t with
  | true, Some finger => Some (getAttractorFromNDC finger)
  | _, _ =>
      if PrimFloat.ltb (fst (mouse p)) 9000
      then Some (getAttractorFromNDC (mouse p))
      else None
  end.

(** One run of [animate] at time [elapsed] (rendering left out). *)
Definition animate (elapsed : float) (p : State) : State :=
  let o := processGesture (orchestrator p) in
  let p := set_orchestrator o p in
  let a := choose_attractor p in
  let '(rx, ry) :=
    if decide (currentFormation o = F_PLANET)
    then (sin (elapsed * 0.15) * 0.25, rotation_y p + 0.006)%float
    else (sin (elapsed * 0.07) * 0.1, sin (elapsed * 0.1) * 0.3)%float in
  {| orchestrator :=
       {| currentFormation := currentFormation o;
          formationData := formationData o;
          particles :=
            update elapsed (EngineCalls.set_attractor a (particles o));
          tracker := tracker o;
          _lastGesture := _lastGesture o;
          titleText := titleText o |};
     mouse := mouse p;
     rotation_x := rx;
     rotation_y := ry |}.

End Animate.

(** The tracker fields after [toggleCamera()]; [camera] tells whether the
    camera can be opened. *)
Definition toggleCamera (camera : bool) (t : HandTracker) : HandTracker :=
  if active t then stop t else start camera t.

(** The camera button clicked on the page. *)
Definition click_camera (camera : bool) (p : State) : State :=
  set_orchestrator
    (set_tracker (toggleCamera camera (tracker (orchestrator p)))
       (orchestrator p)) p.

(** The fields of the tracker that the debounce and [processGesture] read:
    all but [fingerPos]. *)
Definition debounce_state (t : HandTracker)
  : option Gesture * option Gesture * nat * nat * bool :=
  (gesture t, _gestureBuffer t, _gestureCount t, _DEBOUNCE t, active t).

(** [Demo.orchestrator] with the camera switched on. *)
Definition camera_on : Orchestrator float :=
  set_tracker (start true new_HandTracker) Demo.orchestrator.

(** An orchestrator over two particles with the same one-point cloud for
    each of the six formations, PLANET active. *)
Definition all_clouds : Orchestrator float :=
  {| currentFormation := F_PLANET;
     formationData :=
       list_to_map ((fun id => (id, [1; 2; 3]%float)) <$> F_values);
     particles := Demo.two_particles;
     tracker := new_HandTracker;
     _lastGesture := None;
     titleText := String.EmptyString |}.

(** A page on [camera_on], the pointer resting at the centre of the
    window. *)
Definition page_on : State :=
  {| orchestrator := camera_on; mouse := (0, 0)%float;
     rotation_x := 0%float; rotation_y := 0%float |}.

End Page.

(* ================================================================== *)
(** * particles.js: the construction of the particle system *)
(* ================================================================== *)

Module Construction.

Import Particles TextPoints.

Section Construction.
Context {num : Type} {N : JsNum num} {M : JsMath num}.
Variable random : nat -> num.
Local Open Scope js_scope.

Local Notation "x <~ g ;; f" := (bind g (fun x => f))
  (at level 100, g at next level, right associativity).

(** [generateUUID()] of the rendering library (three.js), which the
    constructors of [BufferGeometry], [ShaderMaterial] and [Points] run to
    name the object they create: four calls of [Math.random()].  Nothing in
    this program reads the identifier. *)
Definition generateUUID : Gen unit :=
  d0 <~ Math_random random ;;
  d1 <~ Math_random random ;;
  d2 <~ Math_random random ;;
  d3 <~ Math_random random ;;
  ret tt.

(** The loop body of [_buildGeometry] on the position buffer.  The scale,
    the twinkle offset and the colour of the particle go to the buffers
    [scales], [randoms] and [colors], which nothing reads back; each takes
    one further call of [Math.random()]. *)
Definition build_point (i : nat) (arr : list num) : Gen (list num) :=
  u <~ Math_random random ;;
  let theta := u * Math_PI * lit 2 in
  u <~ Math_random random ;;
  let phi := Math_acos (lit 2 * u - lit 1) in
  u <~ Math_random random ;;
  let r := lit 12 * Math_cbrt u in
  let arr := store arr (i * 3) (r * Math_sin phi * Math_cos theta) in
  let arr := store arr (i * 3 + 1) (r * Math_sin phi * Math_sin theta) in
  let arr := store arr (i * 3 + 2) (r * Math_cos phi) in
  scale <~ Math_random random ;;
  twinkle <~ Math_random random ;;
  colour <~ Math_random random ;;
  ret arr.

(** The position buffer [_buildGeometry] fills, for [this.count = count]:
    [new THREE.BufferGeometry()] comes first, then the loop. *)
Definition _buildGeometry (count : nat) : Gen (list num) :=
  geometry <~ generateUUID ;;
  for_loop build_point 0 count (Float32Array (count * 3)).

(** [new ParticleSystem()]: [_buildGeometry()], then [_buildMaterial()]
    with its [new THREE.ShaderMaterial(...)], then [new THREE.Points(...)]. *)
Definition construct : Gen (ParticleSystem num) :=
  initial <~ _buildGeometry PARTICLE_COUNT ;;
  material <~ generateUUID ;;
  mesh <~ generateUUID ;;
  ret (new_ParticleSystem initial).

End Construction.

(** Particle [i] of a buffer has finite coordinates and lies within
    distance [rho] of the origin. *)
Definition inside (rho : R) (pos : list (option R)) (i : nat) : Prop :=
  exists x y z : R,
    pos !! (i * 3) = Some (Some x)
    /\ pos !! (i * 3 + 1) = Some (Some y)
    /\ pos !! (i * 3 + 2) = Some (Some z)
    /\ (x * x + y * y + z * z <= rho * rho)%R.

End Construction.

(* ================================================================== *)
(** * Properties of the hand tracker *)
(* ================================================================== *)

Section TrackerFacts.
Import HandTracking.

Lemma feed_snoc (raws : list (option Gesture)) (raw : option Gesture)
    (t : HandTracker) :
  feed (raws ++ [raw]) t = debounce raw (feed raws t).
Proof. unfold feed. now rewrite fold_left_app. Qed.

Lemma debounce_DEBOUNCE (raw : option Gesture) (t : HandTracker) :
  _DEBOUNCE (debounce raw t) = _DEBOUNCE t.
Proof. unfold debounce. now destruct (decide (raw = _gestureBuffer t)). Qed.


Lemma tracks_debounce (raws : list (option Gesture)) (raw : option Gesture)
    (t : HandTracker) :
  tracks raws t -> tracks (raws ++ [raw]) (debounce raw t).
Proof.
  intros [earlier ->]. unfold tracks, debounce.
  destruct (decide (raw = _gestureBuffer t)) as [->|Hne]; simpl.
  - exists earlier. rewrite <- app_assoc. f_equal.
    change (_gestureBuffer t :: replicate (_gestureCount t) (_gestureBuffer t))
      with (replicate (S (_gestureCount t)) (_gestureBuffer t)).
    now rewrite replicate_S_end.
  - now eexists.
Qed.

Lemma tracks_feed (raws : list (option Gesture)) :
  tracks raws (feed raws new_HandTracker)
  /\ _DEBOUNCE (feed raws new_HandTracker) = 3.
Proof.
  induction raws as [|raw raws [IH1 IH2]] using rev_ind.
  - split; [now exists [] | reflexivity].
  - rewrite feed_snoc. split.
    + now apply tracks_debounce.
    + now rewrite debounce_DEBOUNCE.
Qed.

(** A change of the committed label needs the counter at the threshold. *)
Lemma debounce_change (raw : option Gesture) (t : HandTracker) :
  gesture (debounce raw t) <> gesture t ->
  gesture (debounce raw t) = raw
  /\ _DEBOUNCE t <= _gestureCount (debounce raw t).
Proof.
  unfold debounce.
  destruct (decide (raw = _gestureBuffer t)); simpl;
    (destruct (_ <=? _)%nat eqn:E; simpl; [|congruence]);
    apply Nat.leb_le in E; auto.
Qed.

Lemma classify_lookup_8 (lm : list Landmark) (g : option Gesture) :
  _classifyGesture lm = Ok g -> is_Some (lm !! 8).
Proof.
  intros H. destruct (lm !! 8) eqn:E; [eauto|exfalso].
  assert (Hi : _isFingerExtended lm index = Throw)
    by (unfold _isFingerExtended; simpl; now rewrite E).
  unfold _classifyGesture in H. rewrite Hi in H.
  now destruct (_isFingerExtended lm thumb).
Qed.

Lemma isFingerExtended_total (lm : list Landmark) (finger : Finger) :
  length lm = 21 -> exists b, _isFingerExtended lm finger = Ok b.
Proof.
  intros Hlen.
  do 21 (destruct lm as [|? lm]; [discriminate Hlen|]).
  destruct lm; [|discriminate Hlen].
  destruct finger; simpl; eauto.
Qed.

Lemma classifyFlags_first_match (f : Flags) :
  classifyFlags (f_thumb f) (f_index f) (f_middle f) (f_ring f) (f_pinky f)
  = first_match priority_table f.
Proof. now destruct f as [[] [] [] [] []]. Qed.

(** A frame with a hand is a debouncer step on its classification. *)
Lemma onResults_debounces (lm : list Landmark) (raw : option Gesture)
    (t : HandTracker) :
  _classifyGesture lm = Ok raw ->
  exists p,
    _onResults (one_hand lm) t = (Ok tt, debounce raw (set_fingerPos (Some p) t))
    /\ gesture (snd (_onResults (one_hand lm) t)) = gesture (debounce raw t).
Proof.
  intros Hraw. destruct (classify_lookup_8 lm raw Hraw) as [tip Htip].
  unfold _onResults, one_hand. simpl. rewrite Htip, Hraw.
  eexists. split; [reflexivity|]. simpl. unfold debounce. simpl.
  now destruct (decide (raw = _gestureBuffer t)).
Qed.


(** C1.  Fed any sequence of raw labels from the initial state, the
    debouncer changes the committed label at a call only if that call's raw
    label is the new committed label and the two calls before it carried
    the same raw label (three identical consecutive raw labels).  On
    [FIST, FIST, OPEN, OPEN, OPEN] the committed label is [null] after calls
    1 to 4 (FIST is never committed) and OPEN after call 5. *)
Theorem debounce_commits_after_three_in_a_row :
  (forall (raws : list (option Gesture)) (raw : option Gesture),
      gesture (feed (raws ++ [raw]) new_HandTracker)
        <> gesture (feed raws new_HandTracker) ->
      gesture (feed (raws ++ [raw]) new_HandTracker) = raw
      /\ exists earlier, raws = earlier ++ [raw; raw])
  /\ stable_trace [Some FIST; Some FIST; Some OPEN; Some OPEN; Some OPEN]
       new_HandTracker
     = [None; None; None; None; Some OPEN].
Proof.
  split; [|reflexivity].
  intros raws raw Hchange.
  destruct (tracks_feed raws) as [Htracks Hthreshold].
  rewrite feed_snoc in *.
  set (t := feed raws new_HandTracker) in *.
  destruct (debounce_change raw t Hchange) as [Hraw Hcount].
  split; [exact Hraw|].
  rewrite Hthreshold in Hcount.
  destruct Htracks as [earlier Hraws].
  unfold debounce in Hcount.
  destruct (decide (raw = _gestureBuffer t)) as [Heq|Hne];
    simpl in Hcount; [|lia].
  rewrite <- Heq in Hraws.
  destruct (_gestureCount t) as [|[|n]]; [lia|lia|].
  exists (earlier ++ replicate n raw).
  rewrite Hraws, <- app_assoc. f_equal.
  change [raw; raw] with (replicate 2 raw).
  rewrite <- replicate_add. f_equal. lia.
Qed.

Lemma debounce_commits_after_three_in_a_row_witness :
  gesture (feed ([Some PEACE; Some OPEN; Some OPEN] ++ [Some OPEN])
             new_HandTracker) = Some OPEN
  /\ exists earlier,
       [Some PEACE; Some OPEN; Some OPEN] = earlier ++ [Some OPEN; Some OPEN].
Proof.
  apply (proj1 debounce_commits_after_three_in_a_row
           [Some PEACE; Some OPEN; Some OPEN] (Some OPEN)).
  vm_compute. discriminate.
Defined.

(** C2.  For every landmark set of 21 points whose computed flags are
    thumb, index and pinky extended, middle and ring not, the classifier
    returns ILY; and on every landmark set of 21 points the classifier
    returns the first match of the ordered table ILY, ROCK, PEACE,
    INDEX_UP, OPEN, FIST on the five computed flags (null when none
    matches). *)
Theorem classify_ily_first_match :
  forall lm : list Landmark,
    length lm = 21 ->
    (_isFingerExtended lm thumb = Ok true ->
     _isFingerExtended lm index = Ok true ->
     _isFingerExtended lm middle = Ok false ->
     _isFingerExtended lm ring = Ok false ->
     _isFingerExtended lm pinky = Ok true ->
     _classifyGesture lm = Ok (Some ILY))
    /\ (exists f : Flags,
          _isFingerExtended lm thumb = Ok (f_thumb f)
          /\ _isFingerExtended lm index = Ok (f_index f)
          /\ _isFingerExtended lm middle = Ok (f_middle f)
          /\ _isFingerExtended lm ring = Ok (f_ring f)
          /\ _isFingerExtended lm pinky = Ok (f_pinky f)
          /\ _classifyGesture lm = Ok (first_match priority_table f))
    /\ map snd priority_table = [ILY; ROCK; PEACE; INDEX_UP; OPEN; FIST].
Proof.
  intros lm Hlen. split; [|split; [|reflexivity]].
  - intros Ht Hi Hm Hr Hp. unfold _classifyGesture.
    now rewrite Ht, Hi, Hm, Hr, Hp.
  - destruct (isFingerExtended_total lm thumb Hlen) as [bt Ht].
    destruct (isFingerExtended_total lm index Hlen) as [bi Hi].
    destruct (isFingerExtended_total lm middle Hlen) as [bm Hm].
    destruct (isFingerExtended_total lm ring Hlen) as [br Hr].
    destruct (isFingerExtended_total lm pinky Hlen) as [bp Hp].
    exists (mkFlags bt bi bm br bp). simpl.
    repeat (split; [assumption|]).
    unfold _classifyGesture. rewrite Ht, Hi, Hm, Hr, Hp.
    change (Ok (classifyFlags bt bi bm br bp)
            = Ok (first_match priority_table (mkFlags bt bi bm br bp))).
    exact (f_equal Ok (classifyFlags_first_match (mkFlags bt bi bm br bp))).
Qed.

Lemma classify_ily_first_match_witness :
  _classifyGesture ily_hand = Ok (Some ILY).
Proof.
  apply (proj1 (classify_ily_first_match ily_hand eq_refl));
    vm_compute; reflexivity.
Defined.

(** C3.  A detection result with zero hands (no landmark array, or an empty
    one) completes normally, sets the fingertip position to null and leaves
    the committed label, the buffered raw label and the consecutive count
    as they were. *)
Theorem no_hand_keeps_gesture :
  forall (t : HandTracker) (results : Results),
    multiHandLandmarks results = None
    \/ multiHandLandmarks results = Some [] ->
    fst (_onResults results t) = Ok tt
    /\ fingerPos (snd (_onResults results t)) = None
    /\ gesture (snd (_onResults results t)) = gesture t
    /\ _gestureBuffer (snd (_onResults results t)) = _gestureBuffer t
    /\ _gestureCount (snd (_onResults results t)) = _gestureCount t.
Proof.
  intros t results [H|H]; unfold _onResults; rewrite H; simpl; auto.
Qed.

Lemma no_hand_keeps_gesture_witness :
  gesture peace_tracker = Some PEACE
  /\ gesture (snd (_onResults no_hand peace_tracker)) = Some PEACE.
Proof.
  split; [reflexivity|].
  apply (no_hand_keeps_gesture peace_tracker no_hand).
  right. reflexivity.
Defined.



End TrackerFacts.

(* ================================================================== *)
(** * Properties of the particle engine, for every arithmetic *)
(* ================================================================== *)

Section EngineFacts.
Import Particles.
Context {num : Type} {N : JsNum num}.

Lemma store_length (a : list num) (i : nat) (v : num) :
  length (store a i v) = length a.
Proof. apply length_insert. Qed.

Lemma store_lookup (a : list num) (i k : nat) (v : num) :
  store a i v !! k
  = if decide (k = i) then (fun _ => fround v) <$> a !! k else a !! k.
Proof.
  unfold store. destruct (decide (k = i)) as [->|Hne].
  - destruct (a !! i) eqn:E; simpl.
    + apply list_lookup_insert_eq. now apply lookup_lt_Some in E.
    + apply lookup_ge_None. rewrite length_insert.
      now apply lookup_ge_None in E.
  - now apply list_lookup_insert_ne.
Qed.

Lemma load_store_ne (a : list num) (i k : nat) (v : num) :
  k <> i -> load (store a i v) k = load a k.
Proof.
  intros Hne. unfold load. rewrite store_lookup.
  now destruct (decide (k = i)).
Qed.

Lemma fold_store_length (step : list num -> nat -> list num) :
  (forall a i, length (step a i) = length a) ->
  forall (l : list nat) (a : list num), length (fold_left step l a) = length a.
Proof.
  intros Hstep l. induction l as [|i l IH]; intros a; simpl; [reflexivity|].
  now rewrite IH, Hstep.
Qed.

Lemma Float32Array_length (n : nat) : length (Float32Array n) = n.
Proof. apply length_replicate. Qed.

(** *** [setTarget] *)

Lemma setTarget_step_length (targetArray : list num) (srcLen : Q)
    (out : list num) (i : nat) :
  length (setTarget_step targetArray srcLen out i) = length out.
Proof. unfold setTarget_step. now rewrite !store_length. Qed.

Lemma setTarget_loop_lookup (targetArray : list num) (srcLen : Q) (n : nat) :
  forall (out : list num) (i c : nat),
    c < 3 ->
    fold_left (setTarget_step targetArray srcLen) (seq 0 n) out !! (i * 3 + c)
    = if decide (i < n)
      then (fun _ => fround (wrapped targetArray srcLen i c))
             <$> out !! (i * 3 + c)
      else out !! (i * 3 + c).
Proof.
  induction n as [|n IH]; intros out i c Hc; [reflexivity|].
  rewrite seq_S, fold_left_app. simpl.
  unfold setTarget_step at 1. rewrite !store_lookup, IH by assumption.
  unfold wrapped.
  repeat (destruct (decide _)); try lia; try reflexivity;
    assert (i = n) as -> by lia;
    [assert (c = 2) as -> by lia|assert (c = 1) as -> by lia
    |assert (c = 0) as -> by lia];
    now destruct (out !! _).
Qed.

Lemma wrap_length (n : nat) (targetArray : list num) :
  length (wrap n targetArray) = n * 3.
Proof.
  unfold wrap. rewrite fold_store_length, Float32Array_length; [reflexivity|].
  apply setTarget_step_length.
Qed.

Lemma wrap_lookup (n : nat) (targetArray : list num) (i c : nat) :
  i < n -> c < 3 ->
  wrap n targetArray !! (i * 3 + c)
  = Some (fround (wrapped targetArray
                    (inject_Z (Z.of_nat (length targetArray)) / 3)%Q i c)).
Proof.
  intros Hi Hc. unfold wrap. rewrite setTarget_loop_lookup by assumption.
  destruct (decide (i < n)); [|lia].
  unfold Float32Array. rewrite lookup_replicate_2 by lia. reflexivity.
Qed.

(** *** [update] without attractor *)

Lemma update_particle_length (s : ParticleSystem num) (pos : list num)
    (i : nat) :
  length (update_particle s pos i) = length pos.
Proof.
  unfold update_particle, attract, lerp.
  destruct (attractor s); destruct (_targetPositions s);
    try destruct (_ && _); now rewrite ?store_length.
Qed.

Lemma update_length (elapsed : num) (s : ParticleSystem num) :
  length (positions (update elapsed s)) = length (positions s).
Proof. simpl. apply fold_store_length, update_particle_length. Qed.

Lemma lerp_loop_lookup (s : ParticleSystem num) (target : list num)
    (n : nat) :
  _targetPositions s = Some target ->
  attractor s = None ->
  forall (pos : list num) (i c : nat),
    c < 3 ->
    fold_left (update_particle s) (seq 0 n) pos !! (i * 3 + c)
    = if decide (i < n)
      then (fun p => lerp1 (lerpSpeed s) p (load target (i * 3 + c)))
             <$> pos !! (i * 3 + c)
      else pos !! (i * 3 + c).
Proof.
  intros Htarget Hattr.
  induction n as [|n IH]; intros pos i c Hc; [reflexivity|].
  rewrite seq_S, fold_left_app. simpl.
  unfold update_particle at 1, attract, lerp. rewrite Hattr, Htarget.
  specialize (IH pos).
  set (pos' := fold_left (update_particle s) (seq 0 n) pos) in *.
  assert (Hpos' : forall c', c' < 3 -> pos' !! (n * 3 + c') = pos !! (n * 3 + c')).
  { intros c' Hc'. rewrite IH by assumption.
    destruct (decide (n < n)); [lia|reflexivity]. }
  rewrite !store_lookup, IH by assumption.
  repeat (destruct (decide _)); try lia; try reflexivity;
    assert (i = n) as -> by lia.
  - assert (c = 2) as -> by lia.
    rewrite !load_store_ne by lia. unfold lerp1, load.
    rewrite (Hpos' 2) by lia. destruct (pos !! _); reflexivity.
  - assert (c = 1) as -> by lia.
    rewrite !load_store_ne by lia. unfold lerp1, load.
    rewrite (Hpos' 1) by lia. destruct (pos !! _); reflexivity.
  - assert (c = 0) as -> by lia.
    pose proof (Hpos' 0 Hc) as H0. rewrite !Nat.add_0_r in *.
    unfold lerp1, load. rewrite H0. destruct (pos !! _); reflexivity.
Qed.

End EngineFacts.

(* ================================================================== *)
(** * Properties of the index arithmetic *)
(* ================================================================== *)

Section IndexFacts.

Lemma to_index_integer (q : Q) (k : nat) :
  (q == inject_Z (Z.of_nat k))%Q -> Index.to_index (Some q) = Some k.
Proof.
  intros H. unfold Index.to_index.
  rewrite (Qred_complete _ _ H).
  assert (E : Qred (inject_Z (Z.of_nat k)) = inject_Z (Z.of_nat k)).
  { unfold inject_Z, Qred.
    pose proof (Z.ggcd_gcd (Z.of_nat k) 1) as Hg.
    pose proof (Z.ggcd_correct_divisors (Z.of_nat k) 1) as Hd.
    destruct (Z.ggcd (Z.of_nat k) 1) as [g [a b]]. simpl in *.
    rewrite Z.gcd_1_r in Hg. subst g. destruct Hd as [Ha Hb].
    assert (a = Z.of_nat k) by lia. assert (b = 1%Z) by lia.
    subst. reflexivity. }
  rewrite E. simpl.
  destruct (0 <=? Z.of_nat k)%Z eqn:E0; [|apply Z.leb_gt in E0; lia].
  now rewrite Nat2Z.id.
Qed.

Lemma rem_integer (i n : nat) (b : Q) :
  1 <= n -> (b == inject_Z (Z.of_nat n))%Q ->
  exists r, Index.rem (inject_Z (Z.of_nat i)) b = Some r
            /\ (r == inject_Z (Z.of_nat (i mod n)))%Q.
Proof.
  intros Hn Hb. unfold Index.rem.
  destruct (Qeq_bool b 0) eqn:E.
  { apply Qeq_bool_eq in E. rewrite Hb in E.
    unfold Qeq in E. simpl in E. lia. }
  eexists. split; [reflexivity|].
  assert (Hq : (inject_Z (Z.of_nat i) / b
                == inject_Z (Z.of_nat i) / inject_Z (Z.of_nat n))%Q)
    by now rewrite Hb.
  assert (Hpos : (0 <= inject_Z (Z.of_nat i) / b)%Q).
  { rewrite Hq. apply Qle_shift_div_l.
    - unfold Qlt. simpl. lia.
    - unfold Qle. simpl. lia. }
  unfold Index.truncate. apply Qle_bool_iff in Hpos. rewrite Hpos.
  rewrite (Qfloor_comp _ _ Hq), <- Zdiv_Qdiv, Hb.
  rewrite <- inject_Z_mult.
  unfold Qminus. rewrite <- inject_Z_opp, <- inject_Z_plus.
  rewrite Nat2Z.inj_mod, Z.mod_eq by lia. reflexivity.
Qed.

Lemma length_over_3 (n : nat) :
  (inject_Z (Z.of_nat (n * 3)) / 3 == inject_Z (Z.of_nat n))%Q.
Proof.
  rewrite Nat2Z.inj_mul, inject_Z_mult. simpl (inject_Z (Z.of_nat 3)).
  field.
Qed.

(** With a source of [n >= 1] whole points, the key that [setTarget]
    computes for coordinate [c] of particle [i] names element
    [(i mod n) * 3 + c]. *)
Lemma source_index {A} (source : list A) (n i c : nat) :
  1 <= n -> length source = n * 3 -> c < 3 ->
  let srcLen := (inject_Z (Z.of_nat (length source)) / 3)%Q in
  let si := Index.times (Index.rem (inject_Z (Z.of_nat i)) srcLen) 3 in
  Index.get source
    match c with 0 => si | 1 => Index.plus si 1 | _ => Index.plus si 2 end
  = source !! ((i mod n) * 3 + c).
Proof.
  intros Hn Hlen Hc srcLen si.
  destruct (rem_integer i n srcLen Hn) as (r & Hrem & Hr).
  { unfold srcLen. rewrite Hlen. apply length_over_3. }
  unfold si. rewrite Hrem. unfold Index.get.
  assert (H3 : (r * 3 == inject_Z (Z.of_nat (i mod n * 3)))%Q).
  { rewrite Hr, Nat2Z.inj_mul, inject_Z_mult. reflexivity. }
  destruct c as [|[|[|c]]]; [| | |lia]; cbn [Index.times Index.plus].
  - rewrite (to_index_integer _ (i mod n * 3 + 0)); [reflexivity|].
    now rewrite Nat.add_0_r.
  - rewrite (to_index_integer _ (i mod n * 3 + 1)); [reflexivity|].
    rewrite H3, Nat2Z.inj_add, inject_Z_plus. reflexivity.
  - rewrite (to_index_integer _ (i mod n * 3 + 2)); [reflexivity|].
    rewrite H3, Nat2Z.inj_add, inject_Z_plus. reflexivity.
Qed.

End IndexFacts.

(* ================================================================== *)
(** * Properties of [setTarget] *)
(* ================================================================== *)

Section SetTargetFacts.
Import Particles.
Context {num : Type} {N : JsNum num}.

Lemma wrapped_source (source : list num) (n i c : nat) :
  1 <= n -> length source = n * 3 -> c < 3 ->
  wrapped source (inject_Z (Z.of_nat (length source)) / 3)%Q i c
  = to_number (source !! ((i mod n) * 3 + c)).
Proof.
  intros Hn Hlen Hc.
  rewrite <- (source_index source n i c Hn Hlen Hc).
  unfold wrapped. now destruct c as [|[|c]].
Qed.

Lemma wrapped_empty (i c : nat) :
  wrapped (@nil num) (inject_Z (Z.of_nat (length (@nil num))) / 3)%Q i c = nan.
Proof. unfold wrapped. now destruct c as [|[|c]]. Qed.

Lemma wrap_empty (n : nat) :
  wrap n (@nil num) = replicate (n * 3) (fround nan).
Proof.
  apply list_eq. intros k.
  destruct (decide (k < n * 3)) as [Hlt|Hge].
  - rewrite (Nat.div_mod_eq k 3), (Nat.mul_comm 3).
    rewrite wrap_lookup, wrapped_empty;
      [|apply Nat.Div0.div_lt_upper_bound; lia|apply Nat.mod_upper_bound; lia].
    symmetry. apply lookup_replicate_2.
    rewrite (Nat.mul_comm _ 3), <- Nat.div_mod_eq. exact Hlt.
  - rewrite (proj2 (lookup_ge_None _ _)) by (rewrite wrap_length; lia).
    symmetry. apply lookup_ge_None. rewrite length_replicate. lia.
Qed.

End SetTargetFacts.

(** C8.  For a source array of [srcLen >= 1] whole points and any particle
    count, [setTarget] builds a target buffer of exactly [count * 3]
    numbers in which coordinate [c] of point [i] is coordinate [c] of
    source point [i mod srcLen], as the binary32 store keeps it; when the
    source already holds binary32 values (a [Float32Array]) the two are
    equal. *)
Theorem setTarget_wraps_source :
  forall (num : Type) (N : JsNum num) (s : Particles.ParticleSystem num)
         (targetArray : list num) (srcLen : nat),
    1 <= srcLen ->
    length targetArray = srcLen * 3 ->
    exists out,
      Particles._targetPositions (Particles.setTarget targetArray s) = Some out
      /\ length out = Particles.count s * 3
      /\ (forall i c, i < Particles.count s -> c < 3 ->
            out !! (i * 3 + c)
            = fround <$> targetArray !! ((i mod srcLen) * 3 + c))
      /\ (Forall (fun v => fround v = v) targetArray ->
          forall i c, i < Particles.count s -> c < 3 ->
            out !! (i * 3 + c) = targetArray !! ((i mod srcLen) * 3 + c)).
Proof.
  intros num N s targetArray srcLen Hn Hlen.
  exists (Particles.wrap (Particles.count s) targetArray).
  split; [reflexivity|]. split; [apply wrap_length|].
  assert (Hlookup : forall i c, i < Particles.count s -> c < 3 ->
            Particles.wrap (Particles.count s) targetArray !! (i * 3 + c)
            = fround <$> targetArray !! ((i mod srcLen) * 3 + c)).
  { intros i c Hi Hc.
    rewrite wrap_lookup, (wrapped_source targetArray srcLen) by assumption.
    destruct (lookup_lt_is_Some_2 targetArray (i mod srcLen * 3 + c))
      as [v Hv].
    { pose proof (Nat.mod_upper_bound i srcLen). lia. }
    now rewrite Hv. }
  split; [exact Hlookup|].
  intros Hf32 i c Hi Hc. rewrite Hlookup by assumption.
  destruct (targetArray !! _) as [v|] eqn:Hv; [|reflexivity].
  simpl. f_equal.
  rewrite Forall_forall in Hf32. apply Hf32.
  eapply list_elem_of_lookup_2. exact Hv.
Qed.

Lemma setTarget_wraps_source_witness :
  exists out,
    Particles._targetPositions
      (Particles.setTarget [10; 20; 30; 40; 50; 60]%float Demo.five_particles)
    = Some out
    /\ length out = 15
    /\ out !! (4 * 3 + 1) = Some 20%float.
Proof.
  destruct (setTarget_wraps_source float Float32.float_JsNum
              Demo.five_particles [10; 20; 30; 40; 50; 60]%float 2)
    as (out & Hout & Hlen & _ & Heq); [lia|reflexivity|].
  exists out. split; [exact Hout|]. split; [exact Hlen|].
  apply (Heq ltac:(repeat constructor) 4 1); simpl; lia.
Defined.

(* ------------------------------------------------------------------ *)
(** ** NaN in the browser's arithmetic *)

Section NaNFacts.
Import Particles.
Local Open Scope float_scope.

Lemma nan_of_spec (x : float) : Prim2SF x = S754_nan -> x = PrimFloat.nan.
Proof. intros H. now rewrite <- (SF2Prim_Prim2SF x), H. Qed.

Lemma sub_nan_l (x : float) : PrimFloat.nan - x = PrimFloat.nan.
Proof. apply nan_of_spec. now rewrite sub_spec. Qed.

Lemma sub_nan_r (x : float) : x - PrimFloat.nan = PrimFloat.nan.
Proof.
  apply nan_of_spec. rewrite sub_spec. simpl. now destruct (Prim2SF x).
Qed.

Lemma mul_nan_l (x : float) : PrimFloat.nan * x = PrimFloat.nan.
Proof. apply nan_of_spec. now rewrite mul_spec. Qed.

Lemma add_nan_l (x : float) : PrimFloat.nan + x = PrimFloat.nan.
Proof. apply nan_of_spec. now rewrite add_spec. Qed.

Lemma add_nan_r (x : float) : x + PrimFloat.nan = PrimFloat.nan.
Proof.
  apply nan_of_spec. rewrite add_spec. simpl. now destruct (Prim2SF x).
Qed.

Lemma ltb_nan_l (x : float) : (PrimFloat.nan <? x) = false.
Proof. now rewrite ltb_spec. Qed.

(** A coordinate blended toward NaN is NaN. *)
Lemma lerp1_nan (speed p : float) : lerp1 speed p PrimFloat.nan = PrimFloat.nan.
Proof.
  unfold lerp1. simpl. now rewrite sub_nan_l, mul_nan_l, add_nan_r.
Qed.

(** A particle whose first coordinate reads NaN is outside the guard. *)
Lemma attract_nan (s : ParticleSystem float) (pos : list float) (i : nat) :
  load pos (i * 3) = PrimFloat.nan -> attract s pos i = pos.
Proof.
  intros Hnan. unfold attract. destruct (attractor s) as [a|]; [|reflexivity].
  rewrite Hnan. simpl.
  now rewrite sub_nan_r, mul_nan_l, !add_nan_l, ltb_nan_l.
Qed.

Lemma poisoned_loop (s : ParticleSystem float) (target : list float)
    (n : nat) :
  _targetPositions s = Some target ->
  (forall k, load target k = PrimFloat.nan) ->
  forall (pos : list float) (i c : nat),
    (c < 3)%nat ->
    fold_left (update_particle s) (seq 0 n) pos !! (i * 3 + c)%nat
    = if decide (i < n)%nat
      then (fun _ => PrimFloat.nan) <$> pos !! (i * 3 + c)%nat
      else pos !! (i * 3 + c)%nat.
Proof.
  intros Htarget Hnan.
  induction n as [|n IH]; intros pos i c Hc; [reflexivity|].
  rewrite seq_S, fold_left_app. simpl.
  specialize (IH pos).
  set (pos' := fold_left (update_particle s) (seq 0 n) pos) in *.
  assert (Hlerp : forall k,
    lerp s pos' n !! k
    = if decide (k = n * 3 \/ k = n * 3 + 1 \/ k = n * 3 + 2)%nat
      then (fun _ => PrimFloat.nan) <$> pos' !! k else pos' !! k).
  { intros k. unfold lerp. rewrite Htarget, !store_lookup, !Hnan.
    fold (lerp1 (lerpSpeed s) (load pos' (n * 3)) PrimFloat.nan).
    repeat match goal with
           | |- context [fround (?p + (PrimFloat.nan - ?p) * ?v)%js] =>
               change (fround (p + (PrimFloat.nan - p) * v)%js)
                 with (lerp1 v p PrimFloat.nan)
           end.
    rewrite !lerp1_nan.
    repeat (destruct (decide _)); try lia; try reflexivity;
      now destruct (pos' !! k). }
  unfold update_particle. rewrite attract_nan.
  - rewrite Hlerp, IH by assumption.
    repeat (destruct (decide _)); try lia; try reflexivity;
      now destruct (pos !! _).
  - unfold load. rewrite Hlerp.
    destruct (decide _) as [_|Hno]; [|lia].
    now destruct (pos' !! _).
Qed.

(** After [setTarget] with an empty array, one frame makes every live
    coordinate of every particle NaN, whatever the state was. *)
Lemma empty_target_poisons (s : ParticleSystem float) (elapsed : float)
    (k : nat) :
  (k < count s * 3)%nat ->
  positions (update elapsed (setTarget [] s)) !! k
  = (fun _ => PrimFloat.nan) <$> positions s !! k.
Proof.
  intros Hk. simpl.
  rewrite (Nat.div_mod_eq k 3), (Nat.mul_comm 3).
  rewrite (poisoned_loop (setTarget [] s) (wrap (count s) [])).
  - destruct (decide _) as [|Hge]; [reflexivity|].
    exfalso. apply Hge. apply Nat.Div0.div_lt_upper_bound. lia.
  - reflexivity.
  - intros j. rewrite wrap_empty. unfold load.
    destruct (replicate _ _ !! j) as [v|] eqn:E; [|reflexivity].
    apply lookup_replicate in E. now destruct E as [-> _].
  - apply Nat.mod_upper_bound. lia.
Qed.

End NaNFacts.

(** C4.  [setTarget] with an empty array completes and leaves the live
    positions alone, but it replaces the target by a buffer of [count * 3]
    NaN (the modulo by the source length 0), and in the browser's
    arithmetic the next [update] then writes NaN over every live coordinate
    of every particle, whatever the state was: two particles at [(1, 2, 3)]
    and [(4, 5, 6)] are at NaN after one frame. *)
Theorem empty_cloud_poisons_positions :
  (forall (num : Type) (N : JsNum num) (s : Particles.ParticleSystem num),
      Particles.positions (Particles.setTarget [] s) = Particles.positions s
      /\ Particles._targetPositions (Particles.setTarget [] s)
         = Some (replicate (Particles.count s * 3) (fround nan)))
  /\ (forall (s : Particles.ParticleSystem float) (elapsed : float) (k : nat),
        k < Particles.count s * 3 ->
        Particles.positions
          (Particles.update elapsed (Particles.setTarget [] s)) !! k
        = (fun _ => PrimFloat.nan) <$> Particles.positions s !! k)
  /\ Particles.positions Demo.two_particles = [1; 2; 3; 4; 5; 6]%float
  /\ Particles.positions
       (Particles.update 1%float (Particles.setTarget [] Demo.two_particles))
     = replicate 6 PrimFloat.nan.
Proof.
  split; [|split; [|split; [reflexivity|vm_compute; reflexivity]]].
  - intros num N s. split; [reflexivity|].
    simpl. now rewrite wrap_empty.
  - apply empty_target_poisons.
Qed.

Lemma empty_cloud_poisons_positions_witness :
  Particles.positions
    (Particles.update 1%float (Particles.setTarget [] Demo.two_particles)) !! 4
  = (fun _ => PrimFloat.nan) <$> Particles.positions Demo.two_particles !! 4.
Proof.
  apply (proj1 (proj2 empty_cloud_poisons_positions) Demo.two_particles
           1%float 4).
  simpl. lia.
Defined.

(* ================================================================== *)
(** * Properties of [update] *)
(* ================================================================== *)

Section UpdateFacts.
Import Particles.

Lemma run_snoc {num} `{JsNum num} (frames : list num) (elapsed : num)
    (s : ParticleSystem num) :
  run (frames ++ [elapsed]) s = update elapsed (run frames s).
Proof. unfold run. now rewrite fold_left_app. Qed.

Lemma run_fields {num} `{JsNum num} (frames : list num)
    (s : ParticleSystem num) :
  count (run frames s) = count s
  /\ _targetPositions (run frames s) = _targetPositions s
  /\ attractor (run frames s) = attractor s
  /\ lerpSpeed (run frames s) = lerpSpeed s.
Proof.
  induction frames as [|elapsed frames IH] using rev_ind; [easy|].
  rewrite run_snoc. simpl. exact IH.
Qed.

(** One coordinate of one frame, with a target and no attractor. *)
Lemma update_lerp_lookup {num} `{JsNum num} (s : ParticleSystem num)
    (target : list num) (elapsed : num) (k : nat) :
  _targetPositions s = Some target ->
  attractor s = None ->
  k < count s * 3 ->
  positions (update elapsed s) !! k
  = (fun p => lerp1 (lerpSpeed s) p (load target k)) <$> positions s !! k.
Proof.
  intros Htarget Hattr Hk. simpl.
  rewrite (Nat.div_mod_eq k 3), (Nat.mul_comm 3).
  rewrite (lerp_loop_lookup s target (count s) Htarget Hattr)
    by (apply Nat.mod_upper_bound; lia).
  destruct (decide (k / 3 < count s)) as [|Hge]; [reflexivity|].
  exfalso. apply Hge. apply Nat.Div0.div_lt_upper_bound. lia.
Qed.

(** A frame in exact arithmetic. *)
Lemma exact_frame (s : ParticleSystem xreal) (t : list R) (elapsed : xreal)
    (k : nat) (pk tk : R) :
  _targetPositions s = Some (Some <$> t) ->
  attractor s = None ->
  lerpSpeed s = lit 0.08 ->
  length t = count s * 3 ->
  positions s !! k = Some (Some pk) ->
  t !! k = Some tk ->
  positions (update elapsed s) !! k = Some (Some (pk + 0.08 * (tk - pk))%R).
Proof.
  intros Htarget Hattr Hspeed Hlen Hpk Htk.
  assert (Hk : k < count s * 3)
    by (rewrite <- Hlen; eapply lookup_lt_Some; exact Htk).
  rewrite (update_lerp_lookup s _ elapsed k Htarget Hattr Hk), Hpk.
  unfold lerp1, load. rewrite list_lookup_fmap, Htk, Hspeed. simpl.
  do 2 f_equal. unfold Q2R. simpl. lra.
Qed.

(** Any number of frames in exact arithmetic: the closed form. *)
Lemma exact_run (s : ParticleSystem xreal) (p t : list R) :
  positions s = Some <$> p ->
  _targetPositions s = Some (Some <$> t) ->
  attractor s = None ->
  lerpSpeed s = lit 0.08 ->
  length t = count s * 3 ->
  forall (frames : list xreal) (k : nat) (pk tk : R),
    p !! k = Some pk ->
    t !! k = Some tk ->
    positions (run frames s) !! k
    = Some (Some (tk - 0.92 ^ length frames * (tk - pk))%R).
Proof.
  intros Hpos Htarget Hattr Hspeed Hlen frames.
  induction frames as [|elapsed frames IH] using rev_ind;
    intros k pk tk Hpk Htk.
  - simpl. rewrite Hpos, list_lookup_fmap, Hpk. simpl. do 2 f_equal. lra.
  - rewrite run_snoc, length_app. simpl length.
    destruct (run_fields frames s) as (Hc & Ht & Ha & Hs).
    rewrite (exact_frame (run frames s) t elapsed k
               (tk - 0.92 ^ length frames * (tk - pk))%R tk);
      try congruence; [|now apply IH].
    do 2 f_equal. rewrite Nat.add_1_r. simpl pow. lra.
Qed.

(** A bound on the initial distances. *)
Lemma distances_bounded (p t : list R) :
  exists D : R,
    (0 <= D)%R
    /\ forall k pk tk,
         p !! k = Some pk -> t !! k = Some tk -> (Rabs (tk - pk) <= D)%R.
Proof.
  revert t. induction p as [|a p IH]; intros t.
  - exists 0%R. split; [lra|]. intros k pk tk H. now rewrite lookup_nil in H.
  - destruct t as [|b t].
    + exists 0%R. split; [lra|]. intros k pk tk _ H.
      now rewrite lookup_nil in H.
    + destruct (IH t) as (D & HD & Hbound).
      exists (Rmax (Rabs (b - a)) D). split.
      * pose proof (Rmax_r (Rabs (b - a)) D). lra.
      * intros [|k] pk tk Hpk Htk; simpl in *.
        -- injection Hpk as <-. injection Htk as <-. apply Rmax_l.
        -- pose proof (Hbound k pk tk Hpk Htk).
           pose proof (Rmax_r (Rabs (b - a)) D). lra.
Qed.

Lemma stalls_update (elapsed : float) (s : ParticleSystem float) :
  Demo.stalls s -> Demo.stalls (update elapsed s).
Proof.
  destruct s. unfold Demo.stalls. simpl.
  intros (-> & -> & -> & -> & ->).
  repeat split; vm_compute; reflexivity.
Qed.

Lemma stalls_run (frames : list float) (s : ParticleSystem float) :
  Demo.stalls s -> Demo.stalls (run frames s).
Proof.
  intros Hs. induction frames as [|elapsed frames IH] using rev_ind;
    [exact Hs|].
  rewrite run_snoc. now apply stalls_update.
Qed.

End UpdateFacts.

(** C5, as stated, fails in the browser's arithmetic: a particle at
    [1 - 2^-24] in each coordinate, with target 1 and no attractor, is left
    where it is by every frame, at distance [2^-24] from its target, so its
    distance is not multiplied by 0.92 and it never comes within [2^-25]
    of the target. *)
Lemma lerp_stalls_below_target :
  Particles._targetPositions Demo.stalled = Some [1; 1; 1]%float
  /\ Particles.attractor Demo.stalled = None
  /\ Particles.lerpSpeed Demo.stalled = 0.08%float
  /\ (1 - Demo.below_one = 0x1p-24)%float
  /\ forall frames : list float,
       Particles.positions (Particles.run frames Demo.stalled)
       = [Demo.below_one; Demo.below_one; Demo.below_one]
       /\ PrimFloat.ltb
            (PrimFloat.abs
               (1 - Particles.load
                      (Particles.positions
                         (Particles.run frames Demo.stalled)) 0))%float
            0x1p-25%float = false.
Proof.
  do 4 (split; [vm_compute; reflexivity|]).
  intros frames.
  assert (Hs : Demo.stalls Demo.stalled)
    by (repeat split; vm_compute; reflexivity).
  destruct (stalls_run frames _ Hs) as (_ & _ & _ & _ & ->).
  split; vm_compute; reflexivity.
Qed.

(** C5, amended.  With a target cloud and no attractor, in every
    arithmetic one [update] replaces each of the [3 * count] live
    coordinates [p] by the stored value of [p + (t - p) * lerpSpeed], [t]
    being its target coordinate.  In exact arithmetic with the
    constructor's [lerpSpeed] 0.08: after [n] frames the distance of each
    coordinate to its target is [0.92 ^ n] times the initial one; for every
    [eps > 0] there is a number of frames from which on every coordinate
    is within [eps] of its target; and a coordinate that is not at its
    target is not at it after any number of frames. *)
Theorem lerp_decays_in_exact_arithmetic :
  (forall (num : Type) (N : JsNum num) (s : Particles.ParticleSystem num)
          (target : list num) (elapsed : num) (k : nat),
      Particles._targetPositions s = Some target ->
      Particles.attractor s = None ->
      k < Particles.count s * 3 ->
      Particles.positions (Particles.update elapsed s) !! k
      = (fun p => fround (p + (Particles.load target k - p)
                              * Particles.lerpSpeed s)%js)
          <$> Particles.positions s !! k)
  /\ forall (s : Particles.ParticleSystem (option R)) (p t : list R),
      Particles.positions s = Some <$> p ->
      Particles._targetPositions s = Some (Some <$> t) ->
      Particles.attractor s = None ->
      Particles.lerpSpeed s = lit 0.08 ->
      length p = Particles.count s * 3 ->
      length t = Particles.count s * 3 ->
      (forall elapsed k pk tk,
          p !! k = Some pk -> t !! k = Some tk ->
          Particles.positions (Particles.update elapsed s) !! k
          = Some (Some (pk + 0.08 * (tk - pk))%R))
      /\ (forall frames k pk tk,
            p !! k = Some pk -> t !! k = Some tk ->
            exists pk',
              Particles.positions (Particles.run frames s) !! k
              = Some (Some pk')
              /\ (tk - pk' = 0.92 ^ length frames * (tk - pk))%R
              /\ (pk <> tk -> pk' <> tk))
      /\ (forall eps : R,
            (0 < eps)%R ->
            exists n0,
              forall frames, n0 <= length frames ->
              forall k tk, t !! k = Some tk ->
                exists pk',
                  Particles.positions (Particles.run frames s) !! k
                  = Some (Some pk')
                  /\ (Rabs (tk - pk') < eps)%R).
Proof.
  split.
  { intros num N s target elapsed k Htarget Hattr Hk.
    apply (update_lerp_lookup s target elapsed k Htarget Hattr Hk). }
  intros s p t Hpos Htarget Hattr Hspeed Hlenp Hlent.
  pose proof (exact_run s p t Hpos Htarget Hattr Hspeed Hlent) as Hrun.
  split; [|split].
  - intros elapsed k pk tk Hpk Htk.
    apply (exact_frame s t elapsed k pk tk); try assumption.
    now rewrite Hpos, list_lookup_fmap, Hpk.
  - intros frames k pk tk Hpk Htk. eexists.
    split; [apply (Hrun frames k pk tk Hpk Htk)|]. split; [lra|].
    intros Hne Heq.
    assert (Hpow : (0.92 ^ length frames <> 0)%R) by (apply pow_nonzero; lra).
    assert (Hprod : (0.92 ^ length frames * (tk - pk) = 0)%R) by lra.
    apply Rmult_integral in Hprod. destruct Hprod; [contradiction|lra].
  - intros eps Heps.
    destruct (distances_bounded p t) as (D & HD & Hbound).
    destruct (pow_lt_1_zero 0.92%R) with (y := (eps / (D + 1))%R)
      as [n0 Hn0].
    { rewrite Rabs_pos_eq; lra. }
    { apply Rdiv_lt_0_compat; lra. }
    exists n0. intros frames Hlen k tk Htk.
    destruct (lookup_lt_is_Some_2 p k) as [pk Hpk].
    { rewrite Hlenp, <- Hlent. eapply lookup_lt_Some. exact Htk. }
    eexists. split; [apply (Hrun frames k pk tk Hpk Htk)|].
    replace (tk - (tk - 0.92 ^ length frames * (tk - pk)))%R
      with (0.92 ^ length frames * (tk - pk))%R by lra.
    rewrite Rabs_mult.
    specialize (Hn0 (length frames) Hlen).
    specialize (Hbound k pk tk Hpk Htk).
    assert (Hq : (eps / (D + 1) * (D + 1) = eps)%R) by (field; lra).
    pose proof (Rabs_pos (0.92 ^ length frames)) as Hnonneg.
    pose proof (Rabs_pos (tk - pk)) as Hnonneg'.
    apply Rle_lt_trans
      with (Rabs (0.92 ^ length frames) * (D + 1))%R; [|nra].
    apply Rmult_le_compat_l; lra.
Qed.

Lemma lerp_decays_in_exact_arithmetic_witness :
  Particles.positions (Particles.update (Some 1%R) Demo.exact_origin) !! 0
  = Some (Some (0 + 0.08 * (1 - 0))%R).
Proof.
  apply (proj1 (proj2 lerp_decays_in_exact_arithmetic Demo.exact_origin
                  [0; 0; 0]%R [1; 1; 1]%R
                  eq_refl eq_refl eq_refl eq_refl eq_refl eq_refl)
           (Some 1%R) 0 0%R 1%R eq_refl eq_refl).
Defined.

(* ================================================================== *)
(** * Properties of the attractor force *)
(* ================================================================== *)

Section AttractFacts.
Import Particles.

(** Outside the guard nothing is stored. *)
Lemma attract_outside {num} `{JsNum num} (s : ParticleSystem num)
    (a : Vector3 num) (pos : list num) (i : nat) :
  attractor s = Some a ->
  (dist_to a pos i <? attractRadius s)%js = false
  \/ (lit 0.01 <? dist_to a pos i)%js = false ->
  attract s pos i = pos.
Proof.
  intros Hattr Hguard. unfold attract. rewrite Hattr.
  fold (dist_to a pos i).
  destruct Hguard as [-> | ->]; [reflexivity|now rewrite andb_false_r].
Qed.

(** Inside the guard the three coordinates move along the difference
    vector divided by the distance, times the force; each summand is read
    from the buffer as it was before the step. *)
Lemma attract_inside {num} `{JsNum num} (s : ParticleSystem num)
    (a : Vector3 num) (pos : list num) (i : nat) :
  attractor s = Some a ->
  (dist_to a pos i <? attractRadius s)%js = true ->
  (lit 0.01 <? dist_to a pos i)%js = true ->
  let dist := dist_to a pos i in
  let force :=
    (attractStrength s * (lit 1 - dist / attractRadius s))%js in
  attract s pos i
  = store
      (store
         (store pos (i * 3)
            (load pos (i * 3)
             + (v_x a - load pos (i * 3)) / dist * force)%js)
         (i * 3 + 1)
         (load pos (i * 3 + 1)
          + (v_y a - load pos (i * 3 + 1)) / dist * force)%js)
      (i * 3 + 2)
      (load pos (i * 3 + 2)
       + (v_z a - load pos (i * 3 + 2)) / dist * force)%js.
Proof.
  intros Hattr Hr He dist force. unfold attract. rewrite Hattr.
  fold (dist_to a pos i). rewrite Hr, He. simpl andb. cbv iota.
  rewrite !load_store_ne by lia. reflexivity.
Qed.

(** The distance in exact arithmetic is the Euclidean one. *)
Lemma exact_dist (ax ay az px py pz : R) (pos : list (option R)) (i : nat) :
  pos !! (i * 3) = Some (Some px) ->
  pos !! (i * 3 + 1) = Some (Some py) ->
  pos !! (i * 3 + 2) = Some (Some pz) ->
  dist_to (mkVector3 (Some ax) (Some ay) (Some az)) pos i
  = Some (R_sqrt.sqrt ((ax - px) * (ax - px) + (ay - py) * (ay - py)
                       + (az - pz) * (az - pz))).
Proof.
  intros Hx Hy Hz. unfold dist_to, load. rewrite Hx, Hy, Hz. simpl.
  destruct (Rlt_dec _ 0) as [Hneg|_]; [exfalso|reflexivity].
  pose proof (Rle_0_sqr (ax - px)) as H1.
  pose proof (Rle_0_sqr (ay - py)) as H2.
  pose proof (Rle_0_sqr (az - pz)) as H3.
  unfold Rsqr in *. lra.
Qed.

End AttractFacts.

(** C6.  In every arithmetic, with [dist] the distance the step computes
    for a particle: when [dist < attractRadius] or [dist > 0.01] is false
    the attraction step stores nothing (no division is evaluated), and
    when both hold each coordinate [p] becomes the stored value of
    [p + d / dist * force], with [d] the coordinate of the difference
    vector and [force = attractStrength * (1 - dist / attractRadius)].  In
    exact arithmetic with the constructor's radius 4.0 and strength 0.06,
    [dist] is the Euclidean distance: at [dist >= 4] or [dist <= 0.01] the
    buffer is unchanged, and at [0.01 < dist < 4] the displacement of the
    particle is the unit vector toward the attractor times
    [0.06 * (1 - dist / 4)].  In the browser's arithmetic a particle at
    the origin is not moved by an attractor at distance exactly 4.0 nor by
    one at distance 0.005. *)
Theorem attraction_guard :
  (forall (num : Type) (N : JsNum num) (s : Particles.ParticleSystem num)
          (a : Particles.Vector3 num) (pos : list num) (i : nat),
      Particles.attractor s = Some a ->
      let dist := Particles.dist_to a pos i in
      let force :=
        (Particles.attractStrength s
         * (lit 1 - dist / Particles.attractRadius s))%js in
      ((dist <? Particles.attractRadius s)%js = false
       \/ (lit 0.01 <? dist)%js = false ->
       Particles.attract s pos i = pos)
      /\ ((dist <? Particles.attractRadius s)%js = true ->
          (lit 0.01 <? dist)%js = true ->
          Particles.attract s pos i
          = Particles.store
              (Particles.store
                 (Particles.store pos (i * 3)
                    (Particles.load pos (i * 3)
                     + (Particles.v_x a - Particles.load pos (i * 3))
                       / dist * force)%js)
                 (i * 3 + 1)
                 (Particles.load pos (i * 3 + 1)
                  + (Particles.v_y a - Particles.load pos (i * 3 + 1))
                    / dist * force)%js)
              (i * 3 + 2)
              (Particles.load pos (i * 3 + 2)
               + (Particles.v_z a - Particles.load pos (i * 3 + 2))
                 / dist * force)%js))
  /\ (forall (s : Particles.ParticleSystem (option R))
             (ax ay az px py pz : R) (pos : list (option R)) (i : nat),
        Particles.attractor s
        = Some (Particles.mkVector3 (Some ax) (Some ay) (Some az)) ->
        Particles.attractRadius s = lit 4.0 ->
        Particles.attractStrength s = lit 0.06 ->
        pos !! (i * 3) = Some (Some px) ->
        pos !! (i * 3 + 1) = Some (Some py) ->
        pos !! (i * 3 + 2) = Some (Some pz) ->
        let d :=
          R_sqrt.sqrt ((ax - px) * (ax - px) + (ay - py) * (ay - py)
                       + (az - pz) * (az - pz)) in
        ((4 <= d \/ d <= 0.01)%R -> Particles.attract s pos i = pos)
        /\ ((0.01 < d < 4)%R ->
            Particles.attract s pos i !! (i * 3)
            = Some (Some (px + (ax - px) / d * (0.06 * (1 - d / 4)))%R)
            /\ Particles.attract s pos i !! (i * 3 + 1)
               = Some (Some (py + (ay - py) / d * (0.06 * (1 - d / 4)))%R)
            /\ Particles.attract s pos i !! (i * 3 + 2)
               = Some (Some (pz + (az - pz) / d * (0.06 * (1 - d / 4)))%R)))
  /\ (Particles.dist_to (Particles.mkVector3 4 0 0)%float
        (Particles.positions Demo.at_origin) 0 = 4%float
      /\ Particles.positions
           (Particles.update 1%float
              (Demo.with_attractor (Particles.mkVector3 4 0 0)%float
                 Demo.at_origin))
         = Particles.positions Demo.at_origin)
  /\ (Particles.dist_to (Particles.mkVector3 0.005 0 0)%float
        (Particles.positions Demo.at_origin) 0 = 0.005%float
      /\ Particles.positions
           (Particles.update 1%float
              (Demo.with_attractor (Particles.mkVector3 0.005 0 0)%float
                 Demo.at_origin))
         = Particles.positions Demo.at_origin).
Proof.
  split; [|split; [|split; split; vm_compute; reflexivity]].
  - intros num N s a pos i Hattr dist force. split.
    + apply attract_outside, Hattr.
    + apply attract_inside, Hattr.
  - intros s ax ay az px py pz pos i Hattr Hradius Hstrength Hx Hy Hz d.
    pose proof (exact_dist ax ay az px py pz pos i Hx Hy Hz) as Hdist.
    fold d in Hdist. split.
    + intros Hout. apply (attract_outside s _ pos i Hattr).
      rewrite Hdist, Hradius. simpl. unfold Q2R. simpl.
      destruct Hout as [Hfar|Hnear]; [left|right];
        destruct (Rlt_dec _ _); [lra|reflexivity|lra|reflexivity].
    + intros [Hlo Hhi].
      assert (Hr : (Particles.dist_to
                      (Particles.mkVector3 (Some ax) (Some ay) (Some az))
                      pos i <? Particles.attractRadius s)%js = true).
      { rewrite Hdist, Hradius. simpl. unfold Q2R. simpl.
        destruct (Rlt_dec _ _); [reflexivity|lra]. }
      assert (He : (lit 0.01 <? Particles.dist_to
                      (Particles.mkVector3 (Some ax) (Some ay) (Some az))
                      pos i)%js = true).
      { rewrite Hdist. simpl. unfold Q2R. simpl.
        destruct (Rlt_dec _ _); [reflexivity|lra]. }
      rewrite (attract_inside s _ pos i Hattr Hr He).
      rewrite Hdist, Hradius, Hstrength. unfold Particles.load.
      rewrite Hx, Hy, Hz. rewrite !store_lookup.
      repeat (destruct (decide _); try lia).
      rewrite Hx, Hy, Hz. simpl. unfold Exact.xdiv, Q2R. simpl.
      repeat (destruct (Req_dec_T _ 0) as [Hzero|_]; [lra|]).
      simpl. repeat split; do 2 f_equal; field; lra.
Qed.

Lemma attraction_guard_witness :
  Particles.attract
    (Demo.with_attractor (Particles.mkVector3 2 0 0)%float Demo.at_origin)
    [0; 0; 0]%float 0
  = [fround (0 + (2 - 0) / 2 * (0.06 * (1 - 2 / 4)))%float; 0%float; 0%float].
Proof.
  rewrite (proj2 (proj1 attraction_guard float float_JsNum
                    (Demo.with_attractor (Particles.mkVector3 2 0 0)%float
                       Demo.at_origin)
                    (Particles.mkVector3 2 0 0)%float [0; 0; 0]%float 0
                    eq_refl));
    vm_compute; reflexivity.
Defined.

(* ================================================================== *)
(** * Properties of the formation generators *)
(* ================================================================== *)

Section GeneratorFacts.
Import Particles TextPoints.
Context {num : Type} {N : JsNum num} {M : JsMath num}.
Variable random : nat -> num.
Variable getArea : Vector3 num -> Vector3 num -> Vector3 num -> num.
Variable TextGeometry : string -> Geometry num.

Lemma for_loop_length (body : nat -> list num -> Gen (list num)) :
  (forall i arr k, length (fst (body i arr k)) = length arr) ->
  forall n i arr k, length (fst (for_loop body i n arr k)) = length arr.
Proof.
  intros Hbody n. induction n as [|n IH]; intros i arr k; [reflexivity|].
  simpl. unfold bind. specialize (Hbody i arr k).
  destruct (body i arr k) as [arr' k']. simpl in Hbody.
  now rewrite IH.
Qed.

Lemma ball_point_length (radius : num) (i : nat) (arr : list num) (k : nat) :
  length (fst (ball_point random radius i arr k)) = length arr.
Proof. unfold ball_point, bind, Math_random, ret. simpl. now rewrite !store_length. Qed.

Lemma getSpherePositions_length (count : nat) (radius : num) (k : nat) :
  length (fst (getSpherePositions random count radius k)) = count * 3.
Proof.
  unfold getSpherePositions.
  rewrite for_loop_length, Float32Array_length; [reflexivity|].
  apply ball_point_length.
Qed.

Lemma getCompactPositions_length (count : nat) (radius : num) (k : nat) :
  length (fst (getCompactPositions random count radius k)) = count * 3.
Proof. apply getSpherePositions_length. Qed.

Lemma getHeartPositions_length (count : nat) (scale : num) (k : nat) :
  length (fst (getHeartPositions random count scale k)) = count * 3.
Proof.
  unfold getHeartPositions.
  rewrite for_loop_length, Float32Array_length; [reflexivity|].
  intros i arr k'. unfold bind, Math_random, ret. simpl.
  now rewrite !store_length.
Qed.

Lemma getPlanetPositions_length (count : nat) (k : nat) :
  length (fst (getPlanetPositions random count k)) = count * 3.
Proof.
  unfold getPlanetPositions.
  rewrite for_loop_length, Float32Array_length; [reflexivity|].
  intros i arr k'. destruct (_ <? _)%js; [apply ball_point_length|].
  unfold bind, Math_random, ret. simpl. now rewrite !store_length.
Qed.

Lemma sample_length (geometry : Geometry num) (cdf : list num) (s : nat)
    (arr : list num) (k : nat) :
  length (fst (sample random geometry cdf s arr k)) = length arr.
Proof.
  unfold sample, bind, Math_random, ret.
  destruct (corners _ _) as [[a b] c].
  destruct (_ <? _)%js; simpl; now rewrite !store_length.
Qed.

Lemma sampleSurface_length (geometry : Geometry num) (count : nat) (k : nat) :
  length (fst (sampleSurface random getArea geometry count k)) = count * 3.
Proof.
  unfold sampleSurface.
  destruct (area_loop _ _ _ _ _ _) as [areas totalArea].
  rewrite for_loop_length, Float32Array_length; [reflexivity|].
  apply sample_length.
Qed.

End GeneratorFacts.

(** C7.  For every particle count, in every arithmetic and for every
    sequence of random numbers, the sphere, heart, compact-cluster and
    planet generators, the surface sampler on any geometry and the text
    generator return a buffer of exactly [count * 3] numbers; with
    [count = 5000] that is 15000. *)
Theorem generators_return_count_times_3 :
  forall (num : Type) (N : JsNum num) (M : JsMath num)
         (random : nat -> num)
         (getArea : Particles.Vector3 num -> Particles.Vector3 num ->
                    Particles.Vector3 num -> num)
         (TextGeometry : string -> TextPoints.Geometry num)
         (radius scale : num) (geometry : TextPoints.Geometry num)
         (text : string) (k : nat),
    (forall count,
        length (fst (TextPoints.getSpherePositions random count radius k))
        = count * 3
        /\ length (fst (TextPoints.getHeartPositions random count scale k))
           = count * 3
        /\ length (fst (TextPoints.getCompactPositions random count radius k))
           = count * 3
        /\ length (fst (TextPoints.getPlanetPositions random count k))
           = count * 3
        /\ length (fst (TextPoints.sampleSurface random getArea geometry
                          count k))
           = count * 3
        /\ length (fst (TextPoints.getTextPositions random getArea
                          TextGeometry text count k))
           = count * 3)
    /\ Particles.PARTICLE_COUNT * 3 = 15000
    /\ length (fst (TextPoints.getSpherePositions random
                      Particles.PARTICLE_COUNT radius k)) = 15000
    /\ length (fst (TextPoints.getHeartPositions random
                      Particles.PARTICLE_COUNT scale k)) = 15000
    /\ length (fst (TextPoints.getCompactPositions random
                      Particles.PARTICLE_COUNT radius k)) = 15000
    /\ length (fst (TextPoints.getPlanetPositions random
                      Particles.PARTICLE_COUNT k)) = 15000
    /\ length (fst (TextPoints.getTextPositions random getArea TextGeometry
                      text Particles.PARTICLE_COUNT k)) = 15000.
Proof.
  intros num N M random getArea TextGeometry radius scale geometry text k.
  assert (Hall : forall count,
    length (fst (TextPoints.getSpherePositions random count radius k))
    = count * 3
    /\ length (fst (TextPoints.getHeartPositions random count scale k))
       = count * 3
    /\ length (fst (TextPoints.getCompactPositions random count radius k))
       = count * 3
    /\ length (fst (TextPoints.getPlanetPositions random count k))
       = count * 3
    /\ length (fst (TextPoints.sampleSurface random getArea geometry
                      count k))
       = count * 3
    /\ length (fst (TextPoints.getTextPositions random getArea
                      TextGeometry text count k))
       = count * 3).
  { intros count.
    split; [apply getSpherePositions_length|].
    split; [apply getHeartPositions_length|].
    split; [apply getCompactPositions_length|].
    split; [apply getPlanetPositions_length|].
    split; apply sampleSurface_length. }
  assert (H15000 : Particles.PARTICLE_COUNT * 3 = 15000) by reflexivity.
  split; [exact Hall|]. split; [exact H15000|].
  destruct (Hall Particles.PARTICLE_COUNT) as (H1 & H2 & H3 & H4 & _ & H6).
  split; [exact (eq_trans H1 H15000)|].
  split; [exact (eq_trans H2 H15000)|].
  split; [exact (eq_trans H3 H15000)|].
  split; [exact (eq_trans H4 H15000)|].
  exact (eq_trans H6 H15000).
Qed.

(* ================================================================== *)
(** * Properties of the orchestrator *)
(* ================================================================== *)

Section InheritedFacts.
Import Particles Main.






End InheritedFacts.



(* ================================================================== *)
(** * Further properties of the hand tracker *)
(* ================================================================== *)

Section TrackerMore.
Import HandTracking.

Lemma isFingerExtended_defined (lm : list Landmark) (finger : Finger) :
  21 <= length lm -> exists b, _isFingerExtended lm finger = Ok b.
Proof.
  intros Hlen.
  assert (H : forall k, k < 21 -> is_Some (lm !! k))
    by (intros k Hk; apply lookup_lt_is_Some_2; lia).
  destruct (H 2) as [l2 E2]; [lia|]. destruct (H 3) as [l3 E3]; [lia|].
  destruct (H 4) as [l4 E4]; [lia|]. destruct (H 6) as [l6 E6]; [lia|].
  destruct (H 8) as [l8 E8]; [lia|]. destruct (H 10) as [l10 E10]; [lia|].
  destruct (H 12) as [l12 E12]; [lia|]. destruct (H 14) as [l14 E14]; [lia|].
  destruct (H 16) as [l16 E16]; [lia|]. destruct (H 18) as [l18 E18]; [lia|].
  destruct (H 20) as [l20 E20]; [lia|].
  destruct finger; unfold _isFingerExtended; simpl;
    rewrite ?E2, ?E3, ?E4, ?E6, ?E8, ?E10, ?E12, ?E14, ?E16, ?E18, ?E20;
    simpl; eauto.
Qed.

Lemma classify_defined (lm : list Landmark) :
  21 <= length lm -> exists g, _classifyGesture lm = Ok g.
Proof.
  intros Hlen. unfold _classifyGesture.
  destruct (isFingerExtended_defined lm thumb Hlen) as [bt ->].
  destruct (isFingerExtended_defined lm index Hlen) as [bi ->].
  destruct (isFingerExtended_defined lm middle Hlen) as [bm ->].
  destruct (isFingerExtended_defined lm ring Hlen) as [br ->].
  destruct (isFingerExtended_defined lm pinky Hlen) as [bp ->].
  simpl. eauto.
Qed.

Lemma classify_short (lm : list Landmark) :
  length lm <= 20 -> _classifyGesture lm = Throw.
Proof.
  intros Hlen.
  assert (Hp : _isFingerExtended lm pinky = Throw).
  { unfold _isFingerExtended. simpl.
    now rewrite (proj2 (lookup_ge_None lm 20)) by lia. }
  unfold _classifyGesture. rewrite Hp.
  destruct (_isFingerExtended lm thumb); [|reflexivity].
  destruct (_isFingerExtended lm index); [|reflexivity].
  destruct (_isFingerExtended lm middle); [|reflexivity].
  now destruct (_isFingerExtended lm ring).
Qed.

(** X1.  On the five computed flags, with [n] the number of extended
    fingers, the classifier returns ILY, ROCK, PEACE, INDEX_UP and OPEN
    exactly when the pattern of that gesture holds, FIST exactly when at
    most one finger is extended and the index is not, and null exactly
    when two or three fingers are extended in a pattern that is none of
    ILY, ROCK, PEACE. *)
Theorem classify_characterised :
  forall (lm : list Landmark) (t i m r p : bool),
    _isFingerExtended lm thumb = Ok t ->
    _isFingerExtended lm index = Ok i ->
    _isFingerExtended lm middle = Ok m ->
    _isFingerExtended lm ring = Ok r ->
    _isFingerExtended lm pinky = Ok p ->
    let n := extendedCount [t; i; m; r; p] in
    (_classifyGesture lm = Ok (Some ILY)
     <-> t && i && negb m && negb r && p = true)
    /\ (_classifyGesture lm = Ok (Some ROCK)
        <-> negb t && i && negb m && negb r && p = true)
    /\ (_classifyGesture lm = Ok (Some PEACE)
        <-> i && m && negb r && negb p = true)
    /\ (_classifyGesture lm = Ok (Some INDEX_UP)
        <-> negb t && i && negb m && negb r && negb p = true)
    /\ (_classifyGesture lm = Ok (Some OPEN) <-> 4 <= n)
    /\ (_classifyGesture lm = Ok (Some FIST) <-> n <= 1 /\ i = false)
    /\ (_classifyGesture lm = Ok None
        <-> 2 <= n <= 3
            /\ t && i && negb m && negb r && p = false
            /\ negb t && i && negb m && negb r && p = false
            /\ i && m && negb r && negb p = false).
Proof.
  intros lm t i m r p Ht Hi Hm Hr Hp n.
  unfold _classifyGesture. rewrite Ht, Hi, Hm, Hr, Hp. simpl res_bind.
  subst n.
  destruct t, i, m, r, p; vm_compute;
    repeat split; intros; try discriminate; try reflexivity; try lia;
    repeat match goal with
           | H : _ /\ _ |- _ => destruct H
           end; try discriminate; try lia.
Qed.

Lemma classify_characterised_witness :
  _classifyGesture three_finger_hand = Ok None
  <-> 2 <= extendedCount [false; true; true; true; false] <= 3
      /\ false && true && negb true && negb true && false = false
      /\ negb false && true && negb true && negb true && false = false
      /\ true && true && negb true && negb false = false.
Proof.
  apply (classify_characterised three_finger_hand false true true true false);
    vm_compute; reflexivity.
Defined.

(** X2.  A frame with at least one hand: only the first hand is looked at.
    When it has 21 landmarks or more the call completes; when it has at
    most 8 the call throws and the tracker is untouched; when it has 9 to
    20 the call throws after the fingertip position was set, with the
    committed label and the debounce state untouched. *)
Theorem onResults_completion :
  forall (t : HandTracker) (lm : list Landmark) (others : list (list Landmark)),
    let results := {| multiHandLandmarks := Some (lm :: others) |} in
    _onResults results t = _onResults (one_hand lm) t
    /\ (21 <= length lm -> fst (_onResults results t) = Ok tt)
    /\ (length lm <= 8 -> _onResults results t = (Throw, t))
    /\ (9 <= length lm <= 20 ->
        fst (_onResults results t) = Throw
        /\ is_Some (fingerPos (snd (_onResults results t)))
        /\ gesture (snd (_onResults results t)) = gesture t
        /\ _gestureBuffer (snd (_onResults results t)) = _gestureBuffer t
        /\ _gestureCount (snd (_onResults results t)) = _gestureCount t).
Proof.
  intros t lm others results. split; [reflexivity|].
  unfold results, _onResults. simpl. split; [|split].
  - intros Hlen.
    destruct (lookup_lt_is_Some_2 lm 8) as [tip ->]; [lia|].
    now destruct (classify_defined lm Hlen) as [g ->].
  - intros Hlen. now rewrite (proj2 (lookup_ge_None lm 8)) by lia.
  - intros [Hlo Hhi].
    destruct (lookup_lt_is_Some_2 lm 8) as [tip ->]; [lia|].
    rewrite (classify_short lm Hhi). simpl. eauto.
Qed.

Lemma onResults_completion_witness :
  fst (_onResults {| multiHandLandmarks := Some [ily_hand; three_finger_hand] |}
         new_HandTracker) = Ok tt.
Proof.
  apply (proj1 (proj2 (onResults_completion new_HandTracker ily_hand
                         [three_finger_hand]))).
  vm_compute. lia.
Defined.

Lemma feed_held (raw : option Gesture) (n : nat) (t : HandTracker) :
  _gestureBuffer (feed (replicate (S n) raw) t) = raw
  /\ S n <= _gestureCount (feed (replicate (S n) raw) t)
  /\ _DEBOUNCE (feed (replicate (S n) raw) t) = _DEBOUNCE t
  /\ (_DEBOUNCE t <= _gestureCount (feed (replicate (S n) raw) t) ->
      gesture (feed (replicate (S n) raw) t) = raw).
Proof.
  induction n as [|n (Hb & Hc & Hd & Hg)].
  - simpl. unfold debounce.
    destruct (decide (raw = _gestureBuffer t)) as [->|Hne]; simpl;
      (split; [reflexivity|]); (split; [lia|]); (split; [reflexivity|]);
      intros H; apply Nat.leb_le in H; now rewrite H.
  - rewrite replicate_S_end, feed_snoc.
    set (t' := feed (replicate (S n) raw) t) in *.
    unfold debounce. rewrite Hb.
    destruct (decide (raw = raw)) as [_|]; [|congruence]. simpl.
    split; [reflexivity|]. split; [lia|]. split; [exact Hd|].
    rewrite Hd. intros H. apply Nat.leb_le in H. now rewrite H.
Qed.

(** X3.  From any tracker state, a raw label that arrives on [n]
    consecutive calls, with [n >= 1] and [n] at least the threshold, is the
    committed label afterwards. *)
Theorem debounce_commits_held_label :
  forall (t : HandTracker) (raw : option Gesture) (n : nat),
    1 <= n ->
    _DEBOUNCE t <= n ->
    gesture (feed (replicate n raw) t) = raw
    /\ _gestureBuffer (feed (replicate n raw) t) = raw
    /\ n <= _gestureCount (feed (replicate n raw) t).
Proof.
  intros t raw [|n] Hn Hd; [lia|].
  destruct (feed_held raw n t) as (Hb & Hc & _ & Hg).
  split; [apply Hg; lia|]. now split.
Qed.

Lemma debounce_commits_held_label_witness :
  gesture (feed (replicate 3 (Some ROCK)) peace_tracker) = Some ROCK
  /\ _gestureBuffer (feed (replicate 3 (Some ROCK)) peace_tracker) = Some ROCK
  /\ 3 <= _gestureCount (feed (replicate 3 (Some ROCK)) peace_tracker).
Proof.
  apply (debounce_commits_held_label peace_tracker (Some ROCK) 3).
  - lia.
  - vm_compute. lia.
Defined.

(** X4.  With a threshold of at least 2, a raw label that differs from the
    one of the previous call never changes the committed label; it restarts
    the count at 1 on the new label. *)
Theorem debounce_ignores_single_glitch :
  forall (t : HandTracker) (raw : option Gesture),
    2 <= _DEBOUNCE t ->
    raw <> _gestureBuffer t ->
    gesture (debounce raw t) = gesture t
    /\ _gestureBuffer (debounce raw t) = raw
    /\ _gestureCount (debounce raw t) = 1.
Proof.
  intros t raw Hd Hne. unfold debounce.
  destruct (decide (raw = _gestureBuffer t)); [contradiction|]. simpl.
  destruct (_ <=? 1) eqn:E; [apply Nat.leb_le in E; lia|]. auto.
Qed.

Lemma debounce_ignores_single_glitch_witness :
  gesture (debounce (Some FIST) peace_tracker) = gesture peace_tracker
  /\ _gestureBuffer (debounce (Some FIST) peace_tracker) = Some FIST
  /\ _gestureCount (debounce (Some FIST) peace_tracker) = 1.
Proof.
  apply (debounce_ignores_single_glitch peace_tracker (Some FIST)).
  - vm_compute. lia.
  - vm_compute. discriminate.
Defined.

(** X5.  [stop()] clears the committed label and the fingertip but keeps
    the buffered label and its count: when that count was one short of the
    threshold or more, a single later frame with the buffered label
    commits it at once. *)
Theorem stop_keeps_debounce_progress :
  forall (t : HandTracker) (raw : option Gesture),
    _gestureBuffer t = raw ->
    _DEBOUNCE t <= S (_gestureCount t) ->
    gesture (stop t) = None
    /\ fingerPos (stop t) = None
    /\ active (stop t) = false
    /\ gesture (debounce raw (stop t)) = raw.
Proof.
  intros t raw Hb Hd. repeat (split; [reflexivity|]).
  unfold debounce, stop. simpl. rewrite Hb.
  destruct (decide (raw = raw)) as [_|]; [|congruence]. simpl.
  apply Nat.leb_le in Hd. now rewrite Hd.
Qed.

Lemma stop_keeps_debounce_progress_witness :
  gesture (stop peace_tracker) = None
  /\ fingerPos (stop peace_tracker) = None
  /\ active (stop peace_tracker) = false
  /\ gesture (debounce (Some PEACE) (stop peace_tracker)) = Some PEACE.
Proof.
  apply (stop_keeps_debounce_progress peace_tracker (Some PEACE)).
  - reflexivity.
  - vm_compute. lia.
Defined.

End TrackerMore.

(* ================================================================== *)
(** * Further properties of the particle engine *)
(* ================================================================== *)

Section EngineMore.
Import Particles EngineCalls.
Context {num : Type} {N : JsNum num}.

(** *** One particle at a time *)

Lemma lerp_elsewhere (s : ParticleSystem num) (pos : list num) (i k : nat) :
  k <> i * 3 -> k <> i * 3 + 1 -> k <> i * 3 + 2 ->
  lerp s pos i !! k = pos !! k.
Proof.
  intros H0 H1 H2. unfold lerp. destruct (_targetPositions s); [|reflexivity].
  rewrite !store_lookup. now repeat (destruct (decide _)).
Qed.

Lemma attract_elsewhere (s : ParticleSystem num) (pos : list num)
    (i k : nat) :
  k <> i * 3 -> k <> i * 3 + 1 -> k <> i * 3 + 2 ->
  attract s pos i !! k = pos !! k.
Proof.
  intros H0 H1 H2. unfold attract. destruct (attractor s); [|reflexivity].
  destruct (_ && _); [|reflexivity].
  rewrite !store_lookup. now repeat (destruct (decide _)).
Qed.

Lemma update_particle_elsewhere (s : ParticleSystem num) (pos : list num)
    (i k : nat) :
  k <> i * 3 -> k <> i * 3 + 1 -> k <> i * 3 + 2 ->
  update_particle s pos i !! k = pos !! k.
Proof.
  intros H0 H1 H2. unfold update_particle.
  now rewrite attract_elsewhere, lerp_elsewhere.
Qed.

Lemma lerp_same (s : ParticleSystem num) (pos pos' : list num) (i : nat) :
  same_particle pos pos' i -> same_particle (lerp s pos i) (lerp s pos' i) i.
Proof.
  intros (H0 & H1 & H2). unfold same_particle, lerp.
  destruct (_targetPositions s); [|easy].
  rewrite !store_lookup, !load_store_ne by lia. unfold load.
  repeat (destruct (decide _); try lia).
  now rewrite H0, H1, H2.
Qed.

Lemma attract_same (s : ParticleSystem num) (pos pos' : list num) (i : nat) :
  same_particle pos pos' i ->
  same_particle (attract s pos i) (attract s pos' i) i.
Proof.
  intros (H0 & H1 & H2). unfold same_particle, attract.
  destruct (attractor s); [|easy]. unfold load. rewrite H0, H1, H2.
  destruct (_ && _); [|easy].
  rewrite !store_lookup.
  repeat (destruct (decide _); try lia).
  now rewrite H0, H1, H2.
Qed.

Lemma update_particle_same (s : ParticleSystem num) (pos pos' : list num)
    (i : nat) :
  same_particle pos pos' i ->
  same_particle (update_particle s pos i) (update_particle s pos' i) i.
Proof. intros H. unfold update_particle. now apply attract_same, lerp_same. Qed.

Lemma same_particle_lookup (pos pos' : list num) (i c : nat) :
  same_particle pos pos' i -> c < 3 -> pos !! (i * 3 + c) = pos' !! (i * 3 + c).
Proof.
  intros (H0 & H1 & H2) Hc.
  destruct c as [|[|[|c]]]; [now rewrite Nat.add_0_r| | |lia]; assumption.
Qed.

(** The loop over any list of distinct particles. *)
Lemma update_fold_lookup (s : ParticleSystem num) (l : list nat) :
  NoDup l ->
  forall (pos : list num) (i c : nat),
    c < 3 ->
    fold_left (update_particle s) l pos !! (i * 3 + c)
    = if decide (i ∈ l) then update_particle s pos i !! (i * 3 + c)
      else pos !! (i * 3 + c).
Proof.
  induction 1 as [|a l Ha Hl IH]; intros pos i c Hc; simpl.
  - destruct (decide (i ∈ [])) as [Hin|_]; [|reflexivity].
    now apply elem_of_nil in Hin.
  - rewrite IH by assumption.
    destruct (decide (i = a)) as [->|Hne].
    + destruct (decide (a ∈ l)); [contradiction|].
      destruct (decide (a ∈ a :: l)) as [_|Hno]; [reflexivity|].
      exfalso. apply Hno. apply elem_of_cons. now left.
    + assert (Hsame : same_particle (update_particle s pos a) pos i)
        by (repeat split; apply update_particle_elsewhere; lia).
      destruct (decide (i ∈ l)) as [Hin|Hnin].
      * destruct (decide (i ∈ a :: l)) as [_|Hno].
        -- apply same_particle_lookup; [|assumption].
           now apply update_particle_same.
        -- exfalso. apply Hno. apply elem_of_cons. now right.
      * destruct (decide (i ∈ a :: l)) as [Hin|_].
        -- apply elem_of_cons in Hin. destruct Hin; congruence.
        -- now apply same_particle_lookup.
Qed.

Lemma update_fold_permutation (s : ParticleSystem num) (l : list nat)
    (n : nat) (pos : list num) :
  l ≡ₚ seq 0 n ->
  fold_left (update_particle s) l pos
  = fold_left (update_particle s) (seq 0 n) pos.
Proof.
  intros Hperm.
  assert (Hnd : NoDup l) by (rewrite Hperm; apply NoDup_seq).
  apply list_eq. intros k.
  rewrite (Nat.div_mod_eq k 3), (Nat.mul_comm 3).
  assert (Hc : k mod 3 < 3) by (apply Nat.mod_upper_bound; lia).
  rewrite (update_fold_lookup s l Hnd), (update_fold_lookup s (seq 0 n))
    by (assumption || apply NoDup_seq).
  destruct (decide (k / 3 ∈ l)) as [Hin|Hnin];
    destruct (decide (k / 3 ∈ seq 0 n)) as [Hin'|Hnin']; try reflexivity.
  - rewrite Hperm in Hin. contradiction.
  - rewrite <- Hperm in Hin'. contradiction.
Qed.

Lemma apply_call_sizes (s : ParticleSystem num) (c : call num) :
  count (apply_call s c) = count s
  /\ length (positions (apply_call s c)) = length (positions s)
  /\ (target_sized s -> target_sized (apply_call s c)).
Proof.
  destruct c as [targetArray|a|elapsed]; simpl.
  - split; [reflexivity|]. split; [reflexivity|].
    intros _. unfold target_sized. simpl. apply wrap_length.
  - easy.
  - split; [reflexivity|]. split; [|easy].
    apply fold_store_length, update_particle_length.
Qed.

End EngineMore.

(** X6.  In every arithmetic and with any target and attractor, one
    [update] gives particle [i < count] the coordinates that the loop body
    computes for it from the buffer as it was before the call, and leaves
    every entry past the first [count] particles alone; visiting the
    particles in any other order gives the same buffer. *)
Theorem update_is_particlewise :
  forall (num : Type) (N : JsNum num) (s : Particles.ParticleSystem num)
         (elapsed : num),
    (forall i c, c < 3 ->
        Particles.positions (Particles.update elapsed s) !! (i * 3 + c)
        = if decide (i < Particles.count s)
          then Particles.update_particle s (Particles.positions s) i
                 !! (i * 3 + c)
          else Particles.positions s !! (i * 3 + c))
    /\ (forall l : list nat,
          l ≡ₚ seq 0 (Particles.count s) ->
          fold_left (Particles.update_particle s) l (Particles.positions s)
          = Particles.positions (Particles.update elapsed s)).
Proof.
  intros num N s elapsed. split.
  - intros i c Hc. simpl.
    rewrite (update_fold_lookup s _ (NoDup_seq 0 _)) by assumption.
    destruct (decide (i ∈ seq 0 (Particles.count s))) as [Hin|Hnin];
      destruct (decide (i < Particles.count s)) as [Hlt|Hge];
      try reflexivity.
    + apply elem_of_seq in Hin. lia.
    + exfalso. apply Hnin. apply elem_of_seq. lia.
  - intros l Hperm. simpl. now apply update_fold_permutation.
Qed.

Lemma update_is_particlewise_witness :
  fold_left (Particles.update_particle
               (Particles.setTarget [7; 8; 9]%float Demo.two_particles))
    [1; 0] [1; 2; 3; 4; 5; 6]%float
  = Particles.positions
      (Particles.update 1%float
         (Particles.setTarget [7; 8; 9]%float Demo.two_particles)).
Proof.
  apply (proj2 (update_is_particlewise float float_JsNum
                  (Particles.setTarget [7; 8; 9]%float Demo.two_particles)
                  1%float) [1; 0]).
  apply perm_swap.
Defined.

(** X7.  Whatever sequence of [setTarget], attractor assignments and
    [update] calls is made, in every arithmetic, the particle count and the
    length of the position buffer stay what they were, and a target, once
    it has [count * 3] entries or is absent, always has [count * 3] entries
    or is absent. *)
Theorem engine_calls_keep_sizes :
  forall (num : Type) (N : JsNum num)
         (calls : list (EngineCalls.call num))
         (s : Particles.ParticleSystem num),
    Particles.count (EngineCalls.apply_calls calls s) = Particles.count s
    /\ length (Particles.positions (EngineCalls.apply_calls calls s))
       = length (Particles.positions s)
    /\ (EngineCalls.target_sized s ->
        EngineCalls.target_sized (EngineCalls.apply_calls calls s)).
Proof.
  intros num N calls. unfold EngineCalls.apply_calls.
  induction calls as [|c calls IH]; intros s; [easy|]. simpl.
  destruct (IH (EngineCalls.apply_call s c)) as (Hc & Hl & Ht).
  destruct (apply_call_sizes s c) as (Hc' & Hl' & Ht').
  split; [congruence|]. split; [congruence|]. auto.
Qed.

Lemma engine_calls_keep_sizes_witness :
  EngineCalls.target_sized
    (EngineCalls.apply_calls
       [EngineCalls.CallUpdate 0%float;
        EngineCalls.CallSetTarget [7; 8; 9]%float;
        EngineCalls.CallSetAttractor
          (Some (Particles.mkVector3 1 1 1)%float);
        EngineCalls.CallUpdate 1%float]
       Demo.two_particles).
Proof.
  apply (engine_calls_keep_sizes float float_JsNum).
  exact I.
Defined.

(* ------------------------------------------------------------------ *)
(** ** A particle on its target, in the browser's arithmetic *)

Section RestFacts.
Import Particles Rest.
Local Open Scope float_scope.

Lemma float_of_spec (x : float) (f : spec_float) :
  Prim2SF x = f -> x = SF2Prim f.
Proof. intros <-. symmetry. apply SF2Prim_Prim2SF. Qed.

Lemma sub_diag_finite (p : float) (s : bool) (m : positive) (e : Z) :
  Prim2SF p = S754_finite s m e -> p - p = 0.
Proof.
  intros H. apply (float_of_spec _ (S754_zero false)).
  rewrite sub_spec, H. unfold SF64sub, SFsub.
  now rewrite Z.sub_diag.
Qed.

Lemma add_zero_finite (p : float) (s : bool) (m : positive) (e : Z) :
  Prim2SF p = S754_finite s m e -> p + 0 = p.
Proof.
  intros H. apply Prim2SF_inj. rewrite add_spec, H. reflexivity.
Qed.

(** The blend of a settled value toward itself is that value. *)
Lemma lerp1_settled (p : float) :
  settled p -> lerp1 (lit 0.08) p p = p.
Proof.
  intros [Hround Hclass]. unfold lerp1. simpl.
  destruct (Prim2SF p) as [[|]| | |s m e] eqn:E; try contradiction.
  - apply (float_of_spec p) in E. subst p. vm_compute. reflexivity.
  - rewrite (sub_diag_finite p s m e E).
    replace (0 * Float32.literal 0.08) with 0 by (vm_compute; reflexivity).
    now rewrite (add_zero_finite p s m e E).
Qed.

End RestFacts.

(** X8.  In the browser's arithmetic, with the constructor's [lerpSpeed]
    and no attractor: when every live coordinate is a finite binary32
    value (not the negative zero) equal to its target coordinate, [update]
    leaves the position buffer exactly as it is. *)
Theorem update_at_target_is_still :
  forall (s : Particles.ParticleSystem float) (target : list float)
         (elapsed : float),
    Particles._targetPositions s = Some target ->
    Particles.attractor s = None ->
    Particles.lerpSpeed s = lit 0.08 ->
    Rest.at_target s target ->
    Particles.positions (Particles.update elapsed s) = Particles.positions s.
Proof.
  intros s target elapsed Htarget Hattr Hspeed Hrest.
  apply list_eq. intros k. simpl.
  rewrite (Nat.div_mod_eq k 3), (Nat.mul_comm 3).
  rewrite (lerp_loop_lookup s target _ Htarget Hattr)
    by (apply Nat.mod_upper_bound; lia).
  destruct (decide (k / 3 < Particles.count s)) as [Hlt|_]; [|reflexivity].
  rewrite (Nat.mul_comm _ 3), <- Nat.div_mod_eq.
  destruct (Particles.positions s !! k) as [p|] eqn:Hp; [|reflexivity].
  simpl. f_equal.
  destruct (Hrest k p) as [Ht Hsettled]; [|assumption|].
  { pose proof (Nat.div_mod_eq k 3). pose proof (Nat.mod_upper_bound k 3).
    lia. }
  unfold Particles.load. rewrite Ht, Hspeed. simpl to_number.
  now apply lerp1_settled.
Qed.

Lemma update_at_target_is_still_witness :
  Particles.positions
    (Particles.update 1%float
       (Particles.setTarget [1; 2; 3; 4; 5; 6]%float Demo.two_particles))
  = [1; 2; 3; 4; 5; 6]%float.
Proof.
  apply (update_at_target_is_still
           (Particles.setTarget [1; 2; 3; 4; 5; 6]%float Demo.two_particles)
           [1; 2; 3; 4; 5; 6]%float 1%float);
    try (vm_compute; reflexivity).
  intros k p Hk Hp.
  do 6 (destruct k as [|k];
        [injection Hp as <-; vm_compute; auto|]).
  simpl in Hk. lia.
Defined.

(* ------------------------------------------------------------------ *)
(** ** The attraction step in exact arithmetic *)

Section AttractMore.
Import Particles.

(** The three coordinates the step stores inside the guard. *)
Lemma exact_attract_inside (s : ParticleSystem (option R))
    (ax ay az px py pz : R) (pos : list (option R)) (i : nat) :
  attractor s = Some (mkVector3 (Some ax) (Some ay) (Some az)) ->
  attractRadius s = lit 4.0 ->
  attractStrength s = lit 0.06 ->
  pos !! (i * 3) = Some (Some px) ->
  pos !! (i * 3 + 1) = Some (Some py) ->
  pos !! (i * 3 + 2) = Some (Some pz) ->
  let d := R_sqrt.sqrt ((ax - px) * (ax - px) + (ay - py) * (ay - py)
                        + (az - pz) * (az - pz)) in
  (0.01 < d < 4)%R ->
  attract s pos i !! (i * 3)
  = Some (Some (px + (ax - px) / d * (0.06 * (1 - d / 4)))%R)
  /\ attract s pos i !! (i * 3 + 1)
     = Some (Some (py + (ay - py) / d * (0.06 * (1 - d / 4)))%R)
  /\ attract s pos i !! (i * 3 + 2)
     = Some (Some (pz + (az - pz) / d * (0.06 * (1 - d / 4)))%R).
Proof.
  intros Hattr Hradius Hstrength Hx Hy Hz d [Hlo Hhi].
  pose proof (exact_dist ax ay az px py pz pos i Hx Hy Hz) as Hdist.
  fold d in Hdist.
  assert (Hr : (dist_to (mkVector3 (Some ax) (Some ay) (Some az)) pos i
                <? attractRadius s)%js = true).
  { rewrite Hdist, Hradius. simpl. unfold Q2R. simpl.
    destruct (Rlt_dec _ _); [reflexivity|lra]. }
  assert (He : (lit 0.01
                <? dist_to (mkVector3 (Some ax) (Some ay) (Some az)) pos i)%js
               = true).
  { rewrite Hdist. simpl. unfold Q2R. simpl.
    destruct (Rlt_dec _ _); [reflexivity|lra]. }
  rewrite (attract_inside s _ pos i Hattr Hr He).
  rewrite Hdist, Hradius, Hstrength. unfold load.
  rewrite Hx, Hy, Hz, !store_lookup.
  repeat (destruct (decide _); try lia).
  rewrite Hx, Hy, Hz. simpl. unfold Exact.xdiv, Q2R. simpl.
  repeat (destruct (Req_dec_T _ 0) as [Hzero|_]; [lra|]).
  simpl. repeat split; do 2 f_equal; field; lra.
Qed.

End AttractMore.

(** X9.  In exact arithmetic with the constructor's radius 4.0 and
    strength 0.06, a particle at distance [0.01 < d < 4] from the attractor
    is moved by exactly [f = 0.06 * (1 - d / 4)], less than 0.06, along the
    line to the attractor, and ends at distance [|d - f|] from it: closer
    than before when [d >= 0.03], but past the attractor and farther from
    it than before when [d <= 0.029]. *)
Theorem attraction_step_length :
  forall (s : Particles.ParticleSystem (option R))
         (ax ay az px py pz : R) (pos : list (option R)) (i : nat),
    Particles.attractor s
    = Some (Particles.mkVector3 (Some ax) (Some ay) (Some az)) ->
    Particles.attractRadius s = lit 4.0 ->
    Particles.attractStrength s = lit 0.06 ->
    pos !! (i * 3) = Some (Some px) ->
    pos !! (i * 3 + 1) = Some (Some py) ->
    pos !! (i * 3 + 2) = Some (Some pz) ->
    let d :=
      R_sqrt.sqrt ((ax - px) * (ax - px) + (ay - py) * (ay - py)
                   + (az - pz) * (az - pz)) in
    let f := (0.06 * (1 - d / 4))%R in
    (0.01 < d < 4)%R ->
    exists x y z : R,
      Particles.attract s pos i !! (i * 3) = Some (Some x)
      /\ Particles.attract s pos i !! (i * 3 + 1) = Some (Some y)
      /\ Particles.attract s pos i !! (i * 3 + 2) = Some (Some z)
      /\ R_sqrt.sqrt ((x - px) * (x - px) + (y - py) * (y - py)
                      + (z - pz) * (z - pz)) = f
      /\ (0 < f < 0.06)%R
      /\ R_sqrt.sqrt ((ax - x) * (ax - x) + (ay - y) * (ay - y)
                      + (az - z) * (az - z)) = Rabs (d - f)
      /\ ((0.03 <= d)%R -> (Rabs (d - f) < d)%R)
      /\ ((d <= 0.029)%R -> (d < Rabs (d - f))%R).
Proof.
  intros s ax ay az px py pz pos i Hattr Hradius Hstrength Hx Hy Hz d f Hd.
  destruct (exact_attract_inside s ax ay az px py pz pos i
              Hattr Hradius Hstrength Hx Hy Hz Hd) as (Ex & Ey & Ez).
  fold d in Ex, Ey, Ez. fold f in Ex, Ey, Ez.
  do 3 eexists. split; [exact Ex|]. split; [exact Ey|]. split; [exact Ez|].
  set (S := ((ax - px) * (ax - px) + (ay - py) * (ay - py)
             + (az - pz) * (az - pz))%R) in *.
  assert (HS : (0 <= S)%R).
  { unfold S. pose proof (Rle_0_sqr (ax - px)). pose proof (Rle_0_sqr (ay - py)).
    pose proof (Rle_0_sqr (az - pz)). unfold Rsqr in *. lra. }
  assert (Hdd : (d * d = S)%R) by (apply sqrt_sqrt, HS).
  assert (Hf : (0 < f < 0.06)%R) by (unfold f; lra).
  split; [|split; [exact Hf|split; [|split]]].
  - replace ((px + (ax - px) / d * f - px) * (px + (ax - px) / d * f - px)
             + (py + (ay - py) / d * f - py) * (py + (ay - py) / d * f - py)
             + (pz + (az - pz) / d * f - pz) * (pz + (az - pz) / d * f - pz))%R
      with (f * f)%R.
    + apply sqrt_square. lra.
    + transitivity (f * f * S / (d * d))%R; [rewrite <- Hdd; field; lra|].
      unfold S. field. lra.
  - replace ((ax - (px + (ax - px) / d * f)) * (ax - (px + (ax - px) / d * f))
             + (ay - (py + (ay - py) / d * f)) * (ay - (py + (ay - py) / d * f))
             + (az - (pz + (az - pz) / d * f)) * (az - (pz + (az - pz) / d * f)))%R
      with (Rsqr (d - f)).
    + apply sqrt_Rsqr_abs.
    + unfold Rsqr.
      transitivity ((d - f) * (d - f) * S / (d * d))%R;
        [rewrite <- Hdd; field; lra|].
      unfold S. field. lra.
  - intros Hfar. apply Rabs_def1; unfold f in *; lra.
  - intros Hnear. rewrite Rabs_left by (unfold f in *; lra).
    unfold f in *. lra.
Qed.

Lemma attraction_step_length_witness :
  exists x y z : R,
    Particles.attract
      (EngineCalls.set_attractor
         (Some (Particles.mkVector3 (Some 2%R) (Some 0%R) (Some 0%R)))
         Demo.exact_origin)
      [Some 0%R; Some 0%R; Some 0%R] 0 !! 0 = Some (Some x)
    /\ Particles.attract
         (EngineCalls.set_attractor
            (Some (Particles.mkVector3 (Some 2%R) (Some 0%R) (Some 0%R)))
            Demo.exact_origin)
         [Some 0%R; Some 0%R; Some 0%R] 0 !! 1 = Some (Some y)
    /\ Particles.attract
         (EngineCalls.set_attractor
            (Some (Particles.mkVector3 (Some 2%R) (Some 0%R) (Some 0%R)))
            Demo.exact_origin)
         [Some 0%R; Some 0%R; Some 0%R] 0 !! 2 = Some (Some z)
    /\ (R_sqrt.sqrt ((x - 0) * (x - 0) + (y - 0) * (y - 0) + (z - 0) * (z - 0))
        < 0.06)%R.
Proof.
  assert (Hsqrt : R_sqrt.sqrt ((2 - 0) * (2 - 0) + (0 - 0) * (0 - 0)
                               + (0 - 0) * (0 - 0)) = 2%R).
  { replace ((2 - 0) * (2 - 0) + (0 - 0) * (0 - 0) + (0 - 0) * (0 - 0))%R
      with (2 * 2)%R by lra.
    apply sqrt_square. lra. }
  destruct (attraction_step_length
              (EngineCalls.set_attractor
                 (Some (Particles.mkVector3 (Some 2%R) (Some 0%R) (Some 0%R)))
                 Demo.exact_origin)
              2 0 0 0 0 0 [Some 0%R; Some 0%R; Some 0%R] 0
              eq_refl eq_refl eq_refl eq_refl eq_refl eq_refl)
    as (x & y & z & Hx & Hy & Hz & Hlen & Hf & _).
  { rewrite Hsqrt. lra. }
  exists x, y, z. repeat (split; [assumption|]).
  rewrite Hlen. lra.
Defined.

(* ================================================================== *)
(** * Further properties of the formation generators *)
(* ================================================================== *)

Import ExactMath.

Section PointsFacts.
Import Particles TextPoints Points.
Context {num : Type} {N : JsNum num} {M : JsMath num}.
Variable random : nat -> num.

Lemma store_point_lookup (arr : list num) (i j c : nat)
    (p : num * num * num) :
  c < 3 ->
  store_point arr i p !! (j * 3 + c)
  = if decide (j = i) then (fun _ => fround (coord c p)) <$> arr !! (j * 3 + c)
    else arr !! (j * 3 + c).
Proof.
  intros Hc. destruct p as [[x y] z]. unfold store_point, coord.
  rewrite !store_lookup.
  repeat (destruct (decide _)); try lia; try reflexivity; subst;
    destruct c as [|[|[|c]]]; try lia; reflexivity.
Qed.

(** A loop whose body stores one point per round, computed from the round
    and the number of random calls made, and makes [m] random calls. *)
Lemma for_loop_points (P : nat -> nat -> num * num * num) (m : nat)
    (body : nat -> list num -> Gen (list num)) :
  (forall i arr k, body i arr k = (store_point arr i (P i k), m + k)) ->
  forall (n i0 : nat) (arr : list num) (k : nat),
    snd (for_loop body i0 n arr k) = m * n + k
    /\ forall j c, c < 3 ->
         fst (for_loop body i0 n arr k) !! (j * 3 + c)
         = if decide (i0 <= j < i0 + n)
           then (fun _ => fround (coord c (P j (m * (j - i0) + k))))
                  <$> arr !! (j * 3 + c)
           else arr !! (j * 3 + c).
Proof.
  intros Hbody n. induction n as [|n IH]; intros i0 arr k.
  - simpl. split; [lia|]. intros j c Hc.
    destruct (decide _); [lia|reflexivity].
  - simpl. unfold bind. rewrite Hbody.
    destruct (IH (S i0) (store_point arr i0 (P i0 k)) (m + k)) as [Hk Hl].
    split; [rewrite Hk; lia|].
    intros j c Hc. rewrite Hl, store_point_lookup by assumption.
    destruct (decide (S i0 <= j < S i0 + n)) as [Hin|Hout].
    + destruct (decide (j = i0)); [lia|].
      destruct (decide (i0 <= j < i0 + S n)); [|lia].
      replace (m * (j - S i0) + (m + k)) with (m * (j - i0) + k) by nia.
      reflexivity.
    + destruct (decide (j = i0)) as [->|Hne].
      * destruct (decide (i0 <= i0 < i0 + S n)); [|lia].
        replace (m * (i0 - i0) + k) with k by nia. reflexivity.
      * destruct (decide (i0 <= j < i0 + S n)); [lia|reflexivity].
Qed.

Lemma ball_point_body (radius : num) (i : nat) (arr : list num) (k : nat) :
  ball_point random radius i arr k
  = (store_point arr i (ball random radius k), 3 + k).
Proof. reflexivity. Qed.

Lemma heart_body (scale : num) (i : nat) (arr : list num) (k : nat) :
  (fun i arr =>
     bind (Math_random random) (fun u =>
       let t := (u * Math_PI * lit 2)%js in
       let x := (lit 16 * Math_pow (Math_sin t) (lit 3))%js in
       let y := (lit 13 * Math_cos t - lit 5 * Math_cos (lit 2 * t)
                 - lit 2 * Math_cos (lit 3 * t) - Math_cos (lit 4 * t))%js in
       bind (Math_random random) (fun u =>
         let z := ((u - lit 0.5) * lit 2)%js in
         let arr := store arr (i * 3) (x * scale * lit 0.25)%js in
         let arr := store arr (i * 3 + 1) (y * scale * lit 0.25)%js in
         ret (store arr (i * 3 + 2) (z * lit 0.3)%js)))) i arr k
  = (store_point arr i (heart random scale k), 2 + k).
Proof. reflexivity. Qed.

Lemma planet_body (count i : nat) (arr : list num) (k : nat) :
  (fun i arr =>
     if (of_nat i <? Math_floor (of_nat count * lit 0.4))%js
     then ball_point random (lit 2.0) i arr
     else
       bind (Math_random random) (fun u =>
         let angle := (u * Math_PI * lit 2)%js in
         bind (Math_random random) (fun u =>
           let ringR := (lit 4.0 + (u - lit 0.5) * lit 1.8)%js in
           bind (Math_random random) (fun u =>
             let y := ((u - lit 0.5) * lit 0.3)%js in
             let arr := store arr (i * 3) (Math_cos angle * ringR)%js in
             let arr := store arr (i * 3 + 1) y in
             ret (store arr (i * 3 + 2) (Math_sin angle * ringR)%js)))))
    i arr k
  = (store_point arr i (planet random count i k), 3 + k).
Proof. unfold planet. destruct (_ <? _)%js; reflexivity. Qed.

Lemma sample_body (geometry : Geometry num) (cdf : list num) (s : nat)
    (arr : list num) (k : nat) :
  sample random geometry cdf s arr k
  = (store_point arr s (surface random geometry cdf k), 3 + k).
Proof.
  unfold sample, surface, picked, barycentric, bind, Math_random, ret.
  destruct (corners _ _) as [[a b] c].
  now destruct (_ <? _)%js.
Qed.

Lemma sampleSurface_loop
    (getArea : Vector3 num -> Vector3 num -> Vector3 num -> num)
    (geometry : Geometry num) (count : nat) :
  sampleSurface random getArea geometry count
  = for_loop (sample random geometry (cdf_of getArea geometry)) 0 count
      (Float32Array (count * 3)).
Proof.
  unfold sampleSurface, cdf_of.
  now destruct (area_loop _ _ _ _ _ _) as [areas totalArea].
Qed.

(** The cloud of a loop that starts from a fresh array. *)
Lemma fresh_loop_points (P : nat -> nat -> num * num * num) (m : nat)
    (body : nat -> list num -> Gen (list num)) (count k : nat) :
  (forall i arr k, body i arr k = (store_point arr i (P i k), m + k)) ->
  snd (for_loop body 0 count (Float32Array (count * 3)) k) = m * count + k
  /\ forall i c, i < count -> c < 3 ->
       fst (for_loop body 0 count (Float32Array (count * 3)) k) !! (i * 3 + c)
       = Some (fround (coord c (P i (m * i + k)))).
Proof.
  intros Hbody.
  destruct (for_loop_points P m body Hbody count 0
              (Float32Array (count * 3)) k) as [Hk Hl].
  split; [exact Hk|]. intros i c Hi Hc. rewrite Hl by assumption.
  destruct (decide (0 <= i < 0 + count)); [|lia].
  unfold Float32Array. rewrite lookup_replicate_2 by lia.
  now rewrite Nat.sub_0_r.
Qed.

(** The clouds, point by point. *)
Lemma sphere_cloud (radius : num) (count k : nat) :
  snd (getSpherePositions random count radius k) = 3 * count + k
  /\ forall i c, i < count -> c < 3 ->
       fst (getSpherePositions random count radius k) !! (i * 3 + c)
       = Some (fround (coord c (ball random radius (3 * i + k)))).
Proof.
  apply (fresh_loop_points (fun _ k => ball random radius k) 3
           (ball_point random radius) count k (ball_point_body radius)).
Qed.

Lemma heart_cloud (scale : num) (count k : nat) :
  snd (getHeartPositions random count scale k) = 2 * count + k
  /\ forall i c, i < count -> c < 3 ->
       fst (getHeartPositions random count scale k) !! (i * 3 + c)
       = Some (fround (coord c (heart random scale (2 * i + k)))).
Proof.
  apply (fresh_loop_points (fun _ k => heart random scale k) 2
           _ count k (heart_body scale)).
Qed.

Lemma planet_cloud (count k : nat) :
  snd (getPlanetPositions random count k) = 3 * count + k
  /\ forall i c, i < count -> c < 3 ->
       fst (getPlanetPositions random count k) !! (i * 3 + c)
       = Some (fround (coord c (planet random count i (3 * i + k)))).
Proof.
  apply (fresh_loop_points (fun i k => planet random count i k) 3
           _ count k (planet_body count)).
Qed.

Lemma surface_cloud
    (getArea : Vector3 num -> Vector3 num -> Vector3 num -> num)
    (geometry : Geometry num) (count k : nat) :
  snd (sampleSurface random getArea geometry count k) = 3 * count + k
  /\ forall i c, i < count -> c < 3 ->
       fst (sampleSurface random getArea geometry count k) !! (i * 3 + c)
       = Some (fround (coord c (surface random geometry
                                  (cdf_of getArea geometry) (3 * i + k)))).
Proof.
  rewrite sampleSurface_loop.
  apply (fresh_loop_points
           (fun _ k => surface random geometry (cdf_of getArea geometry) k) 3
           _ count k (sample_body geometry (cdf_of getArea geometry))).
Qed.

(** *** The triangle a sample falls in *)

Lemma pick_range (cdf : list num) (r : num) (n ti : nat) :
  ti <= pick cdf r ti n <= ti + n.
Proof.
  revert ti. induction n as [|n IH]; intros ti; simpl; [lia|].
  destruct (_ <=? _)%js; [lia|]. specialize (IH (S ti)). lia.
Qed.

Lemma pick_first (cdf : list num) (r : num) (n ti : nat) :
  (forall j, ti <= j < pick cdf r ti n -> (r <=? load cdf j)%js = false)
  /\ (pick cdf r ti n < ti + n ->
      (r <=? load cdf (pick cdf r ti n))%js = true).
Proof.
  revert ti. induction n as [|n IH]; intros ti; simpl.
  - split; intros; lia.
  - destruct (r <=? load cdf ti)%js eqn:E.
    + split; [intros; lia|auto].
    + destruct (IH (S ti)) as [Hbefore Hat]. split.
      * intros j Hj. destruct (decide (j = ti)) as [->|]; [exact E|].
        apply Hbefore. lia.
      * intros Hlt. apply Hat. lia.
Qed.

Lemma iterations_integer (q : Q) (n : nat) :
  (q == inject_Z (Z.of_nat n))%Q -> iterations q = n.
Proof.
  intros H. unfold iterations.
  now rewrite (Qceiling_comp _ _ H), Qceiling_Z, Nat2Z.id.
Qed.

Lemma triangles_unindexed (geometry : Geometry num) (T : nat) :
  g_index geometry = None ->
  length (g_position geometry) = T * 9 ->
  1 <= T ->
  iterations (triCount geometry - 1)%Q = T - 1.
Proof.
  intros Hidx Hlen HT. apply iterations_integer.
  unfold triCount. rewrite Hidx, Hlen.
  rewrite Nat2Z.inj_sub, Nat2Z.inj_mul by assumption.
  unfold Z.sub. rewrite inject_Z_plus, inject_Z_opp, inject_Z_mult.
  simpl (inject_Z (Z.of_nat 9)). simpl (inject_Z (Z.of_nat 1)). field.
Qed.

Lemma triangles_indexed (geometry : Geometry num) (idx : list nat)
    (T : nat) :
  g_index geometry = Some idx ->
  length idx = T * 3 ->
  1 <= T ->
  iterations (triCount geometry - 1)%Q = T - 1.
Proof.
  intros Hidx Hlen HT. apply iterations_integer.
  unfold triCount. rewrite Hidx, Hlen.
  rewrite Nat2Z.inj_sub, Nat2Z.inj_mul by assumption.
  unfold Z.sub. rewrite inject_Z_plus, inject_Z_opp, inject_Z_mult.
  simpl (inject_Z (Z.of_nat 3)). simpl (inject_Z (Z.of_nat 1)). field.
Qed.

End PointsFacts.

(** X11.  The surface sampler picks the first triangle whose cumulative
    entry is at least the random number, and the last triangle when there
    is none: for a geometry of [T >= 1] whole triangles the picked index is
    below [T], so every corner coordinate it reads exists (in a position
    array without index) and every vertex number it reads exists (in an
    index array). *)
Theorem picked_triangle_exists :
  forall (num : Type) (N : JsNum num) (random : nat -> num)
         (geometry : TextPoints.Geometry num) (cdf : list num)
         (k T : nat),
    1 <= T ->
    let ti := Points.picked random geometry cdf k in
    ((TextPoints.g_index geometry = None
      /\ length (TextPoints.g_position geometry) = T * 9)
     \/ (exists idx, TextPoints.g_index geometry = Some idx
                     /\ length idx = T * 3)) ->
    ti < T
    /\ (forall j, j < ti -> (random k <=? Particles.load cdf j)%js = false)
    /\ (ti < T - 1 -> (random k <=? Particles.load cdf ti)%js = true)
    /\ (TextPoints.g_index geometry = None ->
        forall j, j < 9 ->
          is_Some (TextPoints.g_position geometry !! (ti * 9 + j)))
    /\ (forall idx, TextPoints.g_index geometry = Some idx ->
        forall j, j < 3 -> is_Some (idx !! (ti * 3 + j))).
Proof.
  intros num N random geometry cdf k T HT ti Hshape.
  assert (Hit : TextPoints.iterations (TextPoints.triCount geometry - 1)%Q
                = T - 1).
  { destruct Hshape as [[Hidx Hlen]|(idx & Hidx & Hlen)].
    - now apply triangles_unindexed.
    - now apply (triangles_indexed geometry idx). }
  unfold ti, Points.picked. rewrite Hit.
  pose proof (pick_range cdf (random k) (T - 1) 0) as Hrange.
  destruct (pick_first cdf (random k) (T - 1) 0) as [Hbefore Hat].
  set (p := TextPoints.pick cdf (random k) 0 (T - 1)) in *.
  split; [lia|]. split; [intros j Hj; apply Hbefore; lia|].
  split; [intros Hlt; apply Hat; lia|]. split.
  - intros Hnone j Hj. apply lookup_lt_is_Some_2.
    destruct Hshape as [[_ Hlen]|(idx & Hidx & _)]; [lia|congruence].
  - intros idx Hidx j Hj. apply lookup_lt_is_Some_2.
    destruct Hshape as [[Hnone _]|(idx' & Hidx' & Hlen)]; [congruence|].
    assert (idx' = idx) as -> by congruence. lia.
Qed.

Lemma picked_triangle_exists_witness :
  Points.picked (fun _ => 0.9%float)
    (TextPoints.mkGeometry (replicate 18 0%float) None)
    [0.5; 1]%float 0 < 2.
Proof.
  apply (picked_triangle_exists float float_JsNum (fun _ => 0.9%float)
           (TextPoints.mkGeometry (replicate 18 0%float) None)
           [0.5; 1]%float 0 2).
  - lia.
  - left. split; reflexivity.
Defined.

(** X10.  In every arithmetic, each generator makes a fixed number of
    [Math.random()] calls per point (sphere, compact cluster, planet and
    surface sampler 3, heart 2), and point [i] of its cloud is the stored
    value of the point computed from the random numbers of its own round
    alone. *)
Theorem generators_use_own_randoms :
  forall (num : Type) (N : JsNum num) (M : JsMath num)
         (random : nat -> num)
         (getArea : Particles.Vector3 num -> Particles.Vector3 num ->
                    Particles.Vector3 num -> num)
         (geometry : TextPoints.Geometry num)
         (radius scale : num) (count k : nat),
    (snd (TextPoints.getSpherePositions random count radius k)
     = 3 * count + k
     /\ snd (TextPoints.getHeartPositions random count scale k)
        = 2 * count + k
     /\ snd (TextPoints.getCompactPositions random count radius k)
        = 3 * count + k
     /\ snd (TextPoints.getPlanetPositions random count k) = 3 * count + k
     /\ snd (TextPoints.sampleSurface random getArea geometry count k)
        = 3 * count + k)
    /\ forall i c, i < count -> c < 3 ->
         fst (TextPoints.getSpherePositions random count radius k)
           !! (i * 3 + c)
         = Some (fround (Points.coord c
                           (Points.ball random radius (3 * i + k))))
         /\ fst (TextPoints.getHeartPositions random count scale k)
              !! (i * 3 + c)
            = Some (fround (Points.coord c
                              (Points.heart random scale (2 * i + k))))
         /\ fst (TextPoints.getCompactPositions random count radius k)
              !! (i * 3 + c)
            = Some (fround (Points.coord c
                              (Points.ball random radius (3 * i + k))))
         /\ fst (TextPoints.getPlanetPositions random count k)
              !! (i * 3 + c)
            = Some (fround (Points.coord c
                              (Points.planet random count i (3 * i + k))))
         /\ fst (TextPoints.sampleSurface random getArea geometry count k)
              !! (i * 3 + c)
            = Some (fround (Points.coord c
                              (Points.surface random geometry
                                 (Points.cdf_of getArea geometry)
                                 (3 * i + k)))).
Proof.
  intros num N M random getArea geometry radius scale count k.
  destruct (fresh_loop_points (fun _ k => Points.ball random radius k) 3
              (TextPoints.ball_point random radius) count k
              (ball_point_body random radius)) as [Sk Sl].
  destruct (fresh_loop_points (fun _ k => Points.heart random scale k) 2
              _ count k (heart_body random scale)) as [Hk Hl].
  destruct (fresh_loop_points (fun i k => Points.planet random count i k) 3
              _ count k (planet_body random count)) as [Pk Pl].
  destruct (fresh_loop_points
              (fun _ k => Points.surface random geometry
                            (Points.cdf_of getArea geometry) k) 3
              _ count k
              (sample_body random geometry (Points.cdf_of getArea geometry)))
    as [Tk Tl].
  rewrite sampleSurface_loop.
  split; [now repeat split|].
  intros i c Hi Hc.
  split; [apply Sl; assumption|]. split; [apply Hl; assumption|].
  split; [apply Sl; assumption|]. split; [apply Pl; assumption|].
  apply Tl; assumption.
Qed.

Lemma generators_use_own_randoms_witness :
  fst (TextPoints.getSpherePositions ExactDemo.zero_random 2 (Some 1%R) 0)
    !! (1 * 3 + 2)
  = Some (fround (Points.coord 2
                    (Points.ball ExactDemo.zero_random (Some 1%R) (3 * 1 + 0)))).
Proof.
  apply (proj2 (generators_use_own_randoms (option R) xreal_JsNum
                  ExactMath.xreal_JsMath ExactDemo.zero_random
                  ExactDemo.unit_area
                  ExactDemo.triangle
                  (Some 1%R) (Some 1%R) 2 0) 1 2); lia.
Defined.

(* ------------------------------------------------------------------ *)
(** ** The clouds in exact arithmetic *)

Section ExactClouds.
Import Particles TextPoints Points ExactMath.
Variable random : nat -> option R.

Lemma Q2R_integer (z : Z) : Q2R (inject_Z z) = IZR z.
Proof. unfold Q2R, inject_Z. simpl. lra. Qed.

Lemma cbrt_unit (u : R) : (0 <= u < 1)%R -> (0 <= cbrt u < 1)%R.
Proof.
  intros [H0 H1]. unfold cbrt.
  destruct (Rlt_dec 0 u) as [Hpos|Hnpos].
  - unfold Rpower. split; [left; apply exp_pos|].
    rewrite <- exp_0. apply exp_increasing.
    assert (Hln : (ln u < 0)%R)
      by (rewrite <- ln_1; apply ln_increasing; lra).
    nra.
  - destruct (Rlt_dec u 0); lra.
Qed.

(** A point of the ball generators lies within the radius. *)
Lemma exact_ball (rho : R) (k : nat) :
  unit_random random ->
  (0 <= rho)%R ->
  exists x y z : R,
    ball random (Some rho) k = (Some x, Some y, Some z)
    /\ (x * x + y * y + z * z <= rho * rho)%R.
Proof.
  intros Hrandom Hrho.
  destruct (Hrandom k) as (u1 & E1 & H1).
  destruct (Hrandom (S k)) as (u2 & E2 & H2).
  destruct (Hrandom (S (S k))) as (u3 & E3 & H3).
  unfold ball. rewrite E1, E2, E3. simpl. unfold Q2R. simpl.
  destruct (Rle_dec (-1) (2 * / 1 * u2 - 1 * / 1)) as [_|Hno]; [|lra].
  destruct (Rle_dec (2 * / 1 * u2 - 1 * / 1) 1) as [_|Hno]; [|lra].
  simpl. do 3 eexists. split; [reflexivity|].
  set (phi := acos (2 * / 1 * u2 - 1 * / 1)).
  set (theta := (u1 * PI * (2 * / 1))%R).
  pose proof (sin2_cos2 phi) as Hphi. pose proof (sin2_cos2 theta) as Htheta.
  unfold Rsqr in Hphi, Htheta.
  pose proof (cbrt_unit u3 H3) as Hq.
  set (q := cbrt u3) in *. set (s := sin phi) in *. set (c := cos phi) in *.
  set (st := sin theta) in *. set (ct := cos theta) in *.
  replace (rho * q * s * ct * (rho * q * s * ct)
           + rho * q * s * st * (rho * q * s * st)
           + rho * q * c * (rho * q * c))%R
    with (rho * q * (rho * q) * (s * s * (st * st + ct * ct) + c * c))%R
    by ring.
  rewrite Htheta, Rmult_1_r, Hphi, Rmult_1_r.
  apply Rmult_le_compat; nra.
Qed.

(** A point of the ring lies in the band. *)
Lemma exact_ring (k : nat) :
  unit_random random ->
  exists x y z : R,
    ring random k = (Some x, Some y, Some z)
    /\ (9.61 <= x * x + z * z <= 24.01)%R
    /\ (-0.15 <= y <= 0.15)%R.
Proof.
  intros Hrandom.
  destruct (Hrandom k) as (u1 & E1 & H1).
  destruct (Hrandom (S k)) as (u2 & E2 & H2).
  destruct (Hrandom (S (S k))) as (u3 & E3 & H3).
  unfold ring. rewrite E1, E2, E3. simpl. unfold Q2R. simpl.
  do 3 eexists. split; [reflexivity|].
  set (angle := (u1 * PI * (2 * / 1))%R).
  pose proof (sin2_cos2 angle) as Hangle. unfold Rsqr in Hangle.
  set (sa := sin angle) in *. set (ca := cos angle) in *.
  set (ringR := (40 * / 10 + (u2 - 5 * / 10) * (18 * / 10))%R).
  assert (HR : (3.1 <= ringR <= 4.9)%R) by (unfold ringR; lra).
  replace (ca * ringR * (ca * ringR) + sa * ringR * (sa * ringR))%R
    with (ringR * ringR * (sa * sa + ca * ca))%R by ring.
  rewrite Hangle, Rmult_1_r. split; [nra|lra].
Qed.

(** A point of the planet: in the body when its number is below the floor
    of [count * 0.4], in the ring otherwise. *)
Lemma exact_planet (count i k : nat) :
  unit_random random ->
  exists x y z : R,
    planet random count i k = (Some x, Some y, Some z)
    /\ ((INR i < IZR (Int_part (INR count * 0.4)))%R ->
        (x * x + y * y + z * z <= 4)%R)
    /\ (~ (INR i < IZR (Int_part (INR count * 0.4)))%R ->
        (9.61 <= x * x + z * z <= 24.01)%R /\ (-0.15 <= y <= 0.15)%R).
Proof.
  intros Hrandom. unfold planet. simpl.
  change (Q2R 0.4) with 0.4%R.
  destruct (Rlt_dec (INR i) (IZR (Int_part (INR count * 0.4)))) as [Hcore|Hring].
  - destruct (exact_ball (Q2R 2.0) k Hrandom) as (x & y & z & E & Hb).
    { unfold Q2R. simpl. lra. }
    exists x, y, z. split; [exact E|]. split; [|contradiction].
    intros _. unfold Q2R in Hb. simpl in Hb. lra.
  - destruct (exact_ring k Hrandom) as (x & y & z & E & Hb).
    exists x, y, z. split; [exact E|]. split; [contradiction|auto].
Qed.

Lemma pow_3 (x : R) : Math_pow (Some x) (lit 3) = Some (x * x * x)%R.
Proof.
  simpl. unfold xpow.
  assert (H3 : Int_part (Q2R 3) = 3%Z).
  { symmetry. apply Int_part_spec. unfold Q2R. simpl. lra. }
  rewrite H3.
  destruct (Req_dec_T (Q2R 3) 3) as [_|Hne];
    [|exfalso; apply Hne; unfold Q2R; simpl; lra].
  destruct (Req_dec_T x 0); simpl; f_equal; ring.
Qed.

(** A point of the heart lies in a box. *)
Lemma exact_heart (sigma : R) (k : nat) :
  unit_random random ->
  (0 <= sigma)%R ->
  exists x y z : R,
    heart random (Some sigma) k = (Some x, Some y, Some z)
    /\ (Rabs x <= 4 * sigma)%R
    /\ (Rabs y <= 5.25 * sigma)%R
    /\ (Rabs z <= 0.3)%R.
Proof.
  intros Hrandom Hsigma.
  destruct (Hrandom k) as (u1 & E1 & H1).
  destruct (Hrandom (S k)) as (u2 & E2 & H2).
  unfold heart. rewrite E1, E2.
  change (Math_sin (Some u1 * Math_PI * lit 2)%js)
    with (Some (sin (u1 * PI * Q2R 2))).
  rewrite pow_3. simpl. unfold Q2R. simpl.
  do 3 eexists. split; [reflexivity|].
  set (t := (u1 * PI * (2 * / 1))%R).
  pose proof (SIN_bound t) as Hs.
  pose proof (COS_bound t) as Hc1.
  pose proof (COS_bound (2 * / 1 * t)) as Hc2.
  pose proof (COS_bound (3 * / 1 * t)) as Hc3.
  pose proof (COS_bound (4 * / 1 * t)) as Hc4.
  set (s := sin t) in *.
  assert (Hcube : (-1 <= s * s * s <= 1)%R) by nra.
  repeat split; apply Rabs_le; split; nra.
Qed.

(** A sample of a position array without index lies in its triangle. *)
Lemma exact_surface (geometry : Geometry (option R)) (pos : list R)
    (cdf : list (option R)) (T k : nat) :
  unit_random random ->
  g_index geometry = None ->
  g_position geometry = Some <$> pos ->
  length pos = T * 9 ->
  1 <= T ->
  exists (ti : nat) (x y z : R),
    ti < T
    /\ surface random geometry cdf k = (Some x, Some y, Some z)
    /\ in_triangle (g_position geometry) ti x y z.
Proof.
  intros Hrandom Hidx Hpos Hlen HT.
  destruct (Hrandom (S k)) as (u & Eu & Hu).
  destruct (Hrandom (S (S k))) as (v & Ev & Hv).
  set (ti := picked random geometry cdf k).
  assert (Hti : ti < T).
  { unfold ti, picked.
    rewrite (triangles_unindexed geometry T Hidx) by
      (rewrite ?Hpos, ?length_fmap; assumption).
    pose proof (pick_range cdf (random k) (T - 1) 0). lia. }
  assert (Hget : forall j, j < 9 ->
            exists a, g_position geometry !! (ti * 9 + j) = Some (Some a)).
  { intros j Hj. destruct (lookup_lt_is_Some_2 pos (ti * 9 + j)) as [a Ha];
      [lia|].
    exists a. now rewrite Hpos, list_lookup_fmap, Ha. }
  destruct (Hget 0) as [ax Hax]; [lia|]. destruct (Hget 1) as [ay Hay]; [lia|].
  destruct (Hget 2) as [az Haz]; [lia|]. destruct (Hget 3) as [bx Hbx]; [lia|].
  destruct (Hget 4) as [by' Hby]; [lia|]. destruct (Hget 5) as [bz Hbz]; [lia|].
  destruct (Hget 6) as [cx Hcx]; [lia|]. destruct (Hget 7) as [cy Hcy]; [lia|].
  destruct (Hget 8) as [cz Hcz]; [lia|].
  rewrite Nat.add_0_r in Hax.
  exists ti. unfold surface. fold ti.
  unfold corners, vertex_number, fromBufferAttribute, load. rewrite Hidx.
  replace (ti * 3 * 3) with (ti * 9) by lia.
  replace ((ti * 3 + 1) * 3) with (ti * 9 + 3) by lia.
  replace ((ti * 3 + 2) * 3) with (ti * 9 + 6) by lia.
  replace (ti * 9 + 3 + 1) with (ti * 9 + 4) by lia.
  replace (ti * 9 + 3 + 2) with (ti * 9 + 5) by lia.
  replace (ti * 9 + 6 + 1) with (ti * 9 + 7) by lia.
  replace (ti * 9 + 6 + 2) with (ti * 9 + 8) by lia.
  rewrite Hax, Hay, Haz, Hbx, Hby, Hbz, Hcx, Hcy, Hcz, Eu, Ev.
  unfold barycentric. simpl. unfold Q2R. simpl.
  destruct (Rlt_dec (1 * / 1) (u + v)) as [Hfold|Hkeep]; simpl;
    do 3 eexists; (split; [exact Hti|]); (split; [reflexivity|]);
    exists ax, ay, az, bx, by', bz, cx, cy, cz.
  - exists (1 * / 1 - u)%R, (1 * / 1 - v)%R,
      (1 * / 1 - (1 * / 1 - u) - (1 * / 1 - v))%R.
    repeat split; try assumption; lra.
  - exists u, v, (1 * / 1 - u - v)%R.
    repeat split; try assumption; lra.
Qed.

End ExactClouds.

Section ExactCloudPoints.
Import Particles TextPoints Points ExactMath.

Lemma cloud_point (cloud : list (option R)) (i : nat)
    (p : option R * option R * option R) (x y z : R) :
  (forall c, c < 3 -> cloud !! (i * 3 + c) = Some (fround (coord c p))) ->
  p = (Some x, Some y, Some z) ->
  cloud !! (i * 3) = Some (Some x)
  /\ cloud !! (i * 3 + 1) = Some (Some y)
  /\ cloud !! (i * 3 + 2) = Some (Some z).
Proof.
  intros H ->. pose proof (H 0) as H0. rewrite Nat.add_0_r in H0.
  split; [apply H0; lia|]. split; [apply (H 1); lia|apply (H 2); lia].
Qed.

End ExactCloudPoints.

(** X12.  In exact arithmetic, with random numbers in [0, 1) and a
    position array without index that holds [T >= 1] whole triangles with
    finite coordinates, every point the surface sampler returns is a
    convex combination of the three corners of one of the triangles (the
    weights are non-negative and add up to 1). *)
Theorem surface_samples_in_triangles :
  forall (random : nat -> option R)
         (getArea : Particles.Vector3 (option R) ->
                    Particles.Vector3 (option R) ->
                    Particles.Vector3 (option R) -> option R)
         (geometry : TextPoints.Geometry (option R)) (pos : list R)
         (T count k i : nat),
    ExactMath.unit_random random ->
    TextPoints.g_index geometry = None ->
    TextPoints.g_position geometry = Some <$> pos ->
    length pos = T * 9 ->
    1 <= T ->
    i < count ->
    let cloud := fst (TextPoints.sampleSurface random getArea geometry
                        count k) in
    exists (ti : nat) (x y z : R),
      ti < T
      /\ cloud !! (i * 3) = Some (Some x)
      /\ cloud !! (i * 3 + 1) = Some (Some y)
      /\ cloud !! (i * 3 + 2) = Some (Some z)
      /\ ExactMath.in_triangle (TextPoints.g_position geometry) ti x y z.
Proof.
  intros random getArea geometry pos T count k i Hrandom Hidx Hpos Hlen HT
    Hi cloud.
  destruct (exact_surface random geometry pos
              (Points.cdf_of getArea geometry) T (3 * i + k)
              Hrandom Hidx Hpos Hlen HT) as (ti & x & y & z & Hti & E & Hin).
  destruct (surface_cloud random getArea geometry count k) as [_ Hl].
  destruct (cloud_point cloud i _ x y z (fun c Hc => Hl i c Hi Hc) E)
    as (Hx & Hy & Hz).
  exists ti, x, y, z. auto.
Qed.

Lemma surface_samples_in_triangles_witness :
  exists (ti : nat) (x y z : R),
    ti < 1
    /\ fst (TextPoints.sampleSurface ExactDemo.zero_random
              ExactDemo.unit_area ExactDemo.triangle 1 0)
         !! (0 * 3) = Some (Some x)
    /\ fst (TextPoints.sampleSurface ExactDemo.zero_random
              ExactDemo.unit_area ExactDemo.triangle 1 0)
         !! (0 * 3 + 1) = Some (Some y)
    /\ fst (TextPoints.sampleSurface ExactDemo.zero_random
              ExactDemo.unit_area ExactDemo.triangle 1 0)
         !! (0 * 3 + 2) = Some (Some z)
    /\ ExactMath.in_triangle
         (TextPoints.g_position ExactDemo.triangle) ti x y z.
Proof.
  apply (surface_samples_in_triangles ExactDemo.zero_random
           ExactDemo.unit_area ExactDemo.triangle
           [0; 0; 0; 1; 0; 0; 0; 1; 0]%R 1 1 0 0);
    try reflexivity; try lia.
  intros k. exists 0%R. split; [reflexivity|lra].
Defined.

(** X13.  In exact arithmetic, with random numbers in [0, 1) and a radius
    [rho >= 0], every point of the sphere cloud and of the compact cloud
    lies within distance [rho] of the origin. *)
Theorem ball_clouds_within_radius :
  forall (random : nat -> option R) (rho : R) (count k i : nat),
    ExactMath.unit_random random ->
    (0 <= rho)%R ->
    i < count ->
    (exists x y z : R,
        fst (TextPoints.getSpherePositions random count (Some rho) k)
          !! (i * 3) = Some (Some x)
        /\ fst (TextPoints.getSpherePositions random count (Some rho) k)
             !! (i * 3 + 1) = Some (Some y)
        /\ fst (TextPoints.getSpherePositions random count (Some rho) k)
             !! (i * 3 + 2) = Some (Some z)
        /\ (x * x + y * y + z * z <= rho * rho)%R)
    /\ (exists x y z : R,
          fst (TextPoints.getCompactPositions random count (Some rho) k)
            !! (i * 3) = Some (Some x)
          /\ fst (TextPoints.getCompactPositions random count (Some rho) k)
               !! (i * 3 + 1) = Some (Some y)
          /\ fst (TextPoints.getCompactPositions random count (Some rho) k)
               !! (i * 3 + 2) = Some (Some z)
          /\ (x * x + y * y + z * z <= rho * rho)%R).
Proof.
  intros random rho count k i Hrandom Hrho Hi.
  destruct (exact_ball random rho (3 * i + k) Hrandom Hrho)
    as (x & y & z & E & Hb).
  destruct (sphere_cloud random (Some rho) count k) as [_ Hl].
  destruct (cloud_point _ i _ x y z (fun c Hc => Hl i c Hi Hc) E)
    as (Hx & Hy & Hz).
  split; exists x, y, z; auto.
Qed.

Lemma ball_clouds_within_radius_witness :
  exists x y z : R,
    fst (TextPoints.getSpherePositions ExactDemo.zero_random 1 (Some 12%R) 0)
      !! (0 * 3) = Some (Some x)
    /\ fst (TextPoints.getSpherePositions ExactDemo.zero_random 1 (Some 12%R) 0)
         !! (0 * 3 + 1) = Some (Some y)
    /\ fst (TextPoints.getSpherePositions ExactDemo.zero_random 1 (Some 12%R) 0)
         !! (0 * 3 + 2) = Some (Some z)
    /\ (x * x + y * y + z * z <= 12 * 12)%R.
Proof.
  apply (ball_clouds_within_radius ExactDemo.zero_random 12%R 1 0 0).
  - intros k. exists 0%R. split; [reflexivity|lra].
  - lra.
  - lia.
Defined.

(** X14.  In exact arithmetic, with random numbers in [0, 1): point [i] of
    the planet cloud lies within distance 2 of the origin when [i] is
    below the floor of [count * 0.4], and otherwise in the ring, at
    distance between 3.1 and 4.9 from the y axis and at height between
    -0.15 and 0.15; with 5000 particles the first 2000 points are the
    body. *)
Theorem planet_cloud_shape :
  forall (random : nat -> option R) (count k i : nat),
    ExactMath.unit_random random ->
    i < count ->
    (exists x y z : R,
        fst (TextPoints.getPlanetPositions random count k) !! (i * 3)
        = Some (Some x)
        /\ fst (TextPoints.getPlanetPositions random count k) !! (i * 3 + 1)
           = Some (Some y)
        /\ fst (TextPoints.getPlanetPositions random count k) !! (i * 3 + 2)
           = Some (Some z)
        /\ ((INR i < IZR (Int_part (INR count * 0.4)))%R ->
            (x * x + y * y + z * z <= 4)%R)
        /\ (~ (INR i < IZR (Int_part (INR count * 0.4)))%R ->
            (9.61 <= x * x + z * z <= 24.01)%R /\ (-0.15 <= y <= 0.15)%R))
    /\ Int_part (INR Particles.PARTICLE_COUNT * 0.4) = 2000%Z.
Proof.
  intros random count k i Hrandom Hi. split.
  - destruct (exact_planet random count i (3 * i + k) Hrandom)
      as (x & y & z & E & Hcore & Hring).
    destruct (planet_cloud random count k) as [_ Hl].
    destruct (cloud_point _ i _ x y z (fun c Hc => Hl i c Hi Hc) E)
      as (Hx & Hy & Hz).
    exists x, y, z. auto 6.
  - symmetry. apply Int_part_spec.
    rewrite INR_IZR_INZ.
    change (Z.of_nat Particles.PARTICLE_COUNT) with 5000%Z. lra.
Qed.

Lemma planet_cloud_shape_witness :
  exists x y z : R,
    fst (TextPoints.getPlanetPositions ExactDemo.zero_random 5 0) !! (0 * 3)
    = Some (Some x)
    /\ fst (TextPoints.getPlanetPositions ExactDemo.zero_random 5 0)
         !! (0 * 3 + 1) = Some (Some y)
    /\ fst (TextPoints.getPlanetPositions ExactDemo.zero_random 5 0)
         !! (0 * 3 + 2) = Some (Some z)
    /\ ((INR 0 < IZR (Int_part (INR 5 * 0.4)))%R ->
        (x * x + y * y + z * z <= 4)%R)
    /\ (~ (INR 0 < IZR (Int_part (INR 5 * 0.4)))%R ->
        (9.61 <= x * x + z * z <= 24.01)%R /\ (-0.15 <= y <= 0.15)%R).
Proof.
  apply (proj1 (planet_cloud_shape ExactDemo.zero_random 5 0 0
                  (fun k => ex_intro _ 0%R
                              (conj eq_refl
                                 (conj (Rle_refl 0) Rlt_0_1)))
                  ltac:(lia))).
Defined.

(** X15.  In exact arithmetic, with random numbers in [0, 1) and a scale
    [sigma >= 0], every point of the heart cloud lies in the box
    [|x| <= 4 sigma], [|y| <= 5.25 sigma], [|z| <= 0.3]. *)
Theorem heart_cloud_in_box :
  forall (random : nat -> option R) (sigma : R) (count k i : nat),
    ExactMath.unit_random random ->
    (0 <= sigma)%R ->
    i < count ->
    exists x y z : R,
      fst (TextPoints.getHeartPositions random count (Some sigma) k)
        !! (i * 3) = Some (Some x)
      /\ fst (TextPoints.getHeartPositions random count (Some sigma) k)
           !! (i * 3 + 1) = Some (Some y)
      /\ fst (TextPoints.getHeartPositions random count (Some sigma) k)
           !! (i * 3 + 2) = Some (Some z)
      /\ (Rabs x <= 4 * sigma)%R
      /\ (Rabs y <= 5.25 * sigma)%R
      /\ (Rabs z <= 0.3)%R.
Proof.
  intros random sigma count k i Hrandom Hsigma Hi.
  destruct (exact_heart random sigma (2 * i + k) Hrandom Hsigma)
    as (x & y & z & E & Hx' & Hy' & Hz').
  destruct (heart_cloud random (Some sigma) count k) as [_ Hl].
  destruct (cloud_point _ i _ x y z (fun c Hc => Hl i c Hi Hc) E)
    as (Hx & Hy & Hz).
  exists x, y, z. auto 7.
Qed.

Lemma heart_cloud_in_box_witness :
  exists x y z : R,
    fst (TextPoints.getHeartPositions ExactDemo.zero_random 1 (Some 0.7%R) 0)
      !! (0 * 3) = Some (Some x)
    /\ fst (TextPoints.getHeartPositions ExactDemo.zero_random 1 (Some 0.7%R) 0)
         !! (0 * 3 + 1) = Some (Some y)
    /\ fst (TextPoints.getHeartPositions ExactDemo.zero_random 1 (Some 0.7%R) 0)
         !! (0 * 3 + 2) = Some (Some z)
    /\ (Rabs x <= 4 * 0.7)%R
    /\ (Rabs y <= 5.25 * 0.7)%R
    /\ (Rabs z <= 0.3)%R.
Proof.
  apply (heart_cloud_in_box ExactDemo.zero_random 0.7%R 1 0 0).
  - intros k. exists 0%R. split; [reflexivity|lra].
  - lra.
  - lia.
Defined.

(* ================================================================== *)
(** * Further properties of the orchestration *)
(* ================================================================== *)

Section OrchestratorMore.
Import HandTracking Particles TextPoints Main Page.
Context {num : Type} {N : JsNum num} {M : JsMath num}.

Lemma setFormation_keeps (id : string) (o : Orchestrator num) :
  formationData (setFormation id o) = formationData o
  /\ tracker (setFormation id o) = tracker o
  /\ _lastGesture (setFormation id o) = _lastGesture o
  /\ positions (particles (setFormation id o)) = positions (particles o)
  /\ count (particles (setFormation id o)) = count (particles o).
Proof.
  unfold setFormation.
  destruct (decide (id = currentFormation o)); [repeat split|].
  destruct (get_property (formationData o) id) as [[cloud|]|]; repeat split.
Qed.

Lemma setFormation_switch (id : string) (o : Orchestrator num)
    (cloud : list num) :
  id <> currentFormation o ->
  formationData o !! id = Some cloud ->
  currentFormation (setFormation id o) = id
  /\ _targetPositions (particles (setFormation id o))
     = Some (wrap (count (particles o)) cloud).
Proof.
  intros Hne Hcloud. unfold setFormation, get_property.
  destruct (decide (id = currentFormation o)); [contradiction|].
  rewrite Hcloud. split; reflexivity.
Qed.

Lemma set_lastGesture_same (g : option Gesture) (o : Orchestrator num) :
  _lastGesture o = g -> set_lastGesture g o = o.
Proof. intros <-. now destruct o. Qed.

Lemma processGesture_fixed (o : Orchestrator num) :
  _lastGesture o = gesture (tracker o) -> processGesture o = o.
Proof.
  intros Hlast. unfold processGesture.
  destruct (negb (active (tracker o))); [reflexivity|].
  destruct (gesture (tracker o)) as [g|];
    [|now apply set_lastGesture_same].
  destruct (decide (Some g = _lastGesture o)) as [_|Hne]; [|congruence].
  now apply set_lastGesture_same.
Qed.

Lemma processGesture_keeps (o : Orchestrator num) :
  tracker (processGesture o) = tracker o
  /\ formationData (processGesture o) = formationData o
  /\ positions (particles (processGesture o)) = positions (particles o)
  /\ count (particles (processGesture o)) = count (particles o).
Proof.
  unfold processGesture.
  destruct (negb (active (tracker o))); [repeat split|].
  destruct (gesture (tracker o)) as [g|]; [|repeat split].
  destruct (decide (Some g = _lastGesture o)); [repeat split|].
  destruct (setFormation_keeps (GESTURE_TO_FORMATION g) o)
    as (Hd & Ht & _ & Hp & Hc).
  simpl. repeat split; assumption.
Qed.

Lemma processGesture_lastGesture (o : Orchestrator num) :
  active (tracker o) = true ->
  _lastGesture (processGesture o) = gesture (tracker o).
Proof. intros Ha. unfold processGesture. now rewrite Ha. Qed.

Lemma cycle_step (o : Orchestrator num) (i : nat) :
  (forall id, id ∈ F_values -> is_Some (formationData o !! id)) ->
  F_values !! i = Some (currentFormation o) ->
  F_values !! ((i + 1) mod 6) = Some (currentFormation (cycleFormation o)).
Proof.
  intros Hall Hcur.
  assert (Hnext : forall id : string,
            id <> currentFormation o -> id ∈ F_values ->
            currentFormation (setFormation id o) = id).
  { intros id Hne Hin. destruct (Hall id Hin) as [cloud Hcloud].
    apply (setFormation_switch id o cloud); assumption. }
  unfold cycleFormation.
  do 6 (destruct i as [|i];
        [injection Hcur as Hcur; rewrite <- Hcur;
         match goal with
         | |- context [indexOf F_values ?id 0] =>
             let k := eval vm_compute in (indexOf F_values id 0) in
             change (indexOf F_values id 0) with k
         end;
         simpl; rewrite Hnext;
         [reflexivity
         |rewrite <- Hcur; discriminate
         |unfold F_values; set_solver]|]).
  discriminate Hcur.
Qed.

Lemma cycleFormation_keeps (o : Orchestrator num) :
  formationData (cycleFormation o) = formationData o
  /\ tracker (cycleFormation o) = tracker o
  /\ _lastGesture (cycleFormation o) = _lastGesture o
  /\ positions (particles (cycleFormation o)) = positions (particles o).
Proof.
  unfold cycleFormation.
  destruct (F_values !! _) as [id|]; [|repeat split].
  destruct (setFormation_keeps id o) as (Hd & Ht & Hl & Hp & _).
  repeat split; assumption.
Qed.

Lemma cycle_clicks (n : nat) (o : Orchestrator num) (i : nat) :
  (forall id, id ∈ F_values -> is_Some (formationData o !! id)) ->
  F_values !! i = Some (currentFormation o) ->
  F_values !! ((i + n) mod 6) = Some (currentFormation (clicks n o))
  /\ formationData (clicks n o) = formationData o.
Proof.
  intros Hall Hcur.
  assert (Hi : i < 6) by (apply lookup_lt_Some in Hcur; exact Hcur).
  induction n as [|n [IHcur IHdata]].
  - rewrite Nat.add_0_r, Nat.mod_small by exact Hi. split; [exact Hcur|].
    reflexivity.
  - unfold clicks in *.
    change (Nat.iter (S n) cycleFormation o)
      with (cycleFormation (Nat.iter n cycleFormation o)).
    destruct (cycleFormation_keeps (Nat.iter n cycleFormation o))
      as (Hd & _).
    split; [|now rewrite Hd].
    replace ((i + S n) mod 6) with (((i + n) mod 6 + 1) mod 6).
    + apply cycle_step; [|exact IHcur].
      intros id Hin. rewrite IHdata. now apply Hall.
    + rewrite Nat.Div0.add_mod_idemp_l. f_equal. lia.
Qed.

Lemma feed_active (raws : list (option Gesture)) (t : HandTracker) :
  active (feed raws t) = active t.
Proof.
  revert t. induction raws as [|raw raws IH]; intros t; [reflexivity|].
  change (feed (raw :: raws) t) with (feed raws (debounce raw t)).
  rewrite IH. unfold debounce.
  now destruct (decide (raw = _gestureBuffer t)).
Qed.

Lemma debounce_state_debounce (raw : option Gesture) (t t' : HandTracker) :
  debounce_state t = debounce_state t' ->
  debounce_state (debounce raw t) = debounce_state (debounce raw t').
Proof.
  unfold debounce_state. intros H. injection H as Hg Hb Hc Hd Ha.
  unfold debounce. rewrite Hb, Hc, Hd, Hg, Ha.
  now destruct (decide (raw = _gestureBuffer t')).
Qed.

Lemma onResults_state (lm : list Landmark) (raw : option Gesture)
    (t t' : HandTracker) :
  _classifyGesture lm = Ok raw ->
  debounce_state t = debounce_state t' ->
  debounce_state (snd (_onResults (one_hand lm) t))
  = debounce_state (debounce raw t').
Proof.
  intros Hraw Hst.
  destruct (onResults_debounces lm raw t Hraw) as (p & -> & _). simpl.
  apply debounce_state_debounce. exact Hst.
Qed.

Lemma deliver_held (lm : list Landmark) (raw : option Gesture) (n : nat) :
  _classifyGesture lm = Ok raw ->
  forall (o : Orchestrator num) (t : HandTracker),
    debounce_state (tracker o) = debounce_state t ->
    debounce_state (tracker (deliver (replicate n (one_hand lm)) o))
    = debounce_state (feed (replicate n raw) t)
    /\ currentFormation (deliver (replicate n (one_hand lm)) o)
       = currentFormation o
    /\ formationData (deliver (replicate n (one_hand lm)) o)
       = formationData o
    /\ particles (deliver (replicate n (one_hand lm)) o) = particles o
    /\ _lastGesture (deliver (replicate n (one_hand lm)) o)
       = _lastGesture o.
Proof.
  intros Hraw. induction n as [|n IH]; intros o t Hst.
  - simpl. repeat split. exact Hst.
  - simpl.
    destruct (IH (onResults (one_hand lm) o) (debounce raw t))
      as (H1 & H2 & H3 & H4 & H5).
    { unfold onResults. simpl. now apply onResults_state. }
    split; [exact H1|]. unfold deliver in *. simpl in *.
    repeat split; assumption.
Qed.

End OrchestratorMore.

(** X16.  [precomputeFormations] leaves a cloud of [count * 3] numbers for
    the formation of each of the six gestures, sets the target of the
    particle system to the wrapped COSMOS cloud, and changes neither the
    current formation, nor the live positions, nor an entry of
    [formationData] under another key. *)
Theorem precompute_fills_every_formation :
  forall (num : Type) (N : JsNum num) (M : JsMath num) (random : nat -> num)
         (getArea : Particles.Vector3 num -> Particles.Vector3 num ->
                    Particles.Vector3 num -> num)
         (TextGeometry : string -> TextPoints.Geometry num)
         (k : nat) (o : Main.Orchestrator num),
    let o' := fst (Main.precomputeFormations random getArea TextGeometry k o) in
    (forall g : HandTracking.Gesture,
       exists cloud,
         Main.formationData o' !! Main.GESTURE_TO_FORMATION g = Some cloud
         /\ length cloud = Particles.count (Main.particles o) * 3)
    /\ (exists cosmos,
          Main.formationData o' !! Main.F_COSMOS = Some cosmos
          /\ Particles._targetPositions (Main.particles o')
             = Some (Particles.wrap (Particles.count (Main.particles o))
                       cosmos))
    /\ Main.currentFormation o' = Main.currentFormation o
    /\ Particles.positions (Main.particles o')
       = Particles.positions (Main.particles o)
    /\ (forall id, id ∉ Main.F_values ->
          Main.formationData o' !! id = Main.formationData o !! id).
Proof.
  intros num N M random getArea TextGeometry k o.
  unfold Main.precomputeFormations.
  pose proof (getSpherePositions_length random
                (Particles.count (Main.particles o)) (lit 12) k) as L1.
  destruct (TextPoints.getSpherePositions _ _ _ k) as [cosmos k1].
  pose proof (getPlanetPositions_length random
                (Particles.count (Main.particles o)) k1) as L2.
  destruct (TextPoints.getPlanetPositions _ _ k1) as [planet k2].
  pose proof (sampleSurface_length random getArea (TextGeometry "Carolina")
                (Particles.count (Main.particles o)) k2) as L3.
  unfold TextPoints.getTextPositions.
  destruct (TextPoints.sampleSurface _ _ (TextGeometry "Carolina") _ k2)
    as [carolina k3].
  pose proof (sampleSurface_length random getArea (TextGeometry "Te Quiero")
                (Particles.count (Main.particles o)) k3) as L4.
  destruct (TextPoints.sampleSurface _ _ (TextGeometry "Te Quiero") _ k3)
    as [tequiero k4].
  pose proof (getHeartPositions_length random
                (Particles.count (Main.particles o)) (lit 0.7) k4) as L5.
  destruct (TextPoints.getHeartPositions _ _ _ k4) as [heart k5].
  pose proof (getCompactPositions_length random
                (Particles.count (Main.particles o)) (lit 1.2) k5) as L6.
  destruct (TextPoints.getCompactPositions _ _ _ k5) as [compact k6].
  simpl in L1, L2, L3, L4, L5, L6.
  cbv zeta.
  cbn [fst Main.formationData Main.particles Main.currentFormation
       Particles._targetPositions Particles.positions Particles.setTarget
       Particles.count].
  split.
  { intros g; destruct g; cbn [Main.GESTURE_TO_FORMATION]; eexists;
      (split; [simplify_map_eq; reflexivity|assumption]). }
  split.
  { exists cosmos. split; [simplify_map_eq|]; reflexivity. }
  split; [reflexivity|]. split; [reflexivity|].
  intros id Hid. unfold Main.F_values in Hid.
  rewrite !lookup_insert_ne; [reflexivity|..]; intros Heq; apply Hid;
    rewrite <- Heq; set_solver.
Qed.

(** X17.  When every formation has a cloud and the current formation is the
    one at position [i] of PLANET, CAROLINA, TEQUIERO, HEART, COSMOS,
    COMPACT, a click on the formation button makes the one at position
    [(i + 1) mod 6] current, keeps the clouds and the live positions, and
    six clicks come back to the formation they started from. *)
Theorem cycle_visits_formations_in_order :
  forall (num : Type) (N : JsNum num) (o : Main.Orchestrator num) (i : nat),
    (forall id, id ∈ Main.F_values -> is_Some (Main.formationData o !! id)) ->
    Main.F_values !! i = Some (Main.currentFormation o) ->
    Main.F_values !! ((i + 1) mod 6)
    = Some (Main.currentFormation (Main.cycleFormation o))
    /\ Main.formationData (Main.cycleFormation o) = Main.formationData o
    /\ Particles.positions (Main.particles (Main.cycleFormation o))
       = Particles.positions (Main.particles o)
    /\ Main.currentFormation (Page.clicks 6 o) = Main.currentFormation o.
Proof.
  intros num N o i Hall Hcur.
  destruct (cycleFormation_keeps o) as (Hd & _ & _ & Hp).
  split; [now apply cycle_step|]. split; [exact Hd|]. split; [exact Hp|].
  destruct (cycle_clicks 6 o i Hall Hcur) as [H6 _].
  assert (Hi : i < 6) by (apply lookup_lt_Some in Hcur; exact Hcur).
  replace ((i + 6) mod 6) with i in H6.
  - rewrite Hcur in H6. congruence.
  - rewrite <- (Nat.mod_small i 6) at 1 by exact Hi.
    now rewrite <- (Nat.Div0.mod_add i 1 6).
Qed.

(** X18.  [processGesture] reacts to a change of the committed gesture
    only: it changes nothing when the tracker is off or when the committed
    gesture is the one it saw last; a second call in a row changes nothing;
    and a formation chosen with the button stays when it runs again while
    the same gesture is held. *)
Theorem processGesture_reacts_to_changes_only :
  forall (num : Type) (N : JsNum num) (o : Main.Orchestrator num),
    (HandTracking.active (Main.tracker o) = false ->
     Main.processGesture o = o)
    /\ (Main._lastGesture o = HandTracking.gesture (Main.tracker o) ->
        Main.processGesture o = o)
    /\ Main.processGesture (Main.processGesture o) = Main.processGesture o
    /\ Main.processGesture (Main.cycleFormation (Main.processGesture o))
       = Main.cycleFormation (Main.processGesture o).
Proof.
  intros num N o.
  assert (Hoff : forall o' : Main.Orchestrator num,
            HandTracking.active (Main.tracker o') = false ->
            Main.processGesture o' = o').
  { intros o' Ha. unfold Main.processGesture. now rewrite Ha. }
  split; [apply Hoff|]. split; [apply processGesture_fixed|].
  destruct (processGesture_keeps o) as (Ht & _).
  destruct (cycleFormation_keeps (Main.processGesture o))
    as (_ & Htc & Hlc & _).
  destruct (HandTracking.active (Main.tracker o)) eqn:Ha.
  - pose proof (processGesture_lastGesture o Ha) as Hl.
    split; apply processGesture_fixed.
    + now rewrite Ht.
    + now rewrite Htc, Hlc, Ht.
  - split; apply Hoff.
    + now rewrite Ht.
    + now rewrite Htc, Ht.
Qed.

Lemma processGesture_reacts_to_changes_only_witness :
  Main.processGesture Page.camera_on = Page.camera_on.
Proof.
  apply (proj1 (proj2 (processGesture_reacts_to_changes_only
                         float float_JsNum Page.camera_on))).
  reflexivity.
Defined.

(** X19.  With the camera on, a hand whose landmarks classify as gesture
    [g], seen on [n] detection frames in a row with [n] at least 1 and at
    least the debounce threshold, makes the next [processGesture] switch to
    the formation of [g]: that formation becomes current and its wrapped
    cloud the target, the live positions are not touched, and [g] is
    remembered as the last gesture.  This needs a cloud for the formation,
    another current formation and another last gesture. *)
Theorem held_gesture_switches_formation :
  forall (num : Type) (N : JsNum num) (o : Main.Orchestrator num)
         (lm : list HandTracking.Landmark) (g : HandTracking.Gesture)
         (cloud : list num) (n : nat),
    HandTracking.active (Main.tracker o) = true ->
    1 <= n ->
    HandTracking._DEBOUNCE (Main.tracker o) <= n ->
    HandTracking._classifyGesture lm = Ok (Some g) ->
    Main._lastGesture o <> Some g ->
    Main.currentFormation o <> Main.GESTURE_TO_FORMATION g ->
    Main.formationData o !! Main.GESTURE_TO_FORMATION g = Some cloud ->
    let o' :=
      Main.processGesture
        (Page.deliver (replicate n (HandTracking.one_hand lm)) o) in
    Main.currentFormation o' = Main.GESTURE_TO_FORMATION g
    /\ Particles._targetPositions (Main.particles o')
       = Some (Particles.wrap (Particles.count (Main.particles o)) cloud)
    /\ Particles.positions (Main.particles o')
       = Particles.positions (Main.particles o)
    /\ Main._lastGesture o' = Some g
    /\ HandTracking.gesture (Main.tracker o') = Some g.
Proof.
  intros num N o lm g cloud n Hactive Hn Hdeb Hraw Hlast Hcur Hcloud.
  destruct n as [|n]; [lia|].
  set (o3 := Page.deliver (replicate (S n) (HandTracking.one_hand lm)) o).
  destruct (deliver_held lm (Some g) (S n) Hraw o (Main.tracker o) eq_refl)
    as (Hst & Hc3 & Hd3 & Hp3 & Hl3).
  fold o3 in Hst, Hc3, Hd3, Hp3, Hl3.
  destruct (feed_held (Some g) n (Main.tracker o)) as (_ & Hcount & _ & Hg).
  unfold Page.debounce_state in Hst.
  pose proof (f_equal (fun s => fst (fst (fst (fst s)))) Hst) as Hg3.
  pose proof (f_equal snd Hst) as Ha3.
  cbn [fst snd] in Hg3, Ha3.
  rewrite Hg in Hg3 by lia.
  assert (Hactive3 : HandTracking.active (Main.tracker o3) = true).
  { now rewrite Ha3, feed_active. }
  intros o'. subst o'. unfold Main.processGesture.
  rewrite Hactive3, Hg3. simpl.
  destruct (decide (Some g = Main._lastGesture o3)) as [Heq|_];
    [rewrite Hl3 in Heq; congruence|].
  destruct (setFormation_switch (Main.GESTURE_TO_FORMATION g) o3 cloud)
    as [Hc Ht]; [rewrite Hc3; congruence|now rewrite Hd3|].
  destruct (setFormation_keeps (Main.GESTURE_TO_FORMATION g) o3)
    as (_ & Htr & _ & Hp & _).
  simpl. rewrite Hc, Ht, Hp, Htr, Hp3.
  repeat split. exact Hg3.
Qed.

Lemma held_gesture_switches_formation_witness :
  Main.currentFormation
    (Main.processGesture
       (Page.deliver (replicate 3 (HandTracking.one_hand HandTracking.ily_hand))
          Page.camera_on))
  = Main.F_HEART.
Proof.
  apply (held_gesture_switches_formation float float_JsNum Page.camera_on
           HandTracking.ily_hand HandTracking.ILY [1; 1; 1; 2; 2; 2]%float 3).
  - reflexivity.
  - lia.
  - vm_compute. lia.
  - vm_compute. reflexivity.
  - discriminate.
  - discriminate.
  - reflexivity.
Defined.

(** X20.  In [animate] the hand has priority over the pointer: with the
    camera on and a hand in view the attractor is the point of the
    fingertip, and a pointer move before the frame changes nothing of what
    the frame does to the particles; with no hand in view and the
    pointer gone, there is no attractor; and after the camera is switched
    off and the pointer has left, the frame is a plain [update] without
    attractor of the particle system as it was. *)
Theorem animate_prefers_hand :
  forall (getAttractorFromNDC : float * float -> Particles.Vector3 float)
         (sin : float -> float) (elapsed : float) (p : Page.State),
    (forall finger,
       HandTracking.active (Main.tracker (Page.orchestrator p)) = true ->
       HandTracking.fingerPos (Main.tracker (Page.orchestrator p))
       = Some finger ->
       Particles.attractor
         (Main.particles
            (Page.orchestrator
               (Page.animate getAttractorFromNDC sin elapsed p)))
       = Some (getAttractorFromNDC finger)
       /\ forall clientX clientY innerWidth innerHeight,
            Main.particles
              (Page.orchestrator
                 (Page.animate getAttractorFromNDC sin elapsed
                    (Page.pointermove clientX clientY innerWidth innerHeight
                       p)))
            = Main.particles
                (Page.orchestrator
                   (Page.animate getAttractorFromNDC sin elapsed p)))
    /\ (HandTracking.active (Main.tracker (Page.orchestrator p)) = false
        \/ HandTracking.fingerPos (Main.tracker (Page.orchestrator p)) = None ->
        Particles.attractor
          (Main.particles
             (Page.orchestrator
                (Page.animate getAttractorFromNDC sin elapsed
                   (Page.pointerleave p))))
        = None)
    /\ (HandTracking.active (Main.tracker (Page.orchestrator p)) = true ->
        forall camera,
          Main.particles
            (Page.orchestrator
               (Page.animate getAttractorFromNDC sin elapsed
                  (Page.pointerleave (Page.click_camera camera p))))
          = Particles.update elapsed
              (EngineCalls.set_attractor None
                 (Main.particles (Page.orchestrator p)))).
Proof.
  intros getAttractorFromNDC sin elapsed p.
  assert (Hattr : forall q,
            Particles.attractor
              (Main.particles
                 (Page.orchestrator
                    (Page.animate getAttractorFromNDC sin elapsed q)))
            = Page.choose_attractor getAttractorFromNDC
                (Page.set_orchestrator
                   (Main.processGesture (Page.orchestrator q)) q)).
  { intros q. unfold Page.animate.
    now destruct (decide (_ = Main.F_PLANET)). }
  split; [|split].
  - intros finger Ha Hf.
    pose proof (processGesture_keeps (Page.orchestrator p)) as [Ht _].
    split.
    + rewrite Hattr. unfold Page.choose_attractor. simpl.
      now rewrite Ht, Ha, Hf.
    + intros clientX clientY innerWidth innerHeight.
      unfold Page.animate, Page.choose_attractor, Page.pointermove. simpl.
      rewrite Ht, Ha, Hf.
      destruct (decide (_ = Main.F_PLANET)); reflexivity.
  - intros Hno. rewrite Hattr. unfold Page.choose_attractor. simpl.
    destruct (processGesture_keeps (Page.orchestrator p)) as [-> _].
    destruct Hno as [-> | ->]; [reflexivity|].
    now destruct (HandTracking.active _).
  - intros Ha camera. unfold Page.animate, Page.click_camera,
      Page.toggleCamera. rewrite Ha. simpl.
    destruct (decide (_ = Main.F_PLANET)); reflexivity.
Qed.

Lemma animate_prefers_hand_witness :
  Particles.attractor
    (Main.particles
       (Page.orchestrator
          (Page.animate (fun ndc => Particles.mkVector3 (fst ndc) (snd ndc) 0%float)
             (fun a => a) 0%float (Page.pointerleave Page.page_on))))
  = None.
Proof.
  apply (animate_prefers_hand
           (fun ndc => Particles.mkVector3 (fst ndc) (snd ndc) 0%float)
           (fun a => a) 0%float Page.page_on).
  right. reflexivity.
Defined.

Lemma cycle_visits_formations_in_order_witness :
  Main.F_values !! ((0 + 1) mod 6)
  = Some (Main.currentFormation (Main.cycleFormation Page.all_clouds)).
Proof.
  apply (cycle_visits_formations_in_order float float_JsNum
           Page.all_clouds 0).
  - intros id Hid. unfold Main.F_values in Hid.
    repeat (apply elem_of_cons in Hid as [->|Hid]; [vm_compute; eauto|]).
    now apply elem_of_nil in Hid.
  - reflexivity.
Defined.

(* ================================================================== *)
(** * Properties of the construction *)
(* ================================================================== *)

Section ConstructionFacts.
Import Particles TextPoints Points Construction.
Context {num : Type} {N : JsNum num} {M : JsMath num}.
Variable random : nat -> num.

Lemma build_point_body (i : nat) (arr : list num) (k : nat) :
  build_point random i arr k
  = (store_point arr i (ball random (lit 12) k), 6 + k).
Proof. reflexivity. Qed.

Lemma buildGeometry_loop (count k : nat) :
  _buildGeometry random count k
  = for_loop (build_point random) 0 count (Float32Array (count * 3)) (4 + k).
Proof. reflexivity. Qed.

Lemma buildGeometry_cloud (count k : nat) :
  snd (_buildGeometry random count k) = 6 * count + (4 + k)
  /\ forall i c, i < count -> c < 3 ->
       fst (_buildGeometry random count k) !! (i * 3 + c)
       = Some (fround (coord c (ball random (lit 12) (6 * i + (4 + k))))).
Proof.
  rewrite buildGeometry_loop.
  apply (fresh_loop_points (fun _ k => ball random (lit 12) k) 6
           (build_point random) count (4 + k) build_point_body).
Qed.

Lemma buildGeometry_length (count k : nat) :
  length (fst (_buildGeometry random count k)) = count * 3.
Proof.
  rewrite buildGeometry_loop.
  rewrite for_loop_length, Float32Array_length; [reflexivity|].
  intros i arr k'. rewrite build_point_body. simpl.
  unfold store_point. destruct (ball random (lit 12) k') as [[x y] z].
  now rewrite !store_length.
Qed.

Lemma update_idle (elapsed : num) (s : ParticleSystem num) :
  _targetPositions s = None -> attractor s = None ->
  positions (update elapsed s) = positions s.
Proof.
  intros Ht Ha. simpl. generalize (seq 0 (count s)). intros l.
  induction l as [|i l IH] using rev_ind; [reflexivity|].
  rewrite fold_left_app. simpl. rewrite IH.
  unfold update_particle, attract, lerp. now rewrite Ht, Ha.
Qed.

Lemma run_idle (frames : list num) (s : ParticleSystem num) :
  _targetPositions s = None -> attractor s = None ->
  positions (run frames s) = positions s.
Proof.
  intros Ht Ha. induction frames as [|elapsed frames IH] using rev_ind;
    [reflexivity|].
  rewrite run_snoc. destruct (run_fields frames s) as (_ & Ht' & Ha' & _).
  rewrite update_idle; [exact IH|congruence|congruence].
Qed.

End ConstructionFacts.

(** X21.  The constructor makes 30012 calls of [Math.random()]: four for
    the identifier of the geometry, six for each of its 5000 particles, four
    for the identifier of the material and four for that of the mesh.  It
    fills a position buffer of 15000 numbers in which particle [i] is the
    point of the radius-12 ball computed from the three draws that start at
    number [6 * i + 4]; the system has no target and no attractor, and as
    long as it has neither, frames do not move it. *)
Theorem constructor_cloud :
  forall (num : Type) (N : JsNum num) (M : JsMath num) (random : nat -> num)
         (k : nat),
    let s := fst (Construction.construct random k) in
    snd (Construction.construct random k) = 30012 + k
    /\ Particles.count s = 5000
    /\ length (Particles.positions s) = 15000
    /\ (forall i c, i < 5000 -> c < 3 ->
          Particles.positions s !! (i * 3 + c)
          = Some (fround (Points.coord c
                            (Points.ball random (lit 12) (6 * i + 4 + k)))))
    /\ Particles._targetPositions s = None
    /\ Particles.attractor s = None
    /\ (forall frames,
          Particles.positions (Particles.run frames s)
          = Particles.positions s).
Proof.
  intros num N M random k.
  unfold Construction.construct, Construction.generateUUID, TextPoints.bind.
  pose proof (buildGeometry_cloud random Particles.PARTICLE_COUNT k)
    as [Hk Hpts].
  pose proof (buildGeometry_length random Particles.PARTICLE_COUNT k) as Hlen.
  destruct (Construction._buildGeometry random Particles.PARTICLE_COUNT k)
    as [initial k'].
  cbn [fst snd] in *. unfold TextPoints.ret, TextPoints.Math_random.
  cbn [fst snd].
  assert (H5000 : Particles.PARTICLE_COUNT = 5000) by reflexivity.
  split; [rewrite Hk, H5000; reflexivity|].
  split; [exact H5000|].
  split; [exact (eq_trans Hlen (f_equal (fun n => n * 3) H5000))|].
  split.
  { intros i c Hi Hc. rewrite <- Nat.add_assoc.
    apply Hpts; [rewrite H5000; exact Hi|exact Hc]. }
  split; [reflexivity|]. split; [reflexivity|].
  intros frames. now apply run_idle.
Qed.

(* ================================================================== *)
(** * The cloud stays in its ball *)
(* ================================================================== *)

Section BallFacts.
Import Particles TextPoints Points Construction ExactMath Main.

Lemma frame_inside (s : ParticleSystem xreal) (target : list xreal)
    (rho : R) (elapsed : xreal) (i : nat) :
  _targetPositions s = Some target ->
  attractor s = None ->
  lerpSpeed s = lit 0.08 ->
  i < count s ->
  inside rho (positions s) i ->
  inside rho target i ->
  inside rho (positions (update elapsed s)) i.
Proof.
  intros Ht Ha Hs Hi (x & y & z & Hx & Hy & Hz & Hp)
    (tx & ty & tz & Htx & Hty & Htz & Htt).
  assert (Hstep : forall k pk tk,
            k < count s * 3 ->
            positions s !! k = Some (Some pk) ->
            target !! k = Some (Some tk) ->
            positions (update elapsed s) !! k
            = Some (Some (0.92 * pk + 0.08 * tk)%R)).
  { intros k pk tk Hk Hpk Htk.
    rewrite (update_lerp_lookup s target elapsed k Ht Ha Hk), Hpk.
    unfold lerp1, load. rewrite Htk, Hs. simpl.
    do 2 f_equal. unfold Q2R. simpl. lra. }
  exists (0.92 * x + 0.08 * tx)%R, (0.92 * y + 0.08 * ty)%R,
    (0.92 * z + 0.08 * tz)%R.
  split; [apply Hstep; [lia|assumption..]|].
  split; [apply Hstep; [lia|assumption..]|].
  split; [apply Hstep; [lia|assumption..]|].
  pose proof (Rle_0_sqr (x - tx)) as Hqx.
  pose proof (Rle_0_sqr (y - ty)) as Hqy.
  pose proof (Rle_0_sqr (z - tz)) as Hqz.
  unfold Rsqr in Hqx, Hqy, Hqz. nra.
Qed.

Lemma run_inside (s : ParticleSystem xreal) (target : list xreal)
    (rho : R) (frames : list xreal) (i : nat) :
  _targetPositions s = Some target ->
  attractor s = None ->
  lerpSpeed s = lit 0.08 ->
  i < count s ->
  inside rho (positions s) i ->
  inside rho target i ->
  inside rho (positions (run frames s)) i.
Proof.
  intros Ht Ha Hs Hi Hp Htt.
  induction frames as [|elapsed frames IH] using rev_ind; [exact Hp|].
  rewrite run_snoc. destruct (run_fields frames s) as (Hc & Ht' & Ha' & Hs').
  apply (frame_inside (run frames s) target);
    [congruence|congruence|congruence|now rewrite Hc|exact IH|exact Htt].
Qed.

Lemma lit_12 : (lit 12 : xreal) = Some 12%R.
Proof. simpl. f_equal. unfold Q2R. simpl. lra. Qed.

Lemma buildGeometry_inside (random : nat -> xreal) (n k i : nat) :
  unit_random random -> i < n ->
  inside 12 (fst (_buildGeometry random n k)) i.
Proof.
  intros Hrandom Hi.
  destruct (exact_ball random 12 (6 * i + (4 + k)) Hrandom)
    as (x & y & z & E & Hb);
    [lra|].
  rewrite <- lit_12 in E.
  destruct (buildGeometry_cloud random n k) as [_ Hl].
  destruct (cloud_point _ i _ x y z (fun c Hc => Hl i c Hi Hc) E)
    as (Hx & Hy & Hz).
  exists x, y, z. auto.
Qed.

Lemma cosmos_target_inside (random : nat -> xreal) (n k i : nat) :
  unit_random random -> i < n ->
  inside 12 (wrap n (fst (getSpherePositions random n (lit 12) k))) i.
Proof.
  intros Hrandom Hi.
  destruct (exact_ball random 12 (3 * i + k) Hrandom) as (x & y & z & E & Hb);
    [lra|].
  rewrite <- lit_12 in E.
  destruct (sphere_cloud random (lit 12) n k) as [_ Hl].
  assert (Hw : forall c, c < 3 ->
            wrap n (fst (getSpherePositions random n (lit 12) k))
              !! (i * 3 + c)
            = Some (fround (coord c (ball random (lit 12) (3 * i + k))))).
  { intros c Hc. rewrite wrap_lookup by assumption.
    rewrite (wrapped_source _ n i c); [|lia|apply getSpherePositions_length
                                        |exact Hc].
    rewrite Nat.mod_small by exact Hi. rewrite (Hl i c Hi Hc).
    reflexivity. }
  destruct (cloud_point _ i _ x y z Hw E) as (Hx & Hy & Hz).
  exists x, y, z. auto.
Qed.

End BallFacts.

(** X22.  In exact arithmetic, without attractor and with the lerp speed
    0.08, a particle that lies within distance [rho] of the origin and
    whose target point does too, lies within that distance after every
    number of frames. *)
Theorem lerp_stays_in_ball :
  forall (s : Particles.ParticleSystem xreal) (target : list xreal)
         (rho : R) (frames : list xreal) (i : nat),
    Particles._targetPositions s = Some target ->
    Particles.attractor s = None ->
    Particles.lerpSpeed s = lit 0.08 ->
    i < Particles.count s ->
    Construction.inside rho (Particles.positions s) i ->
    Construction.inside rho target i ->
    Construction.inside rho
      (Particles.positions (Particles.run frames s)) i.
Proof. intros. now apply (run_inside s target). Qed.

Lemma lerp_stays_in_ball_witness :
  Construction.inside 2
    (Particles.positions (Particles.run [Some 0%R; Some 1%R] Demo.exact_origin))
    0.
Proof.
  apply (lerp_stays_in_ball Demo.exact_origin
           [Some 1%R; Some 1%R; Some 1%R] 2 [Some 0%R; Some 1%R] 0).
  - reflexivity.
  - reflexivity.
  - reflexivity.
  - simpl. lia.
  - exists 0%R, 0%R, 0%R. repeat split. lra.
  - exists 1%R, 1%R, 1%R. repeat split. lra.
Defined.

(** X23.  In exact arithmetic, with random numbers in [0, 1): the page as
    it starts, the particle system fresh from its constructor and
    [precomputeFormations] run on it, keeps every one of its particles
    within distance 12 of the origin on every frame, as long as no
    attractor is set. *)
Theorem boot_cloud_stays_within_12 :
  forall (random : nat -> xreal)
         (getArea : Particles.Vector3 xreal -> Particles.Vector3 xreal ->
                    Particles.Vector3 xreal -> xreal)
         (TextGeometry : string -> TextPoints.Geometry xreal)
         (title : string) (k0 k1 : nat) (frames : list xreal) (i : nat),
    ExactMath.unit_random random ->
    i < Particles.PARTICLE_COUNT ->
    let o :=
      fst (Main.precomputeFormations random getArea TextGeometry k1
             (Main.boot
                (fst (Construction._buildGeometry random
                        Particles.PARTICLE_COUNT k0)) title)) in
    Construction.inside 12
      (Particles.positions (Particles.run frames (Main.particles o))) i.
Proof.
  intros random getArea TextGeometry title k0 k1 frames i Hrandom Hi.
  unfold Main.precomputeFormations, Main.boot, Particles.new_ParticleSystem.
  cbn [Main.particles Particles.count].
  revert Hi. generalize Particles.PARTICLE_COUNT. intros n Hi.
  pose proof (cosmos_target_inside random n k1 i Hrandom Hi) as Htarget.
  pose proof (buildGeometry_inside random n k0 i Hrandom Hi) as Hstart.
  destruct (TextPoints.getSpherePositions random n (lit 12) k1)
    as [cosmos k2].
  destruct (TextPoints.getPlanetPositions _ _ k2) as [planet k3].
  destruct (TextPoints.getTextPositions _ _ _ _ _ k3) as [carolina k4].
  destruct (TextPoints.getTextPositions _ _ _ _ _ k4) as [tequiero k5].
  destruct (TextPoints.getHeartPositions _ _ _ k5) as [heart k6].
  destruct (TextPoints.getCompactPositions _ _ _ k6) as [compact k7].
  cbn [fst] in Htarget. cbv zeta. cbn [fst Main.particles].
  apply (run_inside _ (Particles.wrap n cosmos) 12 frames i);
    [reflexivity|reflexivity|reflexivity|exact Hi|exact Hstart
    |exact Htarget].
Qed.

Lemma boot_cloud_stays_within_12_witness :
  Construction.inside 12
    (Particles.positions
       (Particles.run [Some 0%R]
          (Main.particles
             (fst (Main.precomputeFormations ExactDemo.zero_random
                     ExactDemo.unit_area (fun _ => ExactDemo.triangle) 0
                     (Main.boot
                        (fst (Construction._buildGeometry
                                ExactDemo.zero_random
                                Particles.PARTICLE_COUNT 0))
                        String.EmptyString)))))) 7.
Proof.
  apply (boot_cloud_stays_within_12 ExactDemo.zero_random
           ExactDemo.unit_area (fun _ => ExactDemo.triangle)
           String.EmptyString 0 0 [Some 0%R] 7).
  - intros k. exists 0%R. split; [reflexivity|lra].
  - unfold Particles.PARTICLE_COUNT. lia.
Defined.
